(** * Panel layouts: collapse controllers, tween engine, tab group,
      snap carousel and panel configurator

    A shallow embedding of the layout components of the panels library
    and the properties its specification states about them.

    Conventions of the embedding.
    - A JavaScript [number] that holds a size, a width or a time is a
      rational [Q].  Sums, differences, products and quotients are
      exact: the rounding of IEEE doubles, half a unit in the last place
      per operation, is not modelled, and no property below rests on an
      equality that such a rounding would break.  The one place where
      the rounding decides between two different results,
      [Math.round (x * 1000) / 1000], is modelled with it
      ([JS.double]).  A [number] that holds an index is a [Z].
    - React state is an explicit record; a handler is a function from
      the state its closure captured to the next state.
    - The imperative panel handle of the resizable-panel primitive is an
      external collaborator: the model records the calls made on it and
      is told, step by step, whether [panelRef.current] is non-null.

    The file has three parts: the embedding (one module per component),
    the properties the specification states, and further properties of
    the code. *)

From Stdlib Require Import QArith Qround Qminmax Qabs ZArith List Bool Lia Lqa String.
From Stdlib Require Import Sorted.
Import ListNotations.

Local Open Scope Q_scope.

(* ================================================================= *)
(** * Part I: the embedding *)
(* ================================================================= *)

(** ** JavaScript numbers *)

Module JS.

(** [x < y] on numbers. *)
Definition ltb (x y : Q) : bool := negb (Qle_bool y x).

(** [x >= y] on numbers. *)
Definition geb (x y : Q) : bool := Qle_bool y x.

(** [x > y] on numbers. *)
Definition gtb (x y : Q) : bool := negb (Qle_bool x y).

(** [x === 0] on numbers. *)
Definition is_zero (x : Q) : bool := Qeq_bool x 0.

(** Truthiness of a number: every number but zero. *)
Definition truthy (x : Q) : bool := negb (is_zero x).

(** [x || y] on numbers. *)
Definition or_else (x y : Q) : Q := if truthy x then x else y.

(** [Math.round]: the nearest integer, halves towards plus infinity. *)
Definition Math_round (x : Q) : Z := Qfloor (x + (1 # 2)).

(** [Math.pow (x, 3)]. *)
Definition pow3 (x : Q) : Q := x * x * x.

(** The exponent of the leading bit of a number above zero: the [k]
    with [2 ^ k <= x < 2 ^ (k + 1)]. *)
Definition floor_log2 (x : Q) : Z :=
  let k := (Z.log2 (Qnum x) - Z.log2 (Zpos (Qden x)))%Z in
  if Qle_bool (2 ^ k) x then k else (k - 1)%Z.

(** The nearest integer, halves to the even one. *)
Definition round_half_even (x : Q) : Z :=
  let f := Qfloor x in
  match Qcompare (x - inject_Z f) (1 # 2) with
  | Lt => f
  | Gt => (f + 1)%Z
  | Eq => if Z.even f then f else (f + 1)%Z
  end.

(** The double nearest to [x], halves to the even mantissa: what an
    arithmetic operation on doubles returns for the exact result [x].
    A double is a multiple of [2 ^ e] with a mantissa of at most 53
    bits and [e >= -1074]; results beyond the largest double, where
    JavaScript gives [Infinity], are outside the model. *)
Definition double (x : Q) : Q :=
  if is_zero x then 0
  else
    let e := Z.max (floor_log2 (Qabs x) - 52) (-1074) in
    let m := round_half_even (Qabs x / 2 ^ e) in
    Qred (if Qle_bool 0 x then inject_Z m * 2 ^ e else - (inject_Z m * 2 ^ e)).

(** [Math.round (x * 1000) / 1000]: [x] to three decimals.  The product
    and the quotient are rounded to doubles as JavaScript rounds them:
    [Math.round] sees the double [x * 1000], which can lie on the other
    side of a half than the exact product (for the double nearest to
    5.0005 the product is the double 5000.5 and the result 5.001, where
    the exact product is below 5000.5). *)
Definition round_milli (x : Q) : Q :=
  double (inject_Z (Math_round (double (x * 1000))) / 1000).

(** [a?.[i] ?? d]: the element of an optional array, or [d] when the
    array is missing or too short. *)
Definition at_or (a : option (list Q)) (i : nat) (d : Q) : Q :=
  match a with
  | Some l => nth i l d
  | None => d
  end.

End JS.

(** The rounding is evaluated on numerals only; on terms with variables it
    stays folded. *)
Opaque JS.double JS.round_milli.

(** ** Tween engine: [animatePanel]

    The function is defined, with the same text, inside ThreePanelLayout
    (ThreePanelLayout.tsx, lines 136-193) and inside the single-panel
    version of ConfigurablePanelLayout (part_005, lines 231-288). *)

Module Tween.

(** What one run does to the outside world, in order. *)
Inductive Effect : Type :=
| Resize (size : Q)        (* panelRef.current.resize(size) *)
| Collapse                 (* panelRef.current.collapse() *)
| Complete                 (* onComplete() *)
| Schedule (delay : Q).    (* requestAnimationFrame(() => setTimeout(animate, delay)) *)

(** The surroundings of one run.  [handle k] tells whether
    [panelRef.current] is non-null when [animate] is entered with
    [currentStep = k]; the test at the top of [animatePanel] and the
    first call of [animate] happen in the same synchronous block, so
    both read [handle 0].  [now] is the value of [performance.now()]
    stored in [startTimeRef.current]. *)
Record Env : Type := { handle : nat -> bool; now : Q }.

Definition steps : nat := 10.

(** The cubic ease-in-out curve. *)
Definition eased (progress : Q) : Q :=
  if JS.ltb progress (1 # 2)
  then 4 * progress * progress * progress
  else 1 - JS.pow3 (-(2) * progress + 2) / 2.

(** [currentStep / steps]. *)
Definition progress_of (currentStep : nat) : Q :=
  inject_Z (Z.of_nat currentStep) / inject_Z (Z.of_nat steps).

(** The delay between two steps, [animationDuration / steps]. *)
Definition step_delay (animationDuration : Q) : Q :=
  animationDuration / inject_Z (Z.of_nat steps).

Section Run.

Variable env : Env.
Variable animationDuration : Q.
Variables fromSize toSize : Q.
(** Whether the optional [onComplete] argument was supplied. *)
Variable onComplete : bool.

(** The inner closure [animate]; [currentStep] is the value of the
    captured counter on entry.  Every call that does not stop schedules
    one further call, so the chain of calls is a loop; [fuel] bounds its
    length and [None] means the bound was too small. *)
Fixpoint animate (fuel : nat) (currentStep : nat) : option (list Effect) :=
  match fuel with
  | O => None
  | S fuel' =>
      if negb (handle env currentStep) || negb (JS.truthy (now env))
      then Some []
      else
        let currentStep := S currentStep in
        let progress := progress_of currentStep in
        if JS.geb progress 1 then
          Some ((if JS.is_zero toSize then Collapse else Resize toSize)
                  :: (if onComplete then [Complete] else []))
        else
          let newSize := fromSize + (toSize - fromSize) * eased progress in
          match animate fuel' currentStep with
          | None => None
          | Some rest =>
              Some (Resize newSize :: Schedule (step_delay animationDuration) :: rest)
          end
  end.

Definition animatePanel (fuel : nat) : option (list Effect) :=
  if negb (handle env O) then Some [] else animate fuel O.

End Run.

(** The calls made on the panel handle. *)
Definition is_handle_call (e : Effect) : bool :=
  match e with Resize _ | Collapse => true | _ => false end.

Definition is_complete (e : Effect) : bool :=
  match e with Complete => true | _ => false end.

Definition handle_calls (t : list Effect) : list Effect := filter is_handle_call t.

Definition completions (t : list Effect) : nat := List.length (filter is_complete t).

Definition completed (t : list Effect) : bool := existsb is_complete t.

(** The effects of the eased step number [k] (1 <= k <= 9). *)
Definition eased_step (animationDuration fromSize toSize : Q) (k : nat) : list Effect :=
  [ Resize (fromSize + (toSize - fromSize) * eased (progress_of k));
    Schedule (step_delay animationDuration) ].

(** The effects of the final step. *)
Definition final_step (toSize : Q) (onComplete : bool) : list Effect :=
  (if JS.is_zero toSize then Collapse else Resize toSize)
    :: (if onComplete then [Complete] else []).

(** An environment in which the handle never goes away. *)
Definition steady (t : Q) : Env := {| handle := fun _ => true; now := t |}.

(** An environment in which the handle is gone from step [j] on. *)
Definition lost_at (j : nat) (t : Q) : Env :=
  {| handle := fun k => Nat.ltb k j; now := t |}.

End Tween.

(** ** Regions of a row *)

Inductive Region : Type := Left | Middle | Right.

(** The sizes handed to [onPanelResize]. *)
Record Sizes : Type := { left : Q; middle : Q; right : Q }.

(** A sequence of state setters, applied in the order written. *)
Definition set_all {S : Type} (setters : list (S -> S)) (s : S) : S :=
  fold_left (fun acc f => f acc) setters s.

(** ** ThreePanelLayout (ThreePanelLayout.tsx, lines 83-600) *)

Module ThreePanelLayout.

Record Props : Type := {
  collapsiblePanels_left : bool;     (* collapsiblePanels.left, [undefined] read as false *)
  collapsiblePanels_right : bool;
  defaultSizes_left : Q;
  defaultSizes_middle : Q;
  defaultSizes_right : Q;
  collapsed_left : bool;             (* collapsed.left, [undefined] read as false *)
  collapsed_right : bool;
  animationDuration : Q;
  onPanelResize : bool               (* whether the callback was supplied *)
}.

(** The [useState] cells of the component. *)
Record State : Type := {
  leftCollapsed : bool;
  rightCollapsed : bool;
  leftAnimating : bool;
  rightAnimating : bool;
  isDragging : bool;
  leftSize : Q;
  rightSize : Q
}.

Definition setLeftCollapsed (v : bool) (s : State) : State :=
  Build_State v (rightCollapsed s) (leftAnimating s) (rightAnimating s)
    (isDragging s) (leftSize s) (rightSize s).

Definition setRightCollapsed (v : bool) (s : State) : State :=
  Build_State (leftCollapsed s) v (leftAnimating s) (rightAnimating s)
    (isDragging s) (leftSize s) (rightSize s).

Definition setLeftAnimating (v : bool) (s : State) : State :=
  Build_State (leftCollapsed s) (rightCollapsed s) v (rightAnimating s)
    (isDragging s) (leftSize s) (rightSize s).

Definition setRightAnimating (v : bool) (s : State) : State :=
  Build_State (leftCollapsed s) (rightCollapsed s) (leftAnimating s) v
    (isDragging s) (leftSize s) (rightSize s).

Definition setIsDragging (v : bool) (s : State) : State :=
  Build_State (leftCollapsed s) (rightCollapsed s) (leftAnimating s) (rightAnimating s)
    v (leftSize s) (rightSize s).

Definition setLeftSize (v : Q) (s : State) : State :=
  Build_State (leftCollapsed s) (rightCollapsed s) (leftAnimating s) (rightAnimating s)
    (isDragging s) v (rightSize s).

Definition setRightSize (v : Q) (s : State) : State :=
  Build_State (leftCollapsed s) (rightCollapsed s) (leftAnimating s) (rightAnimating s)
    (isDragging s) (leftSize s) v.

(** The state on mount (lines 108-122). *)
Definition initial (p : Props) : State :=
  {| leftCollapsed := collapsed_left p;
     rightCollapsed := collapsed_right p;
     leftAnimating := false;
     rightAnimating := false;
     isDragging := false;
     leftSize := if collapsed_left p then 0 else defaultSizes_left p;
     rightSize := if collapsed_right p then 0 else defaultSizes_right p |}.

Inductive Callback : Type :=
| onLeftCollapseStart | onLeftCollapseComplete
| onLeftExpandStart | onLeftExpandComplete
| onRightCollapseStart | onRightCollapseComplete
| onRightExpandStart | onRightExpandComplete.

(** The arguments of one call of [animatePanel]: the handle, the two
    sizes and the completion closure (its state setters, then the
    callback it fires). *)
Record Animation : Type := {
  panelRef : Region;
  fromSize : Q;
  toSize : Q;
  onComplete : State -> State;
  completeCallback : Callback
}.

(** What a collapse or expand handler does.  [Rejected] is the early
    [return] of the guard.  Otherwise the handler sets state inside
    [flushSync], fires its start callback and hands a closure to
    [requestAnimationFrame]; the closure reads
    [panelGroupRef.current?.getLayout()] when the frame comes and calls
    [animatePanel]. *)
Inductive Outcome : Type :=
| Rejected
| Started (flushed : State) (startCallback : Callback)
          (frame : option (list Q) -> Animation).

(** Lines 196-236. *)
Definition handleLeftCollapse (p : Props) (st : State) : Outcome :=
  if leftAnimating st || isDragging st || negb (collapsiblePanels_left p)
  then Rejected
  else
    Started
      (set_all [setLeftAnimating true; setLeftCollapsed true] st)
      onLeftCollapseStart
      (fun currentLayout =>
         let actualLeftSize := JS.round_milli (JS.at_or currentLayout 0 (leftSize st)) in
         {| panelRef := Left;
            fromSize := actualLeftSize;
            toSize := 0;
            onComplete := set_all [setLeftSize 0; setLeftAnimating false];
            completeCallback := onLeftCollapseComplete |}).

(** Lines 238-274. *)
Definition handleLeftExpand (p : Props) (st : State) : Outcome :=
  if leftAnimating st || isDragging st || negb (collapsiblePanels_left p)
  then Rejected
  else
    Started
      (set_all [setLeftAnimating true; setLeftCollapsed false] st)
      onLeftExpandStart
      (fun _ =>
         {| panelRef := Left;
            fromSize := 0;
            toSize := defaultSizes_left p;
            onComplete := set_all [setLeftSize (defaultSizes_left p); setLeftAnimating false];
            completeCallback := onLeftExpandComplete |}).

(** Lines 277-316. *)
Definition handleRightCollapse (p : Props) (st : State) : Outcome :=
  if rightAnimating st || isDragging st || negb (collapsiblePanels_right p)
  then Rejected
  else
    Started
      (set_all [setRightAnimating true; setRightCollapsed true] st)
      onRightCollapseStart
      (fun currentLayout =>
         let actualRightSize := JS.round_milli (JS.at_or currentLayout 2 (rightSize st)) in
         {| panelRef := Right;
            fromSize := actualRightSize;
            toSize := 0;
            onComplete := set_all [setRightSize 0; setRightAnimating false];
            completeCallback := onRightCollapseComplete |}).

(** Lines 318-353. *)
Definition handleRightExpand (p : Props) (st : State) : Outcome :=
  if rightAnimating st || isDragging st || negb (collapsiblePanels_right p)
  then Rejected
  else
    Started
      (set_all [setRightAnimating true; setRightCollapsed false] st)
      onRightExpandStart
      (fun _ =>
         {| panelRef := Right;
            fromSize := 0;
            toSize := defaultSizes_right p;
            onComplete := set_all [setRightSize (defaultSizes_right p); setRightAnimating false];
            completeCallback := onRightExpandComplete |}).

(** Lines 356-370. *)
Definition toggleLeftPanel (p : Props) (st : State) : Outcome :=
  if leftCollapsed st then handleLeftExpand p st else handleLeftCollapse p st.

Definition toggleRightPanel (p : Props) (st : State) : Outcome :=
  if rightCollapsed st then handleRightExpand p st else handleRightCollapse p st.

(** Lines 373-389: the [onResize] callbacks of the two outer panels. *)
Definition handleLeftResize (size : Q) (st : State) : State :=
  if negb (leftAnimating st) && negb (rightAnimating st)
  then
    let st := setLeftSize size st in
    if JS.gtb size 0 then setLeftCollapsed false st else st
  else st.

Definition handleRightResize (size : Q) (st : State) : State :=
  if negb (leftAnimating st) && negb (rightAnimating st)
  then
    let st := setRightSize size st in
    if JS.gtb size 0 then setRightCollapsed false st else st
  else st.

(** Lines 392-400: the sizes reported through [onPanelResize], when the
    callback was supplied. *)
Definition handleDragEnd (p : Props) (st : State) : option Sizes :=
  if onPanelResize p
  then Some {| left := leftSize st;
               middle := 100 - leftSize st - rightSize st;
               right := rightSize st |}
  else None.

(** Lines 402-410. *)
Definition handleDragging (p : Props) (dragging : bool) (st : State)
  : State * option Sizes :=
  (setIsDragging dragging st, if dragging then None else handleDragEnd p st).

(** The state right after the handler returned. *)
Definition after (o : Outcome) (st : State) : State :=
  match o with
  | Rejected => st
  | Started flushed _ _ => flushed
  end.

(** The animation a handler scheduled, if it scheduled one. *)
Definition scheduled (o : Outcome) (currentLayout : option (list Q)) : option Animation :=
  match o with
  | Rejected => None
  | Started _ _ frame => Some (frame currentLayout)
  end.

(** One whole toggle: the handler, then the frame, then the tween run in
    the environment [env].  The result is the state when the run has
    stopped and the effects of the run on the handle. *)
Definition run (fuel : nat) (env : Tween.Env) (p : Props)
    (currentLayout : option (list Q)) (o : Outcome) (st : State)
  : option (State * list Tween.Effect) :=
  match o with
  | Rejected => Some (st, [])
  | Started flushed _ frame =>
      let a := frame currentLayout in
      match Tween.animatePanel env (animationDuration p) (fromSize a) (toSize a) true fuel with
      | None => None
      | Some t => Some (if Tween.completed t then onComplete a flushed else flushed, t)
      end
  end.

(** The state a toggle settles at when its run reaches the final step. *)
Definition settled (currentLayout : option (list Q)) (o : Outcome) (st : State) : State :=
  match o with
  | Rejected => st
  | Started flushed _ frame => onComplete (frame currentLayout) flushed
  end.

(** Lines 413-437: the effects that follow the [collapsed] prop.
    [prop] is [collapsed.left] (or [collapsed.right]) as it was passed,
    [None] for [undefined]; the result is the handler the queued
    microtask calls, if one is queued. *)
Definition collapsedLeftEffect (prop : option bool) (p : Props) (st : State) : option Outcome :=
  match prop with
  | None => None
  | Some c =>
      if Bool.eqb c (leftCollapsed st) then None
      else Some (if c then handleLeftCollapse p st else handleLeftExpand p st)
  end.

Definition collapsedRightEffect (prop : option bool) (p : Props) (st : State) : option Outcome :=
  match prop with
  | None => None
  | Some c =>
      if Bool.eqb c (rightCollapsed st) then None
      else Some (if c then handleRightCollapse p st else handleRightExpand p st)
  end.

(** Lines 114-115. *)
Definition leftFullyCollapsed (st : State) : bool := leftCollapsed st && negb (leftAnimating st).

Definition rightFullyCollapsed (st : State) : bool :=
  rightCollapsed st && negb (rightAnimating st).

(** Lines 452-468. *)
Definition getPanelClassName (p : Props) (st : State) (panelName : Region) : string :=
  let className := "three-panel-item"%string in
  match panelName with
  | Left =>
      if collapsiblePanels_left p
      then
        let className := (className ++ " collapsible-panel")%string in
        let className :=
          if leftAnimating st && negb (isDragging st)
          then (className ++ " animating")%string else className in
        if leftFullyCollapsed st then (className ++ " collapsed")%string else className
      else className
  | Right =>
      if collapsiblePanels_right p
      then
        let className := (className ++ " collapsible-panel")%string in
        let className :=
          if rightAnimating st && negb (isDragging st)
          then (className ++ " animating")%string else className in
        if rightFullyCollapsed st then (className ++ " collapsed")%string else className
      else className
  | Middle => (className ++ " middle-panel")%string
  end.

End ThreePanelLayout.

(** ** ConfigurablePanelLayout

    Two versions of the component are in the repository.  They share the
    props, the state, the resize handlers and the drag handlers
    (ConfigurablePanelLayout.tsx, lines 102-229 and 824-882; part_005,
    lines 102-229 and 564-622, the same text).  They differ in the six
    collapse and expand handlers: ConfigurablePanelLayout.tsx drives the
    three panels together through [animateMultiplePanels], part_005
    drives the toggled panel alone through [animatePanel]. *)

Module ConfigurablePanelLayout.

Record Props : Type := {
  isLeftActive : bool;               (* layout.left is neither null nor undefined *)
  isMiddleActive : bool;
  isRightActive : bool;
  collapsiblePanels_left : bool;     (* collapsiblePanels.left, [undefined] read as false *)
  collapsiblePanels_middle : bool;
  collapsiblePanels_right : bool;
  defaultSizes_left : option Q;      (* defaultSizes?.left *)
  defaultSizes_middle : option Q;
  defaultSizes_right : option Q;
  collapsed_left : bool;             (* collapsed.left, [undefined] read as false *)
  collapsed_middle : bool;
  collapsed_right : bool;
  animationDuration : Q;
  onPanelResize : bool               (* whether the callback was supplied *)
}.

(** Lines 136-146. *)
Definition activeCount (p : Props) : nat :=
  List.length (filter (fun b : bool => b) [isLeftActive p; isMiddleActive p; isRightActive p]).

Definition smart_default (p : Props) (three : Q) : Q :=
  if Nat.eqb (activeCount p) 2 then 50
  else if Nat.eqb (activeCount p) 3 then three
  else 100.

Definition computedDefaultSizes_left (p : Props) : Q :=
  if isLeftActive p
  then match defaultSizes_left p with Some d => d | None => smart_default p 20 end
  else 0.

Definition computedDefaultSizes_middle (p : Props) : Q :=
  if isMiddleActive p
  then match defaultSizes_middle p with Some d => d | None => smart_default p 60 end
  else 0.

Definition computedDefaultSizes_right (p : Props) : Q :=
  if isRightActive p
  then match defaultSizes_right p with Some d => d | None => smart_default p 20 end
  else 0.

(** The [useState] cells of the component (lines 155-163 and 207-214). *)
Record State : Type := {
  leftCollapsed : bool;
  middleCollapsed : bool;
  rightCollapsed : bool;
  leftAnimating : bool;
  middleAnimating : bool;
  rightAnimating : bool;
  isDragging : bool;
  leftSize : Q;
  middleSize : Q;
  rightSize : Q;
  lastExpandedLeftSize : Q;
  lastExpandedMiddleSize : Q;
  lastExpandedRightSize : Q
}.

Definition setLeftCollapsed (v : bool) (s : State) : State :=
  Build_State v (middleCollapsed s) (rightCollapsed s)
    (leftAnimating s) (middleAnimating s) (rightAnimating s) (isDragging s)
    (leftSize s) (middleSize s) (rightSize s)
    (lastExpandedLeftSize s) (lastExpandedMiddleSize s) (lastExpandedRightSize s).

Definition setMiddleCollapsed (v : bool) (s : State) : State :=
  Build_State (leftCollapsed s) v (rightCollapsed s)
    (leftAnimating s) (middleAnimating s) (rightAnimating s) (isDragging s)
    (leftSize s) (middleSize s) (rightSize s)
    (lastExpandedLeftSize s) (lastExpandedMiddleSize s) (lastExpandedRightSize s).

Definition setRightCollapsed (v : bool) (s : State) : State :=
  Build_State (leftCollapsed s) (middleCollapsed s) v
    (leftAnimating s) (middleAnimating s) (rightAnimating s) (isDragging s)
    (leftSize s) (middleSize s) (rightSize s)
    (lastExpandedLeftSize s) (lastExpandedMiddleSize s) (lastExpandedRightSize s).

Definition setLeftAnimating (v : bool) (s : State) : State :=
  Build_State (leftCollapsed s) (middleCollapsed s) (rightCollapsed s)
    v (middleAnimating s) (rightAnimating s) (isDragging s)
    (leftSize s) (middleSize s) (rightSize s)
    (lastExpandedLeftSize s) (lastExpandedMiddleSize s) (lastExpandedRightSize s).

Definition setMiddleAnimating (v : bool) (s : State) : State :=
  Build_State (leftCollapsed s) (middleCollapsed s) (rightCollapsed s)
    (leftAnimating s) v (rightAnimating s) (isDragging s)
    (leftSize s) (middleSize s) (rightSize s)
    (lastExpandedLeftSize s) (lastExpandedMiddleSize s) (lastExpandedRightSize s).

Definition setRightAnimating (v : bool) (s : State) : State :=
  Build_State (leftCollapsed s) (middleCollapsed s) (rightCollapsed s)
    (leftAnimating s) (middleAnimating s) v (isDragging s)
    (leftSize s) (middleSize s) (rightSize s)
    (lastExpandedLeftSize s) (lastExpandedMiddleSize s) (lastExpandedRightSize s).

Definition setIsDragging (v : bool) (s : State) : State :=
  Build_State (leftCollapsed s) (middleCollapsed s) (rightCollapsed s)
    (leftAnimating s) (middleAnimating s) (rightAnimating s) v
    (leftSize s) (middleSize s) (rightSize s)
    (lastExpandedLeftSize s) (lastExpandedMiddleSize s) (lastExpandedRightSize s).

Definition setLeftSize (v : Q) (s : State) : State :=
  Build_State (leftCollapsed s) (middleCollapsed s) (rightCollapsed s)
    (leftAnimating s) (middleAnimating s) (rightAnimating s) (isDragging s)
    v (middleSize s) (rightSize s)
    (lastExpandedLeftSize s) (lastExpandedMiddleSize s) (lastExpandedRightSize s).

Definition setMiddleSize (v : Q) (s : State) : State :=
  Build_State (leftCollapsed s) (middleCollapsed s) (rightCollapsed s)
    (leftAnimating s) (middleAnimating s) (rightAnimating s) (isDragging s)
    (leftSize s) v (rightSize s)
    (lastExpandedLeftSize s) (lastExpandedMiddleSize s) (lastExpandedRightSize s).

Definition setRightSize (v : Q) (s : State) : State :=
  Build_State (leftCollapsed s) (middleCollapsed s) (rightCollapsed s)
    (leftAnimating s) (middleAnimating s) (rightAnimating s) (isDragging s)
    (leftSize s) (middleSize s) v
    (lastExpandedLeftSize s) (lastExpandedMiddleSize s) (lastExpandedRightSize s).

Definition setLastExpandedLeftSize (v : Q) (s : State) : State :=
  Build_State (leftCollapsed s) (middleCollapsed s) (rightCollapsed s)
    (leftAnimating s) (middleAnimating s) (rightAnimating s) (isDragging s)
    (leftSize s) (middleSize s) (rightSize s)
    v (lastExpandedMiddleSize s) (lastExpandedRightSize s).

Definition setLastExpandedMiddleSize (v : Q) (s : State) : State :=
  Build_State (leftCollapsed s) (middleCollapsed s) (rightCollapsed s)
    (leftAnimating s) (middleAnimating s) (rightAnimating s) (isDragging s)
    (leftSize s) (middleSize s) (rightSize s)
    (lastExpandedLeftSize s) v (lastExpandedRightSize s).

Definition setLastExpandedRightSize (v : Q) (s : State) : State :=
  Build_State (leftCollapsed s) (middleCollapsed s) (rightCollapsed s)
    (leftAnimating s) (middleAnimating s) (rightAnimating s) (isDragging s)
    (leftSize s) (middleSize s) (rightSize s)
    (lastExpandedLeftSize s) (lastExpandedMiddleSize s) v.

(** The state on mount. *)
Definition initial (p : Props) : State :=
  {| leftCollapsed := collapsed_left p || negb (isLeftActive p);
     middleCollapsed := collapsed_middle p || negb (isMiddleActive p);
     rightCollapsed := collapsed_right p || negb (isRightActive p);
     leftAnimating := false;
     middleAnimating := false;
     rightAnimating := false;
     isDragging := false;
     leftSize :=
       if collapsed_left p || negb (isLeftActive p) then 0 else computedDefaultSizes_left p;
     middleSize :=
       if collapsed_middle p || negb (isMiddleActive p) then 0 else computedDefaultSizes_middle p;
     rightSize :=
       if collapsed_right p || negb (isRightActive p) then 0 else computedDefaultSizes_right p;
     lastExpandedLeftSize := computedDefaultSizes_left p;
     lastExpandedMiddleSize := computedDefaultSizes_middle p;
     lastExpandedRightSize := computedDefaultSizes_right p |}.

(** Reading the cells of one region. *)
Definition collapsedOf (r : Region) (s : State) : bool :=
  match r with
  | Left => leftCollapsed s
  | Middle => middleCollapsed s
  | Right => rightCollapsed s
  end.

Definition animatingOf (r : Region) (s : State) : bool :=
  match r with
  | Left => leftAnimating s
  | Middle => middleAnimating s
  | Right => rightAnimating s
  end.

Definition sizeOf (r : Region) (s : State) : Q :=
  match r with
  | Left => leftSize s
  | Middle => middleSize s
  | Right => rightSize s
  end.

Definition lastExpandedSizeOf (r : Region) (s : State) : Q :=
  match r with
  | Left => lastExpandedLeftSize s
  | Middle => lastExpandedMiddleSize s
  | Right => lastExpandedRightSize s
  end.

Definition activeOf (p : Props) (r : Region) : bool :=
  match r with
  | Left => isLeftActive p
  | Middle => isMiddleActive p
  | Right => isRightActive p
  end.

Definition collapsibleOf (p : Props) (r : Region) : bool :=
  match r with
  | Left => collapsiblePanels_left p
  | Middle => collapsiblePanels_middle p
  | Right => collapsiblePanels_right p
  end.

Definition computedDefaultSizeOf (p : Props) (r : Region) : Q :=
  match r with
  | Left => computedDefaultSizes_left p
  | Middle => computedDefaultSizes_middle p
  | Right => computedDefaultSizes_right p
  end.

(** The position of a region's panel in the array of [getLayout()]. *)
Definition indexOf (r : Region) : nat :=
  match r with
  | Left => 0%nat
  | Middle => 1%nat
  | Right => 2%nat
  end.

Inductive Callback : Type :=
| onLeftCollapseStart | onLeftCollapseComplete
| onLeftExpandStart | onLeftExpandComplete
| onMiddleCollapseStart | onMiddleCollapseComplete
| onMiddleExpandStart | onMiddleExpandComplete
| onRightCollapseStart | onRightCollapseComplete
| onRightExpandStart | onRightExpandComplete.

(** *** The resize and drag handlers, common to both versions *)

(** The [onResize] callbacks of the three panels. *)
Definition handleLeftResize (size : Q) (st : State) : State :=
  if negb (leftAnimating st) && negb (middleAnimating st) && negb (rightAnimating st)
  then
    let st := setLeftSize size st in
    if JS.gtb size 0
    then set_all [setLastExpandedLeftSize size; setLeftCollapsed false] st
    else st
  else st.

Definition handleMiddleResize (size : Q) (st : State) : State :=
  if negb (leftAnimating st) && negb (middleAnimating st) && negb (rightAnimating st)
  then
    let st := setMiddleSize size st in
    if JS.gtb size 0
    then set_all [setLastExpandedMiddleSize size; setMiddleCollapsed false] st
    else st
  else st.

Definition handleRightResize (size : Q) (st : State) : State :=
  if negb (leftAnimating st) && negb (middleAnimating st) && negb (rightAnimating st)
  then
    let st := setRightSize size st in
    if JS.gtb size 0
    then set_all [setLastExpandedRightSize size; setRightCollapsed false] st
    else st
  else st.

(** The [onResize] callback wired to the panel of region [r]. *)
Definition handleResize (r : Region) : Q -> State -> State :=
  match r with
  | Left => handleLeftResize
  | Middle => handleMiddleResize
  | Right => handleRightResize
  end.

(** The sizes reported through [onPanelResize], when the callback was
    supplied. *)
Definition handleDragEnd (p : Props) (st : State) : option Sizes :=
  if onPanelResize p
  then
    let reportedLeftSize := if leftCollapsed st then lastExpandedLeftSize st else leftSize st in
    let reportedMiddleSize :=
      if middleCollapsed st then lastExpandedMiddleSize st else middleSize st in
    let reportedRightSize :=
      if rightCollapsed st then lastExpandedRightSize st else rightSize st in
    Some {| left := reportedLeftSize; middle := reportedMiddleSize; right := reportedRightSize |}
  else None.

Definition handleDragging (p : Props) (dragging : bool) (st : State)
  : State * option Sizes :=
  (setIsDragging dragging st, if dragging then None else handleDragEnd p st).

(** *** [animateMultiplePanels] (ConfigurablePanelLayout.tsx, lines 231-298) *)

(** One entry of the [animations] array; [animationFrameRef] and
    [startTimeRef] are the refs of the same region as [panelRef]. *)
Record Animation : Type := { panelRef : Region; fromSize : Q; toSize : Q }.

Inductive Effect : Type :=
| Resize (panel : Region) (size : Q)   (* anim.panelRef.current.resize(size) *)
| Collapse (panel : Region)            (* anim.panelRef.current.collapse() *)
| Complete                             (* onComplete() *)
| Schedule (delay : Q).                (* requestAnimationFrame(() => setTimeout(animate, delay)) *)

(** [env r k] tells whether the handle of region [r] is non-null when
    [animate] is entered with [currentStep = k]; the filter at the top
    of [animateMultiplePanels] reads [env r 0]. *)
Definition Env : Type := Region -> nat -> bool.

Section Run.

Variable env : Env.
Variable duration : Q.
Variable validAnimations : list Animation.
Variable onComplete : bool.

(** What [validAnimations.forEach] does at the final step. *)
Definition final_calls (currentStep : nat) : list Effect :=
  flat_map
    (fun anim =>
       if env (panelRef anim) currentStep
       then [if JS.is_zero (toSize anim) then Collapse (panelRef anim)
             else Resize (panelRef anim) (toSize anim)]
       else [])
    validAnimations.

(** What [validAnimations.forEach] does at an eased step. *)
Definition eased_calls (currentStep : nat) (eased : Q) : list Effect :=
  flat_map
    (fun anim =>
       if env (panelRef anim) currentStep
       then [Resize (panelRef anim) (fromSize anim + (toSize anim - fromSize anim) * eased)]
       else [])
    validAnimations.

(** The inner closure [animate], entered with the counter at [currentStep]. *)
Fixpoint animate (fuel : nat) (currentStep : nat) : option (list Effect) :=
  match fuel with
  | O => None
  | S fuel' =>
      let entered := currentStep in
      let currentStep := S currentStep in
      let progress := Tween.progress_of currentStep in
      if JS.geb progress 1 then
        Some (final_calls entered ++ (if onComplete then [Complete] else []))
      else
        match animate fuel' currentStep with
        | None => None
        | Some rest =>
            Some (eased_calls entered (Tween.eased progress)
                    ++ Schedule (Tween.step_delay duration) :: rest)
        end
  end.

End Run.

Definition animateMultiplePanels (env : Env) (duration : Q)
    (animations : list Animation) (onComplete : bool) (fuel : nat)
  : option (list Effect) :=
  let validAnimations := filter (fun anim => env (panelRef anim) O) animations in
  match validAnimations with
  | [] => Some []
  | _ :: _ => animate env duration validAnimations onComplete fuel O
  end.

Definition is_complete (e : Effect) : bool :=
  match e with Complete => true | _ => false end.

Definition completed (t : list Effect) : bool := existsb is_complete t.

(** *** The coordinated collapse and expand handlers
        (ConfigurablePanelLayout.tsx, lines 301-822) *)

(** What the closure handed to [requestAnimationFrame] does when the
    frame comes: the [setLastExpanded...] calls it makes at once, the
    array it passes to [animateMultiplePanels], and the completion
    closure (its state setters, then the callback it fires). *)
Record Frame : Type := {
  updates : State -> State;
  animations : list Animation;
  onComplete : State -> State;
  completeCallback : Callback
}.

(** [Rejected] is the early [return] of the guard; otherwise the state
    set inside [flushSync], the start callback and the frame closure,
    which reads [panelGroupRef.current?.getLayout()]. *)
Inductive Outcome : Type :=
| Rejected
| Started (flushed : State) (startCallback : Callback)
          (frame : option (list Q) -> Frame).

(** [if (size > 0) setter(size)]. *)
Definition when_positive (size : Q) (setter : Q -> State -> State) : State -> State :=
  if JS.gtb size 0 then setter size else fun s => s.

(** Lines 301-380. *)
Definition handleLeftCollapse (p : Props) (st : State) : Outcome :=
  if leftAnimating st || isDragging st || negb (collapsiblePanels_left p)
  then Rejected
  else
    Started
      (set_all [setLeftAnimating true; setMiddleAnimating true; setRightAnimating true;
                setLeftCollapsed true] st)
      onLeftCollapseStart
      (fun currentLayout =>
         let actualLeftSize := JS.round_milli (JS.at_or currentLayout 0 (leftSize st)) in
         let actualMiddleSize := JS.round_milli (JS.at_or currentLayout 1 (middleSize st)) in
         let actualRightSize := JS.round_milli (JS.at_or currentLayout 2 (rightSize st)) in
         let remainingTotal := actualMiddleSize + actualRightSize in
         let newMiddleSize :=
           if JS.gtb remainingTotal 0 then (actualMiddleSize / remainingTotal) * 100
           else if isMiddleActive p then 50 else 0 in
         let newRightSize :=
           if JS.gtb remainingTotal 0 then (actualRightSize / remainingTotal) * 100
           else if isRightActive p then 50 else 0 in
         {| updates := set_all [when_positive newMiddleSize setLastExpandedMiddleSize;
                                when_positive newRightSize setLastExpandedRightSize];
            animations := [ {| panelRef := Left; fromSize := actualLeftSize; toSize := 0 |};
                            {| panelRef := Middle; fromSize := actualMiddleSize;
                               toSize := newMiddleSize |};
                            {| panelRef := Right; fromSize := actualRightSize;
                               toSize := newRightSize |} ];
            onComplete := set_all [setLeftSize 0; setMiddleSize newMiddleSize;
                                   setRightSize newRightSize; setLeftAnimating false;
                                   setMiddleAnimating false; setRightAnimating false];
            completeCallback := onLeftCollapseComplete |}).

(** Lines 382-466. *)
Definition handleLeftExpand (p : Props) (st : State) : Outcome :=
  if leftAnimating st || isDragging st || negb (collapsiblePanels_left p)
  then Rejected
  else
    Started
      (set_all [setLeftAnimating true; setMiddleAnimating true; setRightAnimating true;
                setLeftCollapsed false] st)
      onLeftExpandStart
      (fun currentLayout =>
         let actualLeftSize := JS.round_milli (JS.at_or currentLayout 0 0) in
         let actualMiddleSize := JS.round_milli (JS.at_or currentLayout 1 (middleSize st)) in
         let actualRightSize := JS.round_milli (JS.at_or currentLayout 2 (rightSize st)) in
         let targetLeftSize :=
           JS.or_else (lastExpandedLeftSize st) (computedDefaultSizes_left p) in
         let spaceForOthers := 100 - targetLeftSize in
         let currentOthersTotal := actualMiddleSize + actualRightSize in
         let newMiddleSize :=
           if JS.gtb currentOthersTotal 0
           then (actualMiddleSize / currentOthersTotal) * spaceForOthers
           else if isMiddleActive p then spaceForOthers / 2 else 0 in
         let newRightSize :=
           if JS.gtb currentOthersTotal 0
           then (actualRightSize / currentOthersTotal) * spaceForOthers
           else if isRightActive p then spaceForOthers / 2 else 0 in
         {| updates := set_all [when_positive newMiddleSize setLastExpandedMiddleSize;
                                when_positive newRightSize setLastExpandedRightSize];
            animations := [ {| panelRef := Left; fromSize := actualLeftSize;
                               toSize := targetLeftSize |};
                            {| panelRef := Middle; fromSize := actualMiddleSize;
                               toSize := newMiddleSize |};
                            {| panelRef := Right; fromSize := actualRightSize;
                               toSize := newRightSize |} ];
            onComplete := set_all [setLeftSize targetLeftSize; setMiddleSize newMiddleSize;
                                   setRightSize newRightSize; setLeftAnimating false;
                                   setMiddleAnimating false; setRightAnimating false];
            completeCallback := onLeftExpandComplete |}).

(** Lines 469-547. *)
Definition handleRightCollapse (p : Props) (st : State) : Outcome :=
  if rightAnimating st || isDragging st || negb (collapsiblePanels_right p)
  then Rejected
  else
    Started
      (set_all [setLeftAnimating true; setMiddleAnimating true; setRightAnimating true;
                setRightCollapsed true] st)
      onRightCollapseStart
      (fun currentLayout =>
         let actualLeftSize := JS.round_milli (JS.at_or currentLayout 0 (leftSize st)) in
         let actualMiddleSize := JS.round_milli (JS.at_or currentLayout 1 (middleSize st)) in
         let actualRightSize := JS.round_milli (JS.at_or currentLayout 2 (rightSize st)) in
         let remainingTotal := actualLeftSize + actualMiddleSize in
         let newLeftSize :=
           if JS.gtb remainingTotal 0 then (actualLeftSize / remainingTotal) * 100
           else if isLeftActive p then 50 else 0 in
         let newMiddleSize :=
           if JS.gtb remainingTotal 0 then (actualMiddleSize / remainingTotal) * 100
           else if isMiddleActive p then 50 else 0 in
         {| updates := set_all [when_positive newLeftSize setLastExpandedLeftSize;
                                when_positive newMiddleSize setLastExpandedMiddleSize];
            animations := [ {| panelRef := Left; fromSize := actualLeftSize;
                               toSize := newLeftSize |};
                            {| panelRef := Middle; fromSize := actualMiddleSize;
                               toSize := newMiddleSize |};
                            {| panelRef := Right; fromSize := actualRightSize; toSize := 0 |} ];
            onComplete := set_all [setLeftSize newLeftSize; setMiddleSize newMiddleSize;
                                   setRightSize 0; setLeftAnimating false;
                                   setMiddleAnimating false; setRightAnimating false];
            completeCallback := onRightCollapseComplete |}).

(** Lines 549-632. *)
Definition handleRightExpand (p : Props) (st : State) : Outcome :=
  if rightAnimating st || isDragging st || negb (collapsiblePanels_right p)
  then Rejected
  else
    Started
      (set_all [setLeftAnimating true; setMiddleAnimating true; setRightAnimating true;
                setRightCollapsed false] st)
      onRightExpandStart
      (fun currentLayout =>
         let actualLeftSize := JS.round_milli (JS.at_or currentLayout 0 (leftSize st)) in
         let actualMiddleSize := JS.round_milli (JS.at_or currentLayout 1 (middleSize st)) in
         let actualRightSize := JS.round_milli (JS.at_or currentLayout 2 0) in
         let targetRightSize :=
           JS.or_else (lastExpandedRightSize st) (computedDefaultSizes_right p) in
         let spaceForOthers := 100 - targetRightSize in
         let currentOthersTotal := actualLeftSize + actualMiddleSize in
         let newLeftSize :=
           if JS.gtb currentOthersTotal 0
           then (actualLeftSize / currentOthersTotal) * spaceForOthers
           else if isLeftActive p then spaceForOthers / 2 else 0 in
         let newMiddleSize :=
           if JS.gtb currentOthersTotal 0
           then (actualMiddleSize / currentOthersTotal) * spaceForOthers
           else if isMiddleActive p then spaceForOthers / 2 else 0 in
         {| updates := set_all [when_positive newLeftSize setLastExpandedLeftSize;
                                when_positive newMiddleSize setLastExpandedMiddleSize];
            animations := [ {| panelRef := Left; fromSize := actualLeftSize;
                               toSize := newLeftSize |};
                            {| panelRef := Middle; fromSize := actualMiddleSize;
                               toSize := newMiddleSize |};
                            {| panelRef := Right; fromSize := actualRightSize;
                               toSize := targetRightSize |} ];
            onComplete := set_all [setLeftSize newLeftSize; setMiddleSize newMiddleSize;
                                   setRightSize targetRightSize; setLeftAnimating false;
                                   setMiddleAnimating false; setRightAnimating false];
            completeCallback := onRightExpandComplete |}).

(** Lines 644-721. *)
Definition handleMiddleCollapse (p : Props) (st : State) : Outcome :=
  if middleAnimating st || isDragging st || negb (collapsiblePanels_middle p)
  then Rejected
  else
    Started
      (set_all [setLeftAnimating true; setMiddleAnimating true; setRightAnimating true;
                setMiddleCollapsed true] st)
      onMiddleCollapseStart
      (fun currentLayout =>
         let actualLeftSize := JS.round_milli (JS.at_or currentLayout 0 (leftSize st)) in
         let actualMiddleSize := JS.round_milli (JS.at_or currentLayout 1 (middleSize st)) in
         let actualRightSize := JS.round_milli (JS.at_or currentLayout 2 (rightSize st)) in
         let remainingTotal := actualLeftSize + actualRightSize in
         let newLeftSize :=
           if JS.gtb remainingTotal 0 then (actualLeftSize / remainingTotal) * 100
           else if isLeftActive p then 50 else 0 in
         let newRightSize :=
           if JS.gtb remainingTotal 0 then (actualRightSize / remainingTotal) * 100
           else if isRightActive p then 50 else 0 in
         {| updates := set_all [when_positive newLeftSize setLastExpandedLeftSize;
                                when_positive newRightSize setLastExpandedRightSize];
            animations := [ {| panelRef := Left; fromSize := actualLeftSize;
                               toSize := newLeftSize |};
                            {| panelRef := Middle; fromSize := actualMiddleSize; toSize := 0 |};
                            {| panelRef := Right; fromSize := actualRightSize;
                               toSize := newRightSize |} ];
            onComplete := set_all [setLeftSize newLeftSize; setMiddleSize 0;
                                   setRightSize newRightSize; setLeftAnimating false;
                                   setMiddleAnimating false; setRightAnimating false];
            completeCallback := onMiddleCollapseComplete |}).

(** Lines 723-805. *)
Definition handleMiddleExpand (p : Props) (st : State) : Outcome :=
  if middleAnimating st || isDragging st || negb (collapsiblePanels_middle p)
  then Rejected
  else
    Started
      (set_all [setLeftAnimating true; setMiddleAnimating true; setRightAnimating true;
                setMiddleCollapsed false] st)
      onMiddleExpandStart
      (fun currentLayout =>
         let actualLeftSize := JS.round_milli (JS.at_or currentLayout 0 (leftSize st)) in
         let actualMiddleSize := JS.round_milli (JS.at_or currentLayout 1 0) in
         let actualRightSize := JS.round_milli (JS.at_or currentLayout 2 (rightSize st)) in
         let targetMiddleSize :=
           JS.or_else (lastExpandedMiddleSize st) (computedDefaultSizes_middle p) in
         let spaceForOthers := 100 - targetMiddleSize in
         let currentOthersTotal := actualLeftSize + actualRightSize in
         let newLeftSize :=
           if JS.gtb currentOthersTotal 0
           then (actualLeftSize / currentOthersTotal) * spaceForOthers
           else if isLeftActive p then spaceForOthers / 2 else 0 in
         let newRightSize :=
           if JS.gtb currentOthersTotal 0
           then (actualRightSize / currentOthersTotal) * spaceForOthers
           else if isRightActive p then spaceForOthers / 2 else 0 in
         {| updates := set_all [when_positive newLeftSize setLastExpandedLeftSize;
                                when_positive newRightSize setLastExpandedRightSize];
            animations := [ {| panelRef := Left; fromSize := actualLeftSize;
                               toSize := newLeftSize |};
                            {| panelRef := Middle; fromSize := actualMiddleSize;
                               toSize := targetMiddleSize |};
                            {| panelRef := Right; fromSize := actualRightSize;
                               toSize := newRightSize |} ];
            onComplete := set_all [setLeftSize newLeftSize; setMiddleSize targetMiddleSize;
                                   setRightSize newRightSize; setLeftAnimating false;
                                   setMiddleAnimating false; setRightAnimating false];
            completeCallback := onMiddleExpandComplete |}).

(** Lines 635-641 and 816-822. *)
Definition toggleLeftPanel (p : Props) (st : State) : Outcome :=
  if leftCollapsed st then handleLeftExpand p st else handleLeftCollapse p st.

Definition toggleRightPanel (p : Props) (st : State) : Outcome :=
  if rightCollapsed st then handleRightExpand p st else handleRightCollapse p st.

(** The collapse and the expand handler of region [r]. *)
Definition handleCollapse (r : Region) : Props -> State -> Outcome :=
  match r with
  | Left => handleLeftCollapse
  | Middle => handleMiddleCollapse
  | Right => handleRightCollapse
  end.

Definition handleExpand (r : Region) : Props -> State -> Outcome :=
  match r with
  | Left => handleLeftExpand
  | Middle => handleMiddleExpand
  | Right => handleRightExpand
  end.

(** The state right after the handler returned. *)
Definition after (o : Outcome) (st : State) : State :=
  match o with
  | Rejected => st
  | Started flushed _ _ => flushed
  end.

(** The frame a handler scheduled, if it scheduled one. *)
Definition scheduled (o : Outcome) (currentLayout : option (list Q)) : option Frame :=
  match o with
  | Rejected => None
  | Started _ _ frame => Some (frame currentLayout)
  end.

(** One whole toggle: the handler, then the frame, then the run of
    [animateMultiplePanels] in the environment [env]. *)
Definition run (fuel : nat) (env : Env) (p : Props)
    (currentLayout : option (list Q)) (o : Outcome) (st : State)
  : option (State * list Effect) :=
  match o with
  | Rejected => Some (st, [])
  | Started flushed _ frame =>
      let f := frame currentLayout in
      let st1 := updates f flushed in
      match animateMultiplePanels env (animationDuration p) (animations f) true fuel with
      | None => None
      | Some t => Some (if completed t then onComplete f st1 else st1, t)
      end
  end.

(** The state a toggle settles at when its run reaches the final step. *)
Definition settled (currentLayout : option (list Q)) (o : Outcome) (st : State) : State :=
  match o with
  | Rejected => st
  | Started flushed _ frame =>
      let f := frame currentLayout in onComplete f (updates f flushed)
  end.

(** Lines 885-922: the effects that follow the [collapsed] prop.  [prop]
    is the entry of [collapsed] for the region as it was passed, [None]
    for [undefined]; the result is the handler the queued microtask
    calls, if one is queued. *)
Definition collapsedEffect (r : Region) (prop : option bool) (p : Props) (st : State)
  : option Outcome :=
  match prop with
  | None => None
  | Some c =>
      if Bool.eqb c (collapsedOf r st) then None
      else Some (if c then handleCollapse r p st else handleExpand r p st)
  end.

(** Lines 164-166. *)
Definition fullyCollapsedOf (r : Region) (st : State) : bool :=
  collapsedOf r st && negb (animatingOf r st).

(** Lines 940-964. *)
Definition getPanelClassName (p : Props) (st : State) (panelName : Region) : string :=
  let className := "three-panel-item"%string in
  let className :=
    match panelName with
    | Middle => (className ++ " middle-panel")%string
    | _ => className
    end in
  if collapsibleOf p panelName || negb (activeOf p panelName)
  then
    let className := (className ++ " collapsible-panel")%string in
    let className :=
      if animatingOf panelName st && negb (isDragging st)
      then (className ++ " animating")%string else className in
    if fullyCollapsedOf panelName st then (className ++ " collapsed")%string else className
  else className.

End ConfigurablePanelLayout.

(** *** The single-panel collapse and expand handlers (part_005, lines 291-562)

    The props, the state and its setters are those of
    [ConfigurablePanelLayout]; the tween is [Tween.animatePanel]. *)

Module Part005.

Module C := ConfigurablePanelLayout.

(** The arguments of one call of [animatePanel]. *)
Record Animation : Type := {
  panelRef : Region;
  fromSize : Q;
  toSize : Q;
  onComplete : C.State -> C.State;
  completeCallback : C.Callback
}.

Inductive Outcome : Type :=
| Rejected
| Started (flushed : C.State) (startCallback : C.Callback)
          (frame : option (list Q) -> Animation).

(** Lines 291-331. *)
Definition handleLeftCollapse (p : C.Props) (st : C.State) : Outcome :=
  if C.leftAnimating st || C.isDragging st || negb (C.collapsiblePanels_left p)
  then Rejected
  else
    Started
      (set_all [C.setLeftAnimating true; C.setLeftCollapsed true] st)
      C.onLeftCollapseStart
      (fun currentLayout =>
         let actualLeftSize := JS.round_milli (JS.at_or currentLayout 0 (C.leftSize st)) in
         {| panelRef := Left;
            fromSize := actualLeftSize;
            toSize := 0;
            onComplete := set_all [C.setLeftSize 0; C.setLeftAnimating false];
            completeCallback := C.onLeftCollapseComplete |}).

(** Lines 333-372. *)
Definition handleLeftExpand (p : C.Props) (st : C.State) : Outcome :=
  if C.leftAnimating st || C.isDragging st || negb (C.collapsiblePanels_left p)
  then Rejected
  else
    Started
      (set_all [C.setLeftAnimating true; C.setLeftCollapsed false] st)
      C.onLeftExpandStart
      (fun _ =>
         let targetSize :=
           JS.or_else (C.lastExpandedLeftSize st) (C.computedDefaultSizes_left p) in
         {| panelRef := Left;
            fromSize := 0;
            toSize := targetSize;
            onComplete := set_all [C.setLeftSize targetSize; C.setLeftAnimating false];
            completeCallback := C.onLeftExpandComplete |}).

(** Lines 375-414. *)
Definition handleRightCollapse (p : C.Props) (st : C.State) : Outcome :=
  if C.rightAnimating st || C.isDragging st || negb (C.collapsiblePanels_right p)
  then Rejected
  else
    Started
      (set_all [C.setRightAnimating true; C.setRightCollapsed true] st)
      C.onRightCollapseStart
      (fun currentLayout =>
         let actualRightSize := JS.round_milli (JS.at_or currentLayout 2 (C.rightSize st)) in
         {| panelRef := Right;
            fromSize := actualRightSize;
            toSize := 0;
            onComplete := set_all [C.setRightSize 0; C.setRightAnimating false];
            completeCallback := C.onRightCollapseComplete |}).

(** Lines 416-455. *)
Definition handleRightExpand (p : C.Props) (st : C.State) : Outcome :=
  if C.rightAnimating st || C.isDragging st || negb (C.collapsiblePanels_right p)
  then Rejected
  else
    Started
      (set_all [C.setRightAnimating true; C.setRightCollapsed false] st)
      C.onRightExpandStart
      (fun _ =>
         let targetSize :=
           JS.or_else (C.lastExpandedRightSize st) (C.computedDefaultSizes_right p) in
         {| panelRef := Right;
            fromSize := 0;
            toSize := targetSize;
            onComplete := set_all [C.setRightSize targetSize; C.setRightAnimating false];
            completeCallback := C.onRightExpandComplete |}).

(** Lines 467-505. *)
Definition handleMiddleCollapse (p : C.Props) (st : C.State) : Outcome :=
  if C.middleAnimating st || C.isDragging st || negb (C.collapsiblePanels_middle p)
  then Rejected
  else
    Started
      (set_all [C.setMiddleAnimating true; C.setMiddleCollapsed true] st)
      C.onMiddleCollapseStart
      (fun currentLayout =>
         let actualMiddleSize :=
           JS.round_milli (JS.at_or currentLayout 1 (C.middleSize st)) in
         {| panelRef := Middle;
            fromSize := actualMiddleSize;
            toSize := 0;
            onComplete := set_all [C.setMiddleSize 0; C.setMiddleAnimating false];
            completeCallback := C.onMiddleCollapseComplete |}).

(** Lines 507-545. *)
Definition handleMiddleExpand (p : C.Props) (st : C.State) : Outcome :=
  if C.middleAnimating st || C.isDragging st || negb (C.collapsiblePanels_middle p)
  then Rejected
  else
    Started
      (set_all [C.setMiddleAnimating true; C.setMiddleCollapsed false] st)
      C.onMiddleExpandStart
      (fun _ =>
         let targetSize :=
           JS.or_else (C.lastExpandedMiddleSize st) (C.computedDefaultSizes_middle p) in
         {| panelRef := Middle;
            fromSize := 0;
            toSize := targetSize;
            onComplete := set_all [C.setMiddleSize targetSize; C.setMiddleAnimating false];
            completeCallback := C.onMiddleExpandComplete |}).

(** Lines 458-464 and 556-562. *)
Definition toggleLeftPanel (p : C.Props) (st : C.State) : Outcome :=
  if C.leftCollapsed st then handleLeftExpand p st else handleLeftCollapse p st.

Definition toggleRightPanel (p : C.Props) (st : C.State) : Outcome :=
  if C.rightCollapsed st then handleRightExpand p st else handleRightCollapse p st.

(** The collapse and the expand handler of region [r]. *)
Definition handleCollapse (r : Region) : C.Props -> C.State -> Outcome :=
  match r with
  | Left => handleLeftCollapse
  | Middle => handleMiddleCollapse
  | Right => handleRightCollapse
  end.

Definition handleExpand (r : Region) : C.Props -> C.State -> Outcome :=
  match r with
  | Left => handleLeftExpand
  | Middle => handleMiddleExpand
  | Right => handleRightExpand
  end.

Definition after (o : Outcome) (st : C.State) : C.State :=
  match o with
  | Rejected => st
  | Started flushed _ _ => flushed
  end.

Definition scheduled (o : Outcome) (currentLayout : option (list Q)) : option Animation :=
  match o with
  | Rejected => None
  | Started _ _ frame => Some (frame currentLayout)
  end.

(** One whole toggle: the handler, the frame, the run of [animatePanel]. *)
Definition run (fuel : nat) (env : Tween.Env) (p : C.Props)
    (currentLayout : option (list Q)) (o : Outcome) (st : C.State)
  : option (C.State * list Tween.Effect) :=
  match o with
  | Rejected => Some (st, [])
  | Started flushed _ frame =>
      let a := frame currentLayout in
      match Tween.animatePanel env (C.animationDuration p) (fromSize a) (toSize a) true fuel with
      | None => None
      | Some t => Some (if Tween.completed t then onComplete a flushed else flushed, t)
      end
  end.

(** The state a toggle settles at when its run reaches the final step. *)
Definition settled (currentLayout : option (list Q)) (o : Outcome) (st : C.State) : C.State :=
  match o with
  | Rejected => st
  | Started flushed _ frame => onComplete (frame currentLayout) flushed
  end.

End Part005.

(** ** TabGroup (AnimatedResizableLayout.tsx, lines 362-471)

    Only the index logic is modelled; contents and styling are left out. *)

Module TabGroup.

Record PanelDefinitionWithContent : Type := { id : string; label : string }.

(** The fields of [TabsConfig] the index logic reads. *)
Record TabsConfig : Type := {
  defaultActiveTab : option Z;       (* [undefined] defaults to 0 *)
  activeTabIndex : option Z          (* the controlled index, if any *)
}.

(** Lines 379-385: the index the component works with; [internalIndex]
    is the [useState] cell of the uncontrolled mode. *)
Definition activeIndex (config : TabsConfig) (internalIndex : Z) : Z :=
  match activeTabIndex config with
  | Some controlledIndex => controlledIndex
  | None => internalIndex
  end.

(** Lines 388-393: the new value of [internalIndex] after a click. *)
Definition handleTabClick (config : TabsConfig) (index : Z) (internalIndex : Z) : Z :=
  match activeTabIndex config with
  | Some _ => internalIndex
  | None => index
  end.

(** Lines 406-408: the panels of [panelIds] that exist, in order. *)
Definition tabPanels (panelIds : list string) (panels : list PanelDefinitionWithContent)
  : list PanelDefinitionWithContent :=
  flat_map
    (fun i =>
       match find (fun p => String.eqb (id p) i) panels with
       | Some p => [p]
       | None => []
       end)
    panelIds.

(** Line 411. *)
Definition safeActiveIndex (activeTabIndex : Z) (panelCount : nat) : Z :=
  Z.min activeTabIndex (Z.of_nat panelCount - 1).

(** [array[i]] for an integer [i]: [undefined] out of range. *)
Definition index {A : Type} (l : list A) (i : Z) : option A :=
  if (i <? 0)%Z then None else nth_error l (Z.to_nat i).

(** Line 413. *)
Definition activePanel (panelIds : list string) (panels : list PanelDefinitionWithContent)
    (config : TabsConfig) (internalIndex : Z) : option PanelDefinitionWithContent :=
  let tp := tabPanels panelIds panels in
  index tp (safeActiveIndex (activeIndex config internalIndex) (List.length tp)).

(** The index of the tab drawn as selected ([index === safeActiveIndex],
    lines 428-431), for a group that is not empty. *)
Definition displayedIndex (panelIds : list string) (panels : list PanelDefinitionWithContent)
    (config : TabsConfig) (internalIndex : Z) : Z :=
  safeActiveIndex (activeIndex config internalIndex)
    (List.length (tabPanels panelIds panels)).

End TabGroup.

(** ** SnapCarousel (part_003, lines 522-747): the width of a panel *)

Module SnapCarousel.

Record Props : Type := {
  panelCount : nat;                  (* panels.length *)
  minPanelWidth : Q;                 (* pixels *)
  idealPanelWidth : Q                (* a fraction of the container *)
}.

(** A CSS width as the component writes it. *)
Inductive CssWidth : Type :=
| Percent (p : Q)                    (* `p%` *)
| MaxPxPercent (px : Q) (pct : Q).   (* `max(${px}px, ${pct}%)` *)

(** Line 685. *)
Definition twoPanelThreshold (p : Props) : Q := minPanelWidth p * 2.

(** Lines 688-700: the value of [--snap-carousel-panel-width]. *)
Definition panelWidth (p : Props) : CssWidth :=
  if Nat.eqb (panelCount p) 1 then Percent 100
  else if Nat.eqb (panelCount p) 2 then Percent 100
  else MaxPxPercent (minPanelWidth p) (idealPanelWidth p * 100).

(** Lines 708-721: the style element written when there are two panels:
    a plain rule for the panels and one inside
    [@container (min-width: ${twoPanelThreshold}px)]. *)
Record DynamicStyle : Type := {
  plain_width : CssWidth;
  query_min_width : Q;
  query_width : CssWidth
}.

Definition dynamicStyle (p : Props) : option DynamicStyle :=
  if Nat.eqb (panelCount p) 2
  then Some {| plain_width := Percent 100;
               query_min_width := twoPanelThreshold p;
               query_width := Percent 50 |}
  else None.

(** The length, in pixels, a CSS width stands for in a container that is
    [containerWidth] pixels wide. *)
Definition resolve (w : CssWidth) (containerWidth : Q) : Q :=
  match w with
  | Percent p => p / 100 * containerWidth
  | MaxPxPercent px pct => Qmax px (pct / 100 * containerWidth)
  end.

(** A container query [(min-width: t)] holds when the container is at
    least [t] wide. *)
Definition min_width_holds (t containerWidth : Q) : bool := Qle_bool t containerWidth.

(** Modelled from the spec: SnapCarousel.css, the static stylesheet, is
    not among the sources.  The panels take the width of
    [--snap-carousel-panel-width] and the carousel container is the
    query container, so that the two-panel rule of the style element,
    when it is written and its query holds, overrides that width. *)
Definition renderedWidth (p : Props) (containerWidth : Q) : CssWidth :=
  match dynamicStyle p with
  | Some d =>
      if min_width_holds (query_min_width d) containerWidth
      then query_width d
      else plain_width d
  | None => panelWidth p
  end.

Definition renderedPixels (p : Props) (containerWidth : Q) : Q :=
  resolve (renderedWidth p containerWidth) containerWidth.

(** *** The imperative handle and the scroll handler (part_003, lines 542-634) *)

(** What the component reads of one panel element: the left edge of
    [getBoundingClientRect()] and [offsetLeft]. *)
Record Child : Type := { rect_left : Q; offsetLeft : Q }.

(** What it reads of the container element. *)
Record Container : Type := { container_left : Q; children : list Child }.

(** [distance < closestDistance], where [None] is [Infinity]. *)
Definition closer (distance : Q) (closestDistance : option Q) : bool :=
  match closestDistance with
  | None => true
  | Some c => JS.ltb distance c
  end.

(** [Math.abs(panelRect.left - snapPointX)]. *)
Definition distance (snapPointX : Q) (panel : Child) : Q :=
  Qabs (rect_left panel - snapPointX).

(** The [for] loop of lines 585-596 and of lines 620-631 (the same
    text), entered with the counter at [i]; [panels] holds the children
    from [i] on. *)
Fixpoint closest (snapPointX : Q) (panels : list Child) (i closestIndex : nat)
    (closestDistance : option Q) : nat :=
  match panels with
  | [] => closestIndex
  | panel :: rest =>
      if closer (distance snapPointX panel) closestDistance
      then closest snapPointX rest (S i) i (Some (distance snapPointX panel))
      else closest snapPointX rest (S i) closestIndex closestDistance
  end.

(** Lines 572-599; [containerRef] is [None] when [containerRef.current]
    is null. *)
Definition getCurrentPanel (containerRef : option Container) : nat :=
  match containerRef with
  | None => 0%nat
  | Some container =>
      match children container with
      | [] => 0%nat
      | _ :: _ => closest (container_left container) (children container) 0 0 None
      end
  end.

(** Lines 603-634: the argument of [onPanelChange], when the handler
    calls it. *)
Definition handleScroll (onPanelChange : bool) (containerRef : option Container)
    (isProgrammaticScroll : bool) : option nat :=
  if negb onPanelChange then None
  else
    match containerRef with
    | None => None
    | Some container =>
        match children container with
        | [] => None
        | _ :: _ =>
            if isProgrammaticScroll then None
            else Some (closest (container_left container) (children container) 0 0 None)
        end
    end.

(** The two refs the scroll logic keeps: the flag and the id of the
    last timeout set. *)
Record Refs : Type := { isProgrammaticScroll : bool; scrollTimeout : option nat }.

Definition initialRefs : Refs := {| isProgrammaticScroll := false; scrollTimeout := None |}.

Inductive ScrollEffect : Type :=
| ClearTimeout (id : nat)              (* clearTimeout(scrollTimeoutRef.current) *)
| ScrollTo (left : Q)                  (* container.scrollTo({ left, behavior: 'smooth' }) *)
| SetTimeout (id : nat) (delay : Q).   (* setTimeout(..., delay), which returned [id] *)

(** [container.children[index]]. *)
Definition child (container : Container) (index : Z) : option Child :=
  TabGroup.index (children container) index.

(** Lines 543-571; [fresh] is the id the new timeout gets. *)
Definition scrollToPanel (containerRef : option Container) (index : Z) (fresh : nat)
    (refs : Refs) : Refs * list ScrollEffect :=
  match containerRef with
  | None => (refs, [])
  | Some container =>
      match child container index with
      | None => (refs, [])
      | Some targetPanel =>
          ({| isProgrammaticScroll := true; scrollTimeout := Some fresh |},
           (match scrollTimeout refs with
            | Some id => [ClearTimeout id]
            | None => []
            end)
             ++ [ScrollTo (offsetLeft targetPanel); SetTimeout fresh 500])
      end
  end.

(** The body of the timeout (lines 567-569). *)
Definition timeoutFires (refs : Refs) : Refs :=
  {| isProgrammaticScroll := false; scrollTimeout := scrollTimeout refs |}.

End SnapCarousel.

(** ** PanelConfigurator (AnimatedResizableLayout.tsx, lines 1136-1646) *)

Module PanelConfigurator.

Inductive GroupType : Type := tabs | tiles.

Inductive TabPosition : Type := top | bottom | leftSide | rightSide.

(** [TabsConfig] without its callback. *)
Record TabsConfig : Type := {
  defaultActiveTab : option Z;
  tabPosition : option TabPosition;
  centered : option bool;
  hideTabList : option bool;
  activeTabIndex : option Z
}.

Record PanelGroup : Type := {
  type : GroupType;
  panels : list string;
  config : option TabsConfig
}.

Inductive PanelSlot : Type :=
| PanelId (id : string)              (* a single panel id *)
| Null                               (* an empty slot *)
| Group (g : PanelGroup).            (* several panels grouped together *)

(** A missing key ([undefined]) is [None]. *)
Record PanelLayout : Type := {
  left_slot : option PanelSlot;
  middle_slot : option PanelSlot;
  right_slot : option PanelSlot
}.

(** [layout[pos]] and [layout[pos] = v]. *)
Definition get (l : PanelLayout) (pos : Region) : option PanelSlot :=
  match pos with
  | Left => left_slot l
  | Middle => middle_slot l
  | Right => right_slot l
  end.

Definition set (pos : Region) (v : PanelSlot) (l : PanelLayout) : PanelLayout :=
  match pos with
  | Left => {| left_slot := Some v; middle_slot := middle_slot l; right_slot := right_slot l |}
  | Middle => {| left_slot := left_slot l; middle_slot := Some v; right_slot := right_slot l |}
  | Right => {| left_slot := left_slot l; middle_slot := middle_slot l; right_slot := Some v |}
  end.

(** [layout[pos] = layout[other]], where the right-hand side may be
    [undefined]. *)
Definition set_raw (pos : Region) (v : option PanelSlot) (l : PanelLayout) : PanelLayout :=
  match pos with
  | Left => {| left_slot := v; middle_slot := middle_slot l; right_slot := right_slot l |}
  | Middle => {| left_slot := left_slot l; middle_slot := v; right_slot := right_slot l |}
  | Right => {| left_slot := left_slot l; middle_slot := middle_slot l; right_slot := v |}
  end.

Inductive Selected : Type :=
| SlotSelected (position : Region)
| PanelSelected (id : string).

(** [null] is [None]. *)
Definition Selection : Type := option Selected.

(** Lines 1203-1205. *)
Definition isGroup (slot : option PanelSlot) : option PanelGroup :=
  match slot with
  | Some (Group g) => Some g
  | _ => None
  end.

(** [isGroup(slot) && slot.type === 'tabs']. *)
Definition isTabs (slot : option PanelSlot) : option PanelGroup :=
  match isGroup slot with
  | Some g => match type g with tabs => Some g | tiles => None end
  | None => None
  end.

(** Lines 1208-1213. *)
Definition getPanelIdsFromSlot (slot : option PanelSlot) : list string :=
  match slot with
  | None | Some Null => []
  | Some (PanelId s) => [s]
  | Some (Group g) => panels g
  end.

(** [ids.includes(id)]. *)
Definition includes (ids : list string) (i : string) : bool :=
  existsb (String.eqb i) ids.

(** [ids.filter(id => id !== panelId)]. *)
Definition without (panelId : string) (ids : list string) : list string :=
  filter (fun i => negb (String.eqb i panelId)) ids.

(** [{ ...slot, panels }]. *)
Definition with_panels (g : PanelGroup) (ps : list string) : PanelGroup :=
  {| type := type g; panels := ps; config := config g |}.

(** Lines 1246-1251. *)
Definition isPanelInUse (currentLayout : PanelLayout) (panelId : string) : bool :=
  includes (getPanelIdsFromSlot (left_slot currentLayout)) panelId
  || includes (getPanelIdsFromSlot (middle_slot currentLayout)) panelId
  || includes (getPanelIdsFromSlot (right_slot currentLayout)) panelId.

(** The body of the [forEach] of [removePanelFromLayout] for one
    position (lines 1257-1269). *)
Definition removePanelAt (panelId : string) (pos : Region) (newLayout : PanelLayout)
  : PanelLayout :=
  match get newLayout pos with
  | Some (PanelId s) => if String.eqb s panelId then set pos Null newLayout else newLayout
  | Some (Group g) =>
      let filteredPanels := without panelId (panels g) in
      match filteredPanels with
      | [] => set pos Null newLayout
      | [only] => set pos (PanelId only) newLayout
      | _ => set pos (Group (with_panels g filteredPanels)) newLayout
      end
  | _ => newLayout
  end.

(** Lines 1254-1272. *)
Definition removePanelFromLayout (layout : PanelLayout) (panelId : string) : PanelLayout :=
  fold_left (fun newLayout pos => removePanelAt panelId pos newLayout)
    [Left; Middle; Right] layout.

(** What a handler does: the layout it passes to [onChange], if it
    calls it, and the selection it leaves. *)
Record Result : Type := { changed : option PanelLayout; selection : Selection }.

Section Handlers.

Variable currentLayout : PanelLayout.
Variable sel : Selection.

(** Lines 1275-1285; the selection is not touched. *)
Definition togglePanelInTabGroup (position : Region) (panelId : string) : Result :=
  match isTabs (get currentLayout position) with
  | None => {| changed := None; selection := sel |}
  | Some slot =>
      let filteredPanels := without panelId (panels slot) in
      {| changed := Some (set position (Group (with_panels slot filteredPanels)) currentLayout);
         selection := sel |}
  end.

(** Lines 1288-1311. *)
Definition toggleTabMode (position : Region) : Result :=
  match isTabs (get currentLayout position) with
  | Some slot =>
      let v := match panels slot with first :: _ => PanelId first | [] => Null end in
      {| changed := Some (set position v currentLayout); selection := None |}
  | None =>
      let ps :=
        match get currentLayout position with
        | Some (PanelId s) => if String.eqb s EmptyString then [] else [s]
        | _ => []
        end in
      {| changed :=
           Some (set position
                   (Group {| type := tabs; panels := ps;
                             config := Some {| defaultActiveTab := Some 0%Z;
                                               tabPosition := Some top;
                                               centered := None;
                                               hideTabList := None;
                                               activeTabIndex := None |} |})
                   currentLayout);
         selection := Some (SlotSelected position) |}
  end.

(** The assignment of panel [panelId] to slot [position], the branch
    shared by [handleSlotClick] (lines 1335-1366) and [handlePanelClick]
    (lines 1379-1410). *)
Definition assign (position : Region) (panelId : string) : Result :=
  match isTabs (get currentLayout position) with
  | Some slot =>
      if includes (panels slot) panelId
      then togglePanelInTabGroup position panelId
      else
        let currentGroup := slot in
        let newLayout := removePanelFromLayout currentLayout panelId in
        {| changed :=
             Some (set position
                     (Group (with_panels currentGroup (panels currentGroup ++ [panelId])))
                     newLayout);
           selection := sel |}
  | None =>
      let newLayout := removePanelFromLayout currentLayout panelId in
      {| changed := Some (set position (PanelId panelId) newLayout); selection := None |}
  end.

(** Lines 1314-1368. *)
Definition handleSlotClick (position : Region) : Result :=
  match sel with
  | None => {| changed := None; selection := Some (SlotSelected position) |}
  | Some (SlotSelected selected) =>
      if match selected, position with
         | Left, Left | Middle, Middle | Right, Right => true
         | _, _ => false
         end
      then {| changed := None; selection := sel |}
      else
        let temp := get currentLayout selected in
        let newLayout := set_raw selected (get currentLayout position) currentLayout in
        let newLayout := set_raw position temp newLayout in
        {| changed := Some newLayout; selection := None |}
  | Some (PanelSelected id) => assign position id
  end.

(** Lines 1371-1415. *)
Definition handlePanelClick (panelId : string) : Result :=
  match sel with
  | None => {| changed := None; selection := Some (PanelSelected panelId) |}
  | Some (SlotSelected position) => assign position panelId
  | Some (PanelSelected _) => {| changed := None; selection := Some (PanelSelected panelId) |}
  end.

(** Lines 1418-1424. *)
Definition handleSlotClear (position : Region) : Result :=
  {| changed := Some (set position Null currentLayout); selection := None |}.

(** Lines 1427-1439. *)
Definition removePanelFromTabGroup (position : Region) (panelId : string) : Result :=
  match isTabs (get currentLayout position) with
  | None => {| changed := None; selection := sel |}
  | Some slot =>
      let filteredPanels := without panelId (panels slot) in
      {| changed := Some (set position (Group (with_panels slot filteredPanels)) currentLayout);
         selection := sel |}
  end.

(** [{ ...old, ...new }] on two configurations: a field of [new] that is
    present wins. *)
Definition merge_config (old : option TabsConfig) (new : TabsConfig) : TabsConfig :=
  let pick {A} (n o : option A) := match n with Some _ => n | None => o end in
  match old with
  | None => new
  | Some o =>
      {| defaultActiveTab := pick (defaultActiveTab new) (defaultActiveTab o);
         tabPosition := pick (tabPosition new) (tabPosition o);
         centered := pick (centered new) (centered o);
         hideTabList := pick (hideTabList new) (hideTabList o);
         activeTabIndex := pick (activeTabIndex new) (activeTabIndex o) |}
  end.

(** Lines 1442-1453. *)
Definition updateTabConfig (position : Region) (cfg : TabsConfig) : Result :=
  match isTabs (get currentLayout position) with
  | None => {| changed := None; selection := sel |}
  | Some slot =>
      {| changed :=
           Some (set position
                   (Group {| type := type slot; panels := panels slot;
                             config := Some (merge_config (config slot) cfg) |})
                   currentLayout);
         selection := sel |}
  end.

End Handlers.

(** The operations a user can perform on the configurator. *)
Inductive Operation : Type :=
| SlotClick (position : Region)
| PanelClick (panelId : string)
| TabModeToggle (position : Region)
| SlotClear (position : Region)
| TabGroupRemove (position : Region) (panelId : string)
| TabConfigUpdate (position : Region) (cfg : TabsConfig).

Definition perform (op : Operation) (currentLayout : PanelLayout) (sel : Selection) : Result :=
  match op with
  | SlotClick position => handleSlotClick currentLayout sel position
  | PanelClick panelId => handlePanelClick currentLayout sel panelId
  | TabModeToggle position => toggleTabMode currentLayout position
  | SlotClear position => handleSlotClear currentLayout position
  | TabGroupRemove position panelId => removePanelFromTabGroup currentLayout sel position panelId
  | TabConfigUpdate position cfg => updateTabConfig currentLayout sel position cfg
  end.

(** The layout the parent holds after the operation: the argument of
    [onChange] when it was called, the old layout otherwise. *)
Definition layout_after (op : Operation) (currentLayout : PanelLayout) (sel : Selection)
  : PanelLayout :=
  match changed (perform op currentLayout sel) with
  | Some l => l
  | None => currentLayout
  end.

(** All panel ids of a layout, slot by slot. *)
Definition allPanelIds (l : PanelLayout) : list string :=
  getPanelIdsFromSlot (left_slot l)
    ++ getPanelIdsFromSlot (middle_slot l)
    ++ getPanelIdsFromSlot (right_slot l).

(** Every panel id appears in at most one slot or group. *)
Definition unique (l : PanelLayout) : Prop := NoDup (allPanelIds l).

End PanelConfigurator.

(** ** The vocabulary of the properties

    The examples the properties are tried on, and the notions they are
    stated with. *)

(** Equality of regions, as a boolean. *)
Definition region_eqb (a b : Region) : bool :=
  match a, b with
  | Left, Left | Middle, Middle | Right, Right => true
  | _, _ => false
  end.

(** The props of the example: the default sizes 20 / 60 / 20, both outer
    panels collapsible, a resize callback. *)
Definition example_props : ThreePanelLayout.Props :=
  {| ThreePanelLayout.collapsiblePanels_left := true;
     ThreePanelLayout.collapsiblePanels_right := true;
     ThreePanelLayout.defaultSizes_left := 20;
     ThreePanelLayout.defaultSizes_middle := 60;
     ThreePanelLayout.defaultSizes_right := 20;
     ThreePanelLayout.collapsed_left := false;
     ThreePanelLayout.collapsed_right := false;
     ThreePanelLayout.animationDuration := 300;
     ThreePanelLayout.onPanelResize := true |}.







(** The handler behind a collapse request ([collapse = true]) or an
    expand request on region [r]. *)
Definition toggle_handler (collapse : bool) (r : Region)
  : ConfigurablePanelLayout.Props -> ConfigurablePanelLayout.State
    -> ConfigurablePanelLayout.Outcome :=
  if collapse
  then ConfigurablePanelLayout.handleCollapse r
  else ConfigurablePanelLayout.handleExpand r.









(** The three panels of the example of the specification. *)
Definition abc : list TabGroup.PanelDefinitionWithContent :=
  [ {| TabGroup.id := "a"; TabGroup.label := "A" |};
    {| TabGroup.id := "b"; TabGroup.label := "B" |};
    {| TabGroup.id := "c"; TabGroup.label := "C" |} ].

(** The default props with two panels. *)
Definition two_default_panels : SnapCarousel.Props :=
  {| SnapCarousel.panelCount := 2;
     SnapCarousel.minPanelWidth := 350;
     SnapCarousel.idealPanelWidth := 333 # 1000 |}.

(** The panel ids held at one position. *)
Definition ids_at (l : PanelConfigurator.PanelLayout) (pos : Region) : list string :=
  PanelConfigurator.getPanelIdsFromSlot (PanelConfigurator.get l pos).

(** A layout with panel a on the left, the tab group (b, c) in the
    middle and an empty right slot. *)
Definition sample_layout : PanelConfigurator.PanelLayout :=
  {| PanelConfigurator.left_slot := Some (PanelConfigurator.PanelId "a");
     PanelConfigurator.middle_slot :=
       Some (PanelConfigurator.Group
               {| PanelConfigurator.type := PanelConfigurator.tabs;
                  PanelConfigurator.panels := ["b"; "c"]%string;
                  PanelConfigurator.config := None |});
     PanelConfigurator.right_slot := Some PanelConfigurator.Null |}.

(** ** Frame-driven tween: [animatePanel], [animateTopPanel], [animateBottomPanel]

    The two-panel layouts drive the handle once per animation frame, by
    the time that has passed.  The function is defined, with the same
    text up to the names of its refs and of the flag it lowers, as
    [animatePanel] of AnimatedResizableLayout
    (AnimatedResizableLayout.tsx, lines 95-138) and as [animateTopPanel]
    and [animateBottomPanel] of AnimatedVerticalLayout (part_003, lines
    119-160 and 162-203).  The cancellation of an earlier request
    ([cancelAnimationFrame]) is not recorded. *)

Module FrameTween.

(** What one run does to the outside world, in order. *)
Inductive Effect : Type :=
| Resize (size : Q)        (* panelRef.current.resize(size) *)
| Collapse                 (* panelRef.current.collapse() *)
| StopAnimating            (* setIsAnimating(false) *)
| Complete                 (* onComplete() *)
| Request.                 (* requestAnimationFrame(animate) *)

(** One animation frame as the browser delivers it: the time stamp
    handed to [animate] and whether [panelRef.current] is non-null
    then. *)
Record Frame : Type := { currentTime : Q; handle : bool }.

Section Run.

(** The value of [performance.now()] stored in [startTimeRef.current]. *)
Variable startTime : Q.
Variable animationDuration : Q.
Variables fromSize toSize : Q.
(** Whether the optional [onComplete] argument was supplied. *)
Variable onComplete : bool.

(** [Math.min(elapsed / animationDuration, 1)].  The quotient is the one
    of the rationals; it is the quotient of JavaScript for every
    duration but zero. *)
Definition progress_at (currentTime : Q) : Q :=
  Qmin ((currentTime - startTime) / animationDuration) 1.

(** The size handed to [resize] in the frame of time [currentTime]. *)
Definition size_at (currentTime : Q) : Q :=
  fromSize + (toSize - fromSize) * Tween.eased (progress_at currentTime).

(** What the last frame does after its [resize]. *)
Definition final_effects : list Effect :=
  (if JS.is_zero toSize then Collapse else Resize toSize)
    :: StopAnimating
    :: (if onComplete then [Complete] else []).

(** The inner closure [animate], called once per delivered frame.  The
    list holds the frames the browser delivers from now on; when it
    runs out the last request stays unanswered. *)
Fixpoint animate (frames : list Frame) : list Effect :=
  match frames with
  | [] => []
  | f :: rest =>
      if negb (JS.truthy startTime) || negb (handle f)
      then []
      else
        let progress := progress_at (currentTime f) in
        Resize (size_at (currentTime f))
          :: (if JS.ltb progress 1
              then Request :: animate rest
              else final_effects)
  end.

(** [handle0] tells whether [panelRef.current] is non-null when the
    function is called. *)
Definition animatePanel (handle0 : bool) (frames : list Frame) : list Effect :=
  if negb handle0 then [] else Request :: animate frames.

End Run.

Definition is_complete (e : Effect) : bool :=
  match e with Complete => true | _ => false end.

Definition is_stop (e : Effect) : bool :=
  match e with StopAnimating => true | _ => false end.

(** The sizes handed to [resize], in order. *)
Definition resizes (t : list Effect) : list Q :=
  flat_map (fun e => match e with Resize s => [s] | _ => [] end) t.

Definition completions (t : list Effect) : nat := List.length (filter is_complete t).

End FrameTween.

(** ** AnimatedResizableLayout (AnimatedResizableLayout.tsx, lines 66-330) *)

Module AnimatedResizableLayout.

Record Props : Type := {
  defaultSize : Q;
  collapsed : bool;
  animationDuration : Q
}.

(** The [useState] cells of the component (lines 84-88). *)
Record State : Type := {
  isCollapsed : bool;
  isAnimating : bool;
  isDragging : bool;
  hideHandle : bool;
  currentSize : Q
}.

Definition setIsCollapsed (v : bool) (s : State) : State :=
  Build_State v (isAnimating s) (isDragging s) (hideHandle s) (currentSize s).

Definition setIsAnimating (v : bool) (s : State) : State :=
  Build_State (isCollapsed s) v (isDragging s) (hideHandle s) (currentSize s).

Definition setIsDragging (v : bool) (s : State) : State :=
  Build_State (isCollapsed s) (isAnimating s) v (hideHandle s) (currentSize s).

Definition setHideHandle (v : bool) (s : State) : State :=
  Build_State (isCollapsed s) (isAnimating s) (isDragging s) v (currentSize s).

Definition setCurrentSize (v : Q) (s : State) : State :=
  Build_State (isCollapsed s) (isAnimating s) (isDragging s) (hideHandle s) v.

(** The state on mount. *)
Definition initial (p : Props) : State :=
  {| isCollapsed := collapsed p;
     isAnimating := false;
     isDragging := false;
     hideHandle := collapsed p;
     currentSize := if collapsed p then 0 else defaultSize p |}.

Inductive Callback : Type :=
| onCollapseStart | onCollapseComplete | onExpandStart | onExpandComplete.

(** The arguments of one call of [animatePanel]. *)
Record Animation : Type := {
  fromSize : Q;
  toSize : Q;
  onComplete : State -> State;
  completeCallback : Callback
}.

(** [Rejected] is the early [return] of the guard; otherwise the state
    the handler sets, the start callback it fires and the call of
    [animatePanel] it makes before it returns. *)
Inductive Outcome : Type :=
| Rejected
| Started (next : State) (startCallback : Callback) (animation : Animation).

(** Lines 141-154. *)
Definition handleCollapse (p : Props) (st : State) : Outcome :=
  if isAnimating st || isDragging st
  then Rejected
  else
    Started
      (set_all [setIsAnimating true; setIsCollapsed true] st)
      onCollapseStart
      {| fromSize := currentSize st;
         toSize := 0;
         onComplete := set_all [setCurrentSize 0; setHideHandle true];
         completeCallback := onCollapseComplete |}.

(** Lines 156-169. *)
Definition handleExpand (p : Props) (st : State) : Outcome :=
  if isAnimating st || isDragging st
  then Rejected
  else
    Started
      (set_all [setIsAnimating true; setIsCollapsed false; setHideHandle false] st)
      onExpandStart
      {| fromSize := 0;
         toSize := defaultSize p;
         onComplete := setCurrentSize (defaultSize p);
         completeCallback := onExpandComplete |}.

(** Lines 171-177. *)
Definition togglePanel (p : Props) (st : State) : Outcome :=
  if isCollapsed st then handleExpand p st else handleCollapse p st.

(** Lines 179-190: the [onResize] callback of the collapsible panel. *)
Definition handleResize (size : Q) (st : State) : State :=
  if negb (isAnimating st)
  then
    let st := setCurrentSize size st in
    if JS.gtb size 0 then setIsCollapsed false st else st
  else st.

(** Lines 192-194.  The function takes no argument; it is wired to
    [onDragging] of the resize handle (line 289), which calls it with
    the new dragging flag. *)
Definition handleDragStart (st : State) : State := setIsDragging true st.

Definition onDragging (dragging : bool) (st : State) : State := handleDragStart st.

(** Lines 196-198; wired to [onLayout] of the panel group (line 261). *)
Definition handleDragEnd (st : State) : State := setIsDragging false st.

(** Lines 200-210: the effect that follows the [collapsed] prop; the
    handler it calls, if it calls one. *)
Definition collapsedEffect (p : Props) (st : State) : option Outcome :=
  if Bool.eqb (collapsed p) (isCollapsed st) then None
  else Some (if collapsed p then handleCollapse p st else handleExpand p st).

(** Lines 213-219: the effect that runs when the [collapsed] prop or
    [isAnimating] has changed. *)
Definition hideHandleEffect (p : Props) (st : State) : State :=
  if collapsed p && negb (isAnimating st) then setHideHandle true st
  else if negb (collapsed p) && negb (isAnimating st) then setHideHandle false st
  else st.

(** Lines 246-257. *)
Definition getPanelClassName (st : State) (isCollapsiblePanel : bool) : string :=
  let className := "hybrid-panel"%string in
  if isCollapsiblePanel
  then
    let className := (className ++ " collapsible-panel")%string in
    let className :=
      if isAnimating st && negb (isDragging st)
      then (className ++ " animating")%string else className in
    if isCollapsed st then (className ++ " collapsed")%string else className
  else className.

(** The state right after the handler returned. *)
Definition after (o : Outcome) (st : State) : State :=
  match o with
  | Rejected => st
  | Started next _ _ => next
  end.

(** What one effect of the run does to the state. *)
Definition settle (a : Animation) (st : State) (e : FrameTween.Effect) : State :=
  match e with
  | FrameTween.StopAnimating => setIsAnimating false st
  | FrameTween.Complete => onComplete a st
  | _ => st
  end.

(** One whole toggle: the handler and the run of [animatePanel] it
    starts, with the frames the browser delivers.  The result is the
    state when the run has stopped and the effects of the run. *)
Definition run (p : Props) (startTime : Q) (handle0 : bool) (frames : list FrameTween.Frame)
    (o : Outcome) (st : State) : State * list FrameTween.Effect :=
  match o with
  | Rejected => (st, [])
  | Started next _ a =>
      let t :=
        FrameTween.animatePanel startTime (animationDuration p) (fromSize a) (toSize a)
          true handle0 frames in
      (fold_left (settle a) t next, t)
  end.

End AnimatedResizableLayout.

(** ** AnimatedVerticalLayout (part_003, lines 77-468) *)

Module AnimatedVerticalLayout.

(** The sizes handed to [onPanelResize]. *)
Record Sizes : Type := { top : Q; bottom : Q }.

Record Props : Type := {
  collapsiblePanels_top : bool;      (* collapsiblePanels.top, [undefined] read as false *)
  collapsiblePanels_bottom : bool;
  defaultSizes_top : Q;
  defaultSizes_bottom : Q;
  collapsed_top : option bool;       (* collapsed.top, [None] for [undefined] *)
  collapsed_bottom : option bool;
  animationDuration : Q;
  onPanelResize : bool               (* whether the callback was supplied *)
}.

(** The [useState] cells of the component (lines 101-117). *)
Record State : Type := {
  isTopCollapsed : bool;
  isTopAnimating : bool;
  currentTopSize : Q;
  isBottomCollapsed : bool;
  isBottomAnimating : bool;
  currentBottomSize : Q;
  isDragging : bool
}.

Definition setIsTopCollapsed (v : bool) (s : State) : State :=
  Build_State v (isTopAnimating s) (currentTopSize s)
    (isBottomCollapsed s) (isBottomAnimating s) (currentBottomSize s) (isDragging s).

Definition setIsTopAnimating (v : bool) (s : State) : State :=
  Build_State (isTopCollapsed s) v (currentTopSize s)
    (isBottomCollapsed s) (isBottomAnimating s) (currentBottomSize s) (isDragging s).

Definition setCurrentTopSize (v : Q) (s : State) : State :=
  Build_State (isTopCollapsed s) (isTopAnimating s) v
    (isBottomCollapsed s) (isBottomAnimating s) (currentBottomSize s) (isDragging s).

Definition setIsBottomCollapsed (v : bool) (s : State) : State :=
  Build_State (isTopCollapsed s) (isTopAnimating s) (currentTopSize s)
    v (isBottomAnimating s) (currentBottomSize s) (isDragging s).

Definition setIsBottomAnimating (v : bool) (s : State) : State :=
  Build_State (isTopCollapsed s) (isTopAnimating s) (currentTopSize s)
    (isBottomCollapsed s) v (currentBottomSize s) (isDragging s).

Definition setCurrentBottomSize (v : Q) (s : State) : State :=
  Build_State (isTopCollapsed s) (isTopAnimating s) (currentTopSize s)
    (isBottomCollapsed s) (isBottomAnimating s) v (isDragging s).

Definition setIsDragging (v : bool) (s : State) : State :=
  Build_State (isTopCollapsed s) (isTopAnimating s) (currentTopSize s)
    (isBottomCollapsed s) (isBottomAnimating s) (currentBottomSize s) v.

(** [x || false] and the test [x ? .. : ..] on an optional boolean. *)
Definition truthy (x : option bool) : bool :=
  match x with Some b => b | None => false end.

(** The state on mount. *)
Definition initial (p : Props) : State :=
  {| isTopCollapsed := truthy (collapsed_top p);
     isTopAnimating := false;
     currentTopSize := if truthy (collapsed_top p) then 0 else defaultSizes_top p;
     isBottomCollapsed := truthy (collapsed_bottom p);
     isBottomAnimating := false;
     currentBottomSize := if truthy (collapsed_bottom p) then 0 else defaultSizes_bottom p;
     isDragging := false |}.

Inductive Callback : Type :=
| onTopCollapseStart | onTopCollapseComplete
| onTopExpandStart | onTopExpandComplete
| onBottomCollapseStart | onBottomCollapseComplete
| onBottomExpandStart | onBottomExpandComplete.

Inductive Side : Type := Top | Bottom.

(** The arguments of one call of [animateTopPanel] ([panel = Top]) or
    [animateBottomPanel] ([panel = Bottom]). *)
Record Animation : Type := {
  panel : Side;
  fromSize : Q;
  toSize : Q;
  onComplete : State -> State;
  completeCallback : Callback
}.

Inductive Outcome : Type :=
| Rejected
| Started (next : State) (startCallback : Callback) (animation : Animation).

(** Lines 205-216. *)
Definition handleTopCollapse (p : Props) (st : State) : Outcome :=
  if isTopAnimating st || isDragging st || negb (collapsiblePanels_top p)
  then Rejected
  else
    Started
      (set_all [setIsTopAnimating true; setIsTopCollapsed true] st)
      onTopCollapseStart
      {| panel := Top;
         fromSize := currentTopSize st;
         toSize := 0;
         onComplete := setCurrentTopSize 0;
         completeCallback := onTopCollapseComplete |}.

(** Lines 218-229. *)
Definition handleTopExpand (p : Props) (st : State) : Outcome :=
  if isTopAnimating st || isDragging st || negb (collapsiblePanels_top p)
  then Rejected
  else
    Started
      (set_all [setIsTopAnimating true; setIsTopCollapsed false] st)
      onTopExpandStart
      {| panel := Top;
         fromSize := 0;
         toSize := defaultSizes_top p;
         onComplete := setCurrentTopSize (defaultSizes_top p);
         completeCallback := onTopExpandComplete |}.

(** Lines 231-237. *)
Definition toggleTopPanel (p : Props) (st : State) : Outcome :=
  if isTopCollapsed st then handleTopExpand p st else handleTopCollapse p st.

(** Lines 240-251. *)
Definition handleBottomCollapse (p : Props) (st : State) : Outcome :=
  if isBottomAnimating st || isDragging st || negb (collapsiblePanels_bottom p)
  then Rejected
  else
    Started
      (set_all [setIsBottomAnimating true; setIsBottomCollapsed true] st)
      onBottomCollapseStart
      {| panel := Bottom;
         fromSize := currentBottomSize st;
         toSize := 0;
         onComplete := setCurrentBottomSize 0;
         completeCallback := onBottomCollapseComplete |}.

(** Lines 253-264. *)
Definition handleBottomExpand (p : Props) (st : State) : Outcome :=
  if isBottomAnimating st || isDragging st || negb (collapsiblePanels_bottom p)
  then Rejected
  else
    Started
      (set_all [setIsBottomAnimating true; setIsBottomCollapsed false] st)
      onBottomExpandStart
      {| panel := Bottom;
         fromSize := 0;
         toSize := defaultSizes_bottom p;
         onComplete := setCurrentBottomSize (defaultSizes_bottom p);
         completeCallback := onBottomExpandComplete |}.

(** Lines 266-272. *)
Definition toggleBottomPanel (p : Props) (st : State) : Outcome :=
  if isBottomCollapsed st then handleBottomExpand p st else handleBottomCollapse p st.

(** Lines 274-296: the [onResize] callbacks of the two panels. *)
Definition handleTopResize (size : Q) (st : State) : State :=
  if negb (isTopAnimating st)
  then
    let st := setCurrentTopSize size st in
    if JS.gtb size 0 then setIsTopCollapsed false st else st
  else st.

Definition handleBottomResize (size : Q) (st : State) : State :=
  if negb (isBottomAnimating st)
  then
    let st := setCurrentBottomSize size st in
    if JS.gtb size 0 then setIsBottomCollapsed false st else st
  else st.

(** Lines 298-300.  The function takes no argument; it is wired to
    [onDragging] of the resize handle (line 413), which calls it with
    the new dragging flag. *)
Definition handleDragStart (st : State) : State := setIsDragging true st.

Definition onDragging (dragging : bool) (st : State) : State := handleDragStart st.

(** Lines 302-310; wired to [onLayout] of the panel group (line 385). *)
Definition handleDragEnd (p : Props) (st : State) : State * option Sizes :=
  (setIsDragging false st,
   if onPanelResize p
   then Some {| top := currentTopSize st; bottom := currentBottomSize st |}
   else None).

(** Lines 313-335: the effects that follow the [collapsed] prop; the
    handler each calls, if it calls one. *)
Definition collapsedTopEffect (p : Props) (st : State) : option Outcome :=
  match collapsed_top p with
  | None => None
  | Some c =>
      if Bool.eqb c (isTopCollapsed st) then None
      else Some (if c then handleTopCollapse p st else handleTopExpand p st)
  end.

Definition collapsedBottomEffect (p : Props) (st : State) : option Outcome :=
  match collapsed_bottom p with
  | None => None
  | Some c =>
      if Bool.eqb c (isBottomCollapsed st) then None
      else Some (if c then handleBottomCollapse p st else handleBottomExpand p st)
  end.

(** The state right after the handler returned. *)
Definition after (o : Outcome) (st : State) : State :=
  match o with
  | Rejected => st
  | Started next _ _ => next
  end.

(** What one effect of the run does to the state: [animateTopPanel]
    lowers [isTopAnimating], [animateBottomPanel] [isBottomAnimating]. *)
Definition settle (a : Animation) (st : State) (e : FrameTween.Effect) : State :=
  match e with
  | FrameTween.StopAnimating =>
      match panel a with
      | Top => setIsTopAnimating false st
      | Bottom => setIsBottomAnimating false st
      end
  | FrameTween.Complete => onComplete a st
  | _ => st
  end.

(** One whole toggle: the handler and the run it starts, with the
    frames the browser delivers. *)
Definition run (p : Props) (startTime : Q) (handle0 : bool) (frames : list FrameTween.Frame)
    (o : Outcome) (st : State) : State * list FrameTween.Effect :=
  match o with
  | Rejected => (st, [])
  | Started next _ a =>
      let t :=
        FrameTween.animatePanel startTime (animationDuration p) (fromSize a) (toSize a)
          true handle0 frames in
      (fold_left (settle a) t next, t)
  end.

End AnimatedVerticalLayout.

(** ** ResponsiveConfigurablePanelLayout (part_002, lines 41-181): the
       mobile layout *)

Module ResponsiveConfigurablePanelLayout.

(** What a mobile slot shows. *)
Inductive Content : Type :=
| TabGroupOf (panelIds : list string) (config : option PanelConfigurator.TabsConfig)
    (* <TabGroup panelIds={group.panels} config={group.config} ... /> *)
| ContentOf (panel : option TabGroup.PanelDefinitionWithContent).
    (* panel?.content ?? null *)

Record MobileSlotInfo : Type := { content : Content; label : string; slot : Region }.

(** [panels.find(p => p.id === panelId)]. *)
Definition find_panel (panels : list TabGroup.PanelDefinitionWithContent) (panelId : string)
  : option TabGroup.PanelDefinitionWithContent :=
  find (fun p => String.eqb (TabGroup.id p) panelId) panels.

(** Lines 59-63. *)
Definition getPanelContent (panels : list TabGroup.PanelDefinitionWithContent)
    (panelId : string) : Content :=
  if String.eqb panelId EmptyString then ContentOf None
  else ContentOf (find_panel panels panelId).

(** Lines 65-68. *)
Definition getPanelLabel (panels : list TabGroup.PanelDefinitionWithContent)
    (panelId : string) : string :=
  match find_panel panels panelId with
  | Some panel => TabGroup.label panel
  | None => panelId
  end.

(** Lines 70-101. *)
Definition processSlot (panels : list TabGroup.PanelDefinitionWithContent)
    (slot : option PanelConfigurator.PanelSlot) (slotName : Region)
  : option MobileSlotInfo :=
  match slot with
  | None | Some PanelConfigurator.Null => None
  | Some (PanelConfigurator.Group group) =>
      match PanelConfigurator.type group with
      | PanelConfigurator.tabs =>
          let firstPanelLabel :=
            match PanelConfigurator.panels group with
            | first :: _ => getPanelLabel panels first
            | [] => "Tab Group"%string
            end in
          Some {| content :=
                    TabGroupOf (PanelConfigurator.panels group) (PanelConfigurator.config group);
                  label := firstPanelLabel;
                  slot := slotName |}
      | PanelConfigurator.tiles => None
      end
  | Some (PanelConfigurator.PanelId s) =>
      Some {| content := getPanelContent panels s;
              label := getPanelLabel panels s;
              slot := slotName |}
  end.

(** [array.filter(x => x !== null)] on one element. *)
Definition keep {A : Type} (x : option A) : list A :=
  match x with Some a => [a] | None => [] end.

(** Lines 54-106: [orderedSlots], [slotNames] and [mobileSlots]. *)
Definition mobileSlots (layout : PanelConfigurator.PanelLayout)
    (panels : list TabGroup.PanelDefinitionWithContent) : list MobileSlotInfo :=
  flat_map (fun slotName => keep (processSlot panels (PanelConfigurator.get layout slotName) slotName))
    [Left; Middle; Right].

(** What a click on a tab or a change of the carousel panel does. *)
Record Change : Type := {
  activeTabIndex : Z;                          (* setActiveTabIndex(index) *)
  scrolledTo : option Z;                       (* carouselRef.current?.scrollToPanel(index) *)
  userOnPanelChange : option Z;                (* mobileCarouselProps?.onPanelChange?.(index) *)
  onMobilePanelChange : option (Z * Region)    (* onMobilePanelChange?.(index, slot) *)
}.

(** [mobileSlots[index]?.slot], passed on when the callback was supplied. *)
Definition notify (supplied : bool) (slots : list MobileSlotInfo) (index : Z)
  : option (Z * Region) :=
  match TabGroup.index slots index with
  | Some info => if supplied then Some (index, slot info) else None
  | None => None
  end.

(** Lines 108-116; [carousel] tells whether [carouselRef.current] is
    non-null, [supplied] whether [onMobilePanelChange] was passed. *)
Definition handleTabClick (carousel supplied : bool) (slots : list MobileSlotInfo) (index : Z)
  : Change :=
  {| activeTabIndex := index;
     scrolledTo := if carousel then Some index else None;
     userOnPanelChange := None;
     onMobilePanelChange := notify supplied slots index |}.

(** Lines 118-127; [user] tells whether [mobileCarouselProps.onPanelChange]
    was passed. *)
Definition handlePanelChange (user supplied : bool) (slots : list MobileSlotInfo) (index : Z)
  : Change :=
  {| activeTabIndex := index;
     scrolledTo := None;
     userOnPanelChange := if user then Some index else None;
     onMobilePanelChange := notify supplied slots index |}.

End ResponsiveConfigurablePanelLayout.

(** ** EditableConfigurablePanelLayout (ThreePanelLayout.tsx, lines 695-822):
       the drag handlers

    The ids of the drag events are those the slot overlays register:
    [slot-<position>] for what is dragged, [drop-<position>] for what is
    dragged over.  An event is given by the positions in its ids. *)

Module EditableConfigurablePanelLayout.

Record State : Type := { activeSlot : option Region; dragOffset : Q * Q }.

(** Line 705. *)
Definition initial : State := {| activeSlot := None; dragOffset := (0, 0) |}.

(** Lines 713-720, for the id [slot-<active>]. *)
Definition handleDragStart (active : Region) (st : State) : State :=
  {| activeSlot := Some active; dragOffset := (0, 0) |}.

(** Lines 722-725. *)
Definition handleDragMove (delta : Q * Q) (st : State) : State :=
  {| activeSlot := activeSlot st; dragOffset := delta |}.

(** Lines 727-753, for the ids [slot-<active>] and [drop-<over>]
    ([over] is [None] when the event has no [over]): the state and the
    layout handed to [onLayoutChange], when the handler calls it. *)
Definition handleDragEnd (onLayoutChange : bool) (layout : PanelConfigurator.PanelLayout)
    (active : Region) (over : option Region) (st : State)
  : State * option PanelConfigurator.PanelLayout :=
  let st := {| activeSlot := None; dragOffset := (0, 0) |} in
  match over with
  | None => (st, None)
  | Some targetSlot =>
      let sourceSlot := active in
      if region_eqb sourceSlot targetSlot then (st, None)
      else
        let temp := PanelConfigurator.get layout sourceSlot in
        let newLayout :=
          PanelConfigurator.set_raw sourceSlot (PanelConfigurator.get layout targetSlot) layout in
        let newLayout := PanelConfigurator.set_raw targetSlot temp newLayout in
        (st, if onLayoutChange then Some newLayout else None)
  end.

End EditableConfigurablePanelLayout.

(** ** The vocabulary of the further properties *)

(** The sizes handed to [resize] in a run of the stepped tween, in order. *)
Definition resized (t : list Tween.Effect) : list Q :=
  flat_map (fun e => match e with Tween.Resize s => [s] | _ => [] end) t.

(** [s] lies between [a] and [b], whichever of the two is the larger. *)
Definition between (a b s : Q) : Prop := Qmin a b <= s /\ s <= Qmax a b.

(** No size is above a later one; no size is below a later one. *)
Definition increasing : list Q -> Prop := StronglySorted Qle.

Definition decreasing : list Q -> Prop := StronglySorted (fun x y => y <= x).

(** The size of a tween at the eased position [e]. *)
Definition tweened (fromSize toSize e : Q) : Q := fromSize + (toSize - fromSize) * e.

(** The progress of the nine eased steps: 1/10, ..., 9/10. *)
Definition tenths : list Q := map Tween.progress_of (seq 1 9).

(** The frames of a run of the frame-driven tween that reaches its end:
    in the frames of [pre] the handle is there and the duration has not
    passed; in the frame [last] the handle is there and the duration has
    passed. *)
Definition reaches_end (startTime animationDuration : Q) (pre : list FrameTween.Frame)
    (last : FrameTween.Frame) : Prop :=
  Forall (fun f => FrameTween.handle f = true
                   /\ FrameTween.currentTime f - startTime < animationDuration) pre
  /\ FrameTween.handle last = true
  /\ animationDuration <= FrameTween.currentTime last - startTime.

(** The default props of AnimatedResizableLayout. *)
Definition two_panel_example : AnimatedResizableLayout.Props :=
  {| AnimatedResizableLayout.defaultSize := 25;
     AnimatedResizableLayout.collapsed := false;
     AnimatedResizableLayout.animationDuration := 300 |}.

(** A frame of time [t] in which the handle is there. *)
Definition frame_at (t : Q) : FrameTween.Frame :=
  {| FrameTween.currentTime := t; FrameTween.handle := true |}.



(** What the loop of [getCurrentPanel] knows of the children [all] after
    it has looked at those in [done]: nothing yet, or the first of the
    nearest among them and its distance. *)
Definition scanned (snapPointX : Q) (all done : list SnapCarousel.Child)
    (closestIndex : nat) (closestDistance : option Q) : Prop :=
  match closestDistance with
  | None => done = []
  | Some d =>
      exists c,
        nth_error all closestIndex = Some c
        /\ d = SnapCarousel.distance snapPointX c
        /\ (closestIndex < List.length done)%nat
        /\ (forall j cj,
              (j < List.length done)%nat -> nth_error all j = Some cj ->
              d <= SnapCarousel.distance snapPointX cj)
        /\ (forall j cj,
              (j < closestIndex)%nat -> nth_error all j = Some cj ->
              d < SnapCarousel.distance snapPointX cj)
  end.

(** A carousel of three panels, 300 wide, scrolled to the second one. *)
Definition three_children : SnapCarousel.Container :=
  {| SnapCarousel.container_left := 10;
     SnapCarousel.children :=
       [ {| SnapCarousel.rect_left := -(290); SnapCarousel.offsetLeft := 0 |};
         {| SnapCarousel.rect_left := 10; SnapCarousel.offsetLeft := 300 |};
         {| SnapCarousel.rect_left := 310; SnapCarousel.offsetLeft := 600 |} ] |}.

(** What [removePanelAt] leaves at its position. *)
Definition slot_without (panelId : string) (slot : option PanelConfigurator.PanelSlot)
  : option PanelConfigurator.PanelSlot :=
  match slot with
  | Some (PanelConfigurator.PanelId s) =>
      if String.eqb s panelId then Some PanelConfigurator.Null else slot
  | Some (PanelConfigurator.Group g) =>
      match PanelConfigurator.without panelId (PanelConfigurator.panels g) with
      | [] => Some PanelConfigurator.Null
      | [only] => Some (PanelConfigurator.PanelId only)
      | filteredPanels =>
          Some (PanelConfigurator.Group (PanelConfigurator.with_panels g filteredPanels))
      end
  | _ => slot
  end.

(** A slot the mobile layout shows: a panel id or a group of tabs. *)
Definition shown (slot : option PanelConfigurator.PanelSlot) : bool :=
  match slot with
  | Some (PanelConfigurator.PanelId _) => true
  | Some (PanelConfigurator.Group g) =>
      match PanelConfigurator.type g with
      | PanelConfigurator.tabs => true
      | PanelConfigurator.tiles => false
      end
  | _ => false
  end.

(** The effects of the eased step that [animate] of
    [animateMultiplePanels] makes when it is entered with the counter at
    [k]. *)
Definition coordinated_step (env : ConfigurablePanelLayout.Env) (duration : Q)
    (valid : list ConfigurablePanelLayout.Animation) (k : nat)
  : list ConfigurablePanelLayout.Effect :=
  ConfigurablePanelLayout.eased_calls env valid k (Tween.eased (Tween.progress_of (S k)))
    ++ [ConfigurablePanelLayout.Schedule (Tween.step_delay duration)].

(** How often a run of [animateMultiplePanels] called [onComplete]. *)
Definition completions_of (t : list ConfigurablePanelLayout.Effect) : nat :=
  List.length (filter ConfigurablePanelLayout.is_complete t).



(** [defaultSizes] was passed without entries. *)
Definition no_default_sizes (p : ConfigurablePanelLayout.Props) : Prop :=
  ConfigurablePanelLayout.defaultSizes_left p = None
  /\ ConfigurablePanelLayout.defaultSizes_middle p = None
  /\ ConfigurablePanelLayout.defaultSizes_right p = None.

(** Whether a class attribute holds the class [cls], written with the
    blank that precedes it. *)
Definition has_class (cls className : string) : bool :=
  match String.index 0 cls className with
  | Some _ => true
  | None => false
  end.

(* ================================================================= *)
(** * Part II: the properties *)
(* ================================================================= *)

(** ** Comparisons of JavaScript numbers *)

Lemma ltb_lt (x y : Q) : JS.ltb x y = true <-> x < y.
Proof.
  unfold JS.ltb. rewrite negb_true_iff. split; intros H.
  - apply Qnot_le_lt. intros Hle. apply Qle_bool_iff in Hle. congruence.
  - destruct (Qle_bool y x) eqn:E; [|reflexivity].
    apply Qle_bool_iff in E. exfalso. exact (Qlt_not_le _ _ H E).
Qed.

Lemma ltb_ge (x y : Q) : JS.ltb x y = false <-> y <= x.
Proof. unfold JS.ltb. rewrite negb_false_iff. apply Qle_bool_iff. Qed.

Lemma gtb_gt (x y : Q) : JS.gtb x y = true <-> y < x.
Proof. exact (ltb_lt y x). Qed.

Lemma gtb_le (x y : Q) : JS.gtb x y = false <-> x <= y.
Proof. exact (ltb_ge y x). Qed.

Lemma is_zero_true (x : Q) : JS.is_zero x = true <-> x == 0.
Proof. apply Qeq_bool_iff. Qed.

Lemma is_zero_false (x : Q) : JS.is_zero x = false <-> ~ x == 0.
Proof.
  unfold JS.is_zero. split; intros H.
  - now apply Qeq_bool_neq.
  - destruct (Qeq_bool x 0) eqn:E; [|reflexivity].
    apply Qeq_bool_iff in E. contradiction.
Qed.



(** ** The tween engine *)

Section TweenFacts.

Import Tween.

(** The final step is reached exactly when the counter reaches [steps]. *)
Lemma progress_reaches_one (n : nat) :
  JS.geb (progress_of n) 1 = true <-> (10 <= n)%nat.
Proof.
  unfold JS.geb, progress_of, steps. rewrite Qle_bool_iff.
  unfold Qle, Qdiv, Qmult, Qinv, inject_Z. cbn [Qnum Qden Z.of_nat].
  change (Z.of_nat 10) with 10%Z. cbn. lia.
Qed.

Lemma progress_below_one (n : nat) :
  (n < 10)%nat -> JS.geb (progress_of n) 1 = false.
Proof.
  intros H. destruct (JS.geb (progress_of n) 1) eqn:E; [|reflexivity].
  apply progress_reaches_one in E. lia.
Qed.

Variable env : Env.
Variable animationDuration : Q.
Variables fromSize toSize : Q.
Variable onComplete : bool.

Let step := eased_step animationDuration fromSize toSize.

(** A run whose handle stays and whose start time is truthy: from the
    counter at [k], the [n] eased steps that remain, then the final one. *)
Lemma animate_to_the_end (n : nat) :
  forall k fuel,
    (k + n = 9)%nat ->
    (n < fuel)%nat ->
    (forall i, (i < 10)%nat -> handle env i = true) ->
    JS.truthy (now env) = true ->
    animate env animationDuration fromSize toSize onComplete fuel k
    = Some (flat_map step (seq (S k) n) ++ final_step toSize onComplete).
Proof.
  induction n as [|n IH]; intros k fuel Hk Hfuel Hh Hnow;
    (destruct fuel as [|fuel]; [lia|]); cbn [animate];
    rewrite (Hh k) by lia; rewrite Hnow; cbn [negb orb].
  - assert (k = 9%nat) by lia. subst k.
    replace (JS.geb (progress_of 10) 1) with true
      by (symmetry; apply progress_reaches_one; lia).
    reflexivity.
  - rewrite progress_below_one by lia.
    rewrite (IH (S k) fuel) by (auto; lia).
    reflexivity.
Qed.

(** A run whose handle is gone when [animate] is entered with the
    counter at [j]: the eased steps before that, and nothing more. *)
Lemma animate_until_lost (j n : nat) :
  forall k fuel,
    (k + n = j)%nat ->
    (j < 10)%nat ->
    (n < fuel)%nat ->
    (forall i, (i < j)%nat -> handle env i = true) ->
    handle env j = false ->
    JS.truthy (now env) = true ->
    animate env animationDuration fromSize toSize onComplete fuel k
    = Some (flat_map step (seq (S k) n)).
Proof.
  induction n as [|n IH]; intros k fuel Hk Hj Hfuel Hh Hlost Hnow;
    (destruct fuel as [|fuel]; [lia|]); cbn [animate].
  - assert (k = j) by lia. subst k. rewrite Hlost. reflexivity.
  - rewrite (Hh k) by lia. rewrite Hnow. cbn [negb orb].
    rewrite progress_below_one by lia.
    rewrite (IH (S k) fuel) by (auto; lia).
    reflexivity.
Qed.

(** With the handle there at every step, a truthy start time and enough
    fuel, [animatePanel] reaches its final step. *)
Lemma animatePanel_completes (fuel : nat) :
  (forall i, (i < 10)%nat -> handle env i = true) ->
  JS.truthy (now env) = true ->
  (10 <= fuel)%nat ->
  exists trace,
    animatePanel env animationDuration fromSize toSize true fuel = Some trace
    /\ completed trace = true.
Proof.
  intros Hh Hnow Hfuel. unfold animatePanel. rewrite (Hh 0%nat) by lia. cbn [negb].
  destruct fuel as [|fuel]; [lia|].
  cbn [animate]. rewrite (Hh 0%nat) by lia. rewrite Hnow. cbn [negb orb].
  rewrite progress_below_one by lia.
  assert (Hrest : forall n k f,
            (k + n = 9)%nat -> (n < f)%nat ->
            exists rest,
              animate env animationDuration fromSize toSize true f k = Some rest
              /\ completed rest = true).
  { induction n as [|n IH]; intros k f Hk Hf;
      (destruct f as [|f]; [lia|]); cbn [animate];
      rewrite (Hh k) by lia; rewrite Hnow; cbn [negb orb].
    - assert (k = 9%nat) by lia. subst k.
      replace (JS.geb (progress_of 10) 1) with true
        by (symmetry; apply progress_reaches_one; lia).
      eexists. split; [reflexivity|]. unfold completed. cbn. apply orb_true_r.
    - rewrite progress_below_one by lia.
      destruct (IH (S k) f) as (rest & Hrest & Hdone); [lia|lia|].
      rewrite Hrest. eexists. split; [reflexivity|]. exact Hdone. }
  destruct (Hrest 8%nat 1%nat fuel) as (rest & Hr & Hdone); [lia|lia|].
  rewrite Hr. eexists. split; [reflexivity|]. exact Hdone.
Qed.

End TweenFacts.

(** C3.  Given a handle that stays available and a truthy start time,
    one run of [animatePanel] makes exactly ten calls on the handle:
    nine [resize] calls at the eased positions of progress 1/10 ... 9/10,
    each followed by the scheduling of the next step, and a final call
    that is [collapse()] when [toSize] is zero and [resize(toSize)]
    otherwise; the completion callback, when supplied, is called once,
    right after that final call and as the last effect of the run.  The
    size of the final call is the eased position at progress 10/10.  The
    eased position at progress [p] is [4 p^3] for [p < 1/2] and
    [1 - (-2 p + 2)^3 / 2] otherwise. *)
Theorem animatePanel_ten_updates
    (env : Tween.Env) (animationDuration fromSize toSize : Q)
    (onComplete : bool) (fuel : nat) :
  (forall i, (i < 10)%nat -> Tween.handle env i = true) ->
  JS.truthy (Tween.now env) = true ->
  (10 <= fuel)%nat ->
  exists trace,
    Tween.animatePanel env animationDuration fromSize toSize onComplete fuel = Some trace
    /\ trace
       = flat_map
           (fun k =>
              [ Tween.Resize
                  (fromSize + (toSize - fromSize) * Tween.eased (inject_Z (Z.of_nat k) / 10));
                Tween.Schedule (animationDuration / 10) ])
           (seq 1 9)
         ++ (if JS.is_zero toSize then Tween.Collapse else Tween.Resize toSize)
         :: (if onComplete then [Tween.Complete] else [])
    /\ List.length (Tween.handle_calls trace) = 10%nat
    /\ (toSize == 0 -> nth_error (Tween.handle_calls trace) 9 = Some Tween.Collapse)
    /\ (~ toSize == 0 ->
        nth_error (Tween.handle_calls trace) 9 = Some (Tween.Resize toSize))
    /\ Tween.completions trace = (if onComplete then 1 else 0)%nat
    /\ (onComplete = true -> List.last trace Tween.Collapse = Tween.Complete)
    /\ fromSize + (toSize - fromSize) * Tween.eased (inject_Z (Z.of_nat 10) / 10) == toSize
    /\ (forall p : Q,
          Tween.eased p
          == (if Qlt_le_dec p (1 # 2) then 4 * p ^ 3 else 1 - (-(2) * p + 2) ^ 3 / 2)).
Proof.
  intros Hh Hnow Hfuel.
  eexists. split.
  - unfold Tween.animatePanel. rewrite (Hh 0%nat) by lia. cbn [negb].
    apply (animate_to_the_end env animationDuration fromSize toSize onComplete 9 0 fuel);
      auto; lia.
  - split; [reflexivity|].
    unfold Tween.final_step.
    split; [destruct (JS.is_zero toSize), onComplete; reflexivity|].
    split; [intros Hz; apply is_zero_true in Hz; rewrite Hz; destruct onComplete; reflexivity|].
    split; [intros Hz; apply is_zero_false in Hz; rewrite Hz; destruct onComplete; reflexivity|].
    split; [destruct (JS.is_zero toSize), onComplete; reflexivity|].
    split; [intros ->; destruct (JS.is_zero toSize); reflexivity|].
    split.
    + assert (Hone : Tween.eased (inject_Z (Z.of_nat 10) / 10) == 1) by reflexivity.
      rewrite Hone. ring.
    + intros p. unfold Tween.eased, JS.pow3.
      destruct (Qlt_le_dec p (1 # 2)) as [Hp | Hp].
      * apply ltb_lt in Hp. rewrite Hp. simpl. ring.
      * apply ltb_ge in Hp. rewrite Hp. simpl. field.
Qed.

Lemma animatePanel_ten_updates_witness :
  exists trace,
    Tween.animatePanel (Tween.steady 1) 300 20 0 true 10 = Some trace
    /\ List.length (Tween.handle_calls trace) = 10%nat
    /\ nth_error (Tween.handle_calls trace) 9 = Some Tween.Collapse
    /\ Tween.completions trace = 1%nat.
Proof.
  destruct (animatePanel_ten_updates (Tween.steady 1) 300 20 0 true 10)
    as (trace & Hrun & _ & Hlen & Hcol & _ & Hdone & _ & _).
  - intros i _. reflexivity.
  - reflexivity.
  - lia.
  - exists trace. repeat split; auto. apply Hcol. reflexivity.
Defined.

(** C8.  When the handle is found null as [animate] is entered with the
    counter at [j] (after [j] steps of the run, [j < 10]), [animatePanel]
    returns normally; its effects are those of the [j] eased steps made
    before, so no call is made on the handle afterwards, [collapse()] is
    never called, nothing more is scheduled and the completion callback
    is not invoked.  When the start time is falsy the run makes no call
    at all. *)
Theorem animatePanel_stops_when_handle_lost
    (env : Tween.Env) (animationDuration fromSize toSize : Q)
    (onComplete : bool) (j fuel : nat) :
  (j < 10)%nat ->
  (forall i, (i < j)%nat -> Tween.handle env i = true) ->
  Tween.handle env j = false ->
  (j < fuel)%nat ->
  exists trace,
    Tween.animatePanel env animationDuration fromSize toSize onComplete fuel = Some trace
    /\ trace
       = (if JS.truthy (Tween.now env)
          then flat_map (Tween.eased_step animationDuration fromSize toSize) (seq 1 j)
          else [])
    /\ Tween.completions trace = 0%nat
    /\ Tween.completed trace = false
    /\ ~ In Tween.Collapse trace
    /\ (List.length (Tween.handle_calls trace) <= j)%nat.
Proof.
  intros Hj Hh Hlost Hfuel.
  assert (Hrun :
    Tween.animatePanel env animationDuration fromSize toSize onComplete fuel
    = Some (if JS.truthy (Tween.now env)
            then flat_map (Tween.eased_step animationDuration fromSize toSize) (seq 1 j)
            else [])).
  { unfold Tween.animatePanel.
    destruct j as [|j].
    - rewrite Hlost. cbn [negb]. destruct (JS.truthy (Tween.now env)); reflexivity.
    - rewrite (Hh 0%nat) by lia. cbn [negb].
      destruct (JS.truthy (Tween.now env)) eqn:Hnow.
      + apply (animate_until_lost env animationDuration fromSize toSize onComplete
                 (S j) (S j) 0 fuel); auto.
      + destruct fuel as [|fuel]; [lia|]. cbn [Tween.animate].
        rewrite Hnow. rewrite orb_true_r. reflexivity. }
  eexists. split; [exact Hrun|]. split; [reflexivity|].
  assert (Hshape : forall n k,
    let t := flat_map (Tween.eased_step animationDuration fromSize toSize) (seq k n) in
    Tween.completions t = 0%nat /\ Tween.completed t = false
    /\ ~ In Tween.Collapse t /\ List.length (Tween.handle_calls t) = n).
  { induction n as [|n IH]; intros k; cbn.
    - repeat split; auto.
    - destruct (IH (S k)) as (H1 & H2 & H3 & H4).
      unfold Tween.completions, Tween.handle_calls in *.
      split; [exact H1|]. split; [exact H2|]. split.
      + intros [H|[H|H]]; try discriminate. now apply H3.
      + cbn. now rewrite H4. }
  destruct (JS.truthy (Tween.now env)).
  - destruct (Hshape j 1%nat) as (H1 & H2 & H3 & H4).
    repeat split; auto. rewrite H4. lia.
  - cbn. repeat split; auto. lia.
Qed.

Lemma animatePanel_stops_when_handle_lost_witness :
  exists trace,
    Tween.animatePanel (Tween.lost_at 3 1) 300 20 0 true 10 = Some trace
    /\ Tween.completions trace = 0%nat
    /\ (List.length (Tween.handle_calls trace) <= 3)%nat.
Proof.
  destruct (animatePanel_stops_when_handle_lost (Tween.lost_at 3 1) 300 20 0 true 3 10)
    as (trace & Hrun & _ & Hdone & _ & _ & Hlen).
  - lia.
  - intros i Hi. apply Nat.ltb_lt. exact Hi.
  - reflexivity.
  - lia.
  - exists trace. repeat split; auto.
Defined.

(** ** ThreePanelLayout *)

Section ThreePanelLayoutFacts.

Import ThreePanelLayout.

(** With a handle that stays and enough fuel, a toggle runs to its final
    step and the state is the settled one. *)
Lemma three_panel_run_settles (p : Props) (currentLayout : option (list Q))
    (o : Outcome) (st : State) (t0 : Q) (fuel : nat) :
  JS.truthy t0 = true ->
  (10 <= fuel)%nat ->
  exists trace,
    run fuel (Tween.steady t0) p currentLayout o st
    = Some (settled currentLayout o st, trace).
Proof.
  intros Hnow Hfuel. destruct o as [|flushed cb frame]; cbn [run settled].
  - eexists. reflexivity.
  - destruct (animatePanel_completes (Tween.steady t0) (animationDuration p)
                (fromSize (frame currentLayout)) (toSize (frame currentLayout)) fuel)
      as (trace & Hrun & Hdone); auto.
    rewrite Hrun, Hdone. exists trace. reflexivity.
Qed.

(** The same for the handlers of part_005. *)
Lemma part005_run_settles (p : ConfigurablePanelLayout.Props)
    (currentLayout : option (list Q)) (o : Part005.Outcome)
    (st : ConfigurablePanelLayout.State) (t0 : Q) (fuel : nat) :
  JS.truthy t0 = true ->
  (10 <= fuel)%nat ->
  exists trace,
    Part005.run fuel (Tween.steady t0) p currentLayout o st
    = Some (Part005.settled currentLayout o st, trace).
Proof.
  intros Hnow Hfuel. destruct o as [|flushed cb frame]; cbn [Part005.run Part005.settled].
  - eexists. reflexivity.
  - destruct (animatePanel_completes (Tween.steady t0)
                (ConfigurablePanelLayout.animationDuration p)
                (Part005.fromSize (frame currentLayout))
                (Part005.toSize (frame currentLayout)) fuel)
      as (trace & Hrun & Hdone); auto.
    rewrite Hrun, Hdone. exists trace. reflexivity.
Qed.

End ThreePanelLayoutFacts.



(** ** ConfigurablePanelLayout: resize and drag handlers *)

(** C10.  While any of the three panels is animating, the [onResize]
    callback of a region leaves the whole state as it is.  When none is
    animating it stores the new size of that region; a size above zero is
    also stored as the region's last expanded size and clears its
    collapsed flag, a size that is not above zero leaves both alone; the
    cells of the other regions, the animating flags and the dragging flag
    are not touched. *)
Theorem resize_has_no_effect_while_animating
    (r : Region) (size : Q) (st : ConfigurablePanelLayout.State) :
  let animating :=
    ConfigurablePanelLayout.leftAnimating st
    || ConfigurablePanelLayout.middleAnimating st
    || ConfigurablePanelLayout.rightAnimating st in
  let st' := ConfigurablePanelLayout.handleResize r size st in
  (animating = true -> st' = st)
  /\ (animating = false ->
      ConfigurablePanelLayout.sizeOf r st' = size
      /\ (0 < size ->
          ConfigurablePanelLayout.lastExpandedSizeOf r st' = size
          /\ ConfigurablePanelLayout.collapsedOf r st' = false)
      /\ (size <= 0 ->
          ConfigurablePanelLayout.lastExpandedSizeOf r st'
          = ConfigurablePanelLayout.lastExpandedSizeOf r st
          /\ ConfigurablePanelLayout.collapsedOf r st'
             = ConfigurablePanelLayout.collapsedOf r st)
      /\ (forall o, o <> r ->
          ConfigurablePanelLayout.sizeOf o st' = ConfigurablePanelLayout.sizeOf o st
          /\ ConfigurablePanelLayout.lastExpandedSizeOf o st'
             = ConfigurablePanelLayout.lastExpandedSizeOf o st
          /\ ConfigurablePanelLayout.collapsedOf o st'
             = ConfigurablePanelLayout.collapsedOf o st)
      /\ (forall o, ConfigurablePanelLayout.animatingOf o st'
                    = ConfigurablePanelLayout.animatingOf o st)
      /\ ConfigurablePanelLayout.isDragging st' = ConfigurablePanelLayout.isDragging st).
Proof.
  cbv zeta. split.
  - intros Hanim.
    destruct r; cbn [ConfigurablePanelLayout.handleResize];
      unfold ConfigurablePanelLayout.handleLeftResize,
             ConfigurablePanelLayout.handleMiddleResize,
             ConfigurablePanelLayout.handleRightResize;
      destruct (ConfigurablePanelLayout.leftAnimating st),
               (ConfigurablePanelLayout.middleAnimating st),
               (ConfigurablePanelLayout.rightAnimating st);
      try discriminate Hanim; reflexivity.
  - intros Hanim.
    apply orb_false_iff in Hanim. destruct Hanim as [Hanim Hr].
    apply orb_false_iff in Hanim. destruct Hanim as [Hl Hm].
    destruct r; cbn [ConfigurablePanelLayout.handleResize];
      unfold ConfigurablePanelLayout.handleLeftResize,
             ConfigurablePanelLayout.handleMiddleResize,
             ConfigurablePanelLayout.handleRightResize;
      rewrite Hl, Hm, Hr; cbn [negb andb];
      destruct (JS.gtb size 0) eqn:Hpos;
      (split; [reflexivity|]);
      (split; [intros Hs; apply gtb_gt in Hs;
               first [ split; reflexivity | congruence ] |]);
      (split; [intros Hs; apply gtb_le in Hs;
               first [ split; reflexivity | congruence ] |]);
      (split; [intros o Ho; destruct o; try congruence; repeat split; reflexivity |]);
      (split; [intros o; destruct o; reflexivity | reflexivity]).
Qed.

(** C5, counterexample.  In ThreePanelLayout, which the claim cites, a
    collapsed panel is reported with its current size.  The left panel
    is dragged to 30 and then collapsed; the run reaches its final step;
    when a drag ends afterwards the report names 0 for the left panel:
    neither the 30 it had nor its default of 20. *)
Lemma three_panel_reports_zero_for_collapsed_panel :
  let p := example_props in
  let st0 := ThreePanelLayout.handleLeftResize 30 (ThreePanelLayout.initial p) in
  exists st trace sizes,
    ThreePanelLayout.run 10 (Tween.steady 1) p (Some [30; 50; 20])
      (ThreePanelLayout.handleLeftCollapse p st0) st0 = Some (st, trace)
    /\ Tween.completed trace = true
    /\ ThreePanelLayout.leftCollapsed st = true
    /\ snd (ThreePanelLayout.handleDragging p false st) = Some sizes
    /\ left sizes == 0
    /\ ~ left sizes == 30
    /\ ~ left sizes == 20.
Proof.
  cbv zeta. eexists. eexists. eexists.
  split; [vm_compute; reflexivity|].
  split; [reflexivity|].
  split; [reflexivity|].
  split; [reflexivity|].
  split; [reflexivity|].
  split; intros H; discriminate H.
Qed.


(** ** ConfigurablePanelLayout: the coordinated handlers *)

Section CoordinatedFacts.

Import ConfigurablePanelLayout.

(** [animateMultiplePanels] has no test that stops a run: once it has
    started, it reaches the final step and calls [onComplete]. *)
Lemma animate_multiple_completes (env : Env) (duration : Q) (valid : list Animation) (n : nat) :
  forall k fuel,
    (k + n = 9)%nat ->
    (n < fuel)%nat ->
    exists trace,
      animate env duration valid true fuel k = Some trace
      /\ completed trace = true.
Proof.
  induction n as [|n IH]; intros k fuel Hk Hfuel;
    (destruct fuel as [|fuel]; [lia|]); cbn [animate].
  - assert (k = 9%nat) by lia. subst k.
    replace (JS.geb (Tween.progress_of 10) 1) with true
      by (symmetry; apply progress_reaches_one; lia).
    eexists. split; [reflexivity|].
    unfold completed. rewrite existsb_app. cbn. apply orb_true_r.
  - rewrite progress_below_one by lia.
    destruct (IH (S k) fuel) as (rest & Hrest & Hdone); [lia|lia|].
    rewrite Hrest. eexists. split; [reflexivity|].
    unfold completed in *. rewrite existsb_app. cbn. rewrite Hdone. apply orb_true_r.
Qed.

(** With the left handle present when the frame comes and enough fuel, a
    coordinated toggle runs to its final step and the state is the
    settled one. *)
Lemma coordinated_run_settles (env : Env) (p : Props) (currentLayout : option (list Q))
    (r : Region) (collapse : bool) (st : State) (fuel : nat) :
  env Left 0%nat = true ->
  (10 <= fuel)%nat ->
  let o := if collapse then handleCollapse r p st else handleExpand r p st in
  exists trace, run fuel env p currentLayout o st = Some (settled currentLayout o st, trace).
Proof.
  intros Henv Hfuel o.
  assert (Hgen : forall flushed cb frame,
    (exists a rest, animations (frame currentLayout) = a :: rest /\ panelRef a = Left) ->
    exists trace,
      run fuel env p currentLayout (Started flushed cb frame) st
      = Some (settled currentLayout (Started flushed cb frame) st, trace)).
  { intros flushed cb frame (a & rest & Ha & Hleft).
    cbn [run settled]. unfold animateMultiplePanels. rewrite Ha.
    cbn [filter]. rewrite Hleft, Henv.
    destruct (animate_multiple_completes env (animationDuration p)
                (a :: filter (fun anim => env (panelRef anim) 0%nat) rest) 9 0 fuel)
      as (trace & Hrun & Hdone); [lia|lia|].
    rewrite Hrun, Hdone. eexists. reflexivity. }
  subst o.
  destruct collapse, r; cbn [handleCollapse handleExpand];
    unfold handleLeftCollapse, handleMiddleCollapse, handleRightCollapse,
           handleLeftExpand, handleMiddleExpand, handleRightExpand;
    match goal with
    | |- context [if ?g then Rejected else _] =>
        destruct g; [eexists; reflexivity | apply Hgen; eexists; eexists; split; reflexivity]
    end.
Qed.

End CoordinatedFacts.



(** ** ConfigurablePanelLayout: which toggles are rejected *)






(** ** ConfigurablePanelLayout: collapse, then expand *)




















(** In ThreePanelLayout the expand handlers always go to the default
    size: after the left panel was dragged to 30, collapsing and
    expanding it settles it at 20. *)
Lemma three_panel_expand_goes_to_default :
  let p := example_props in
  let st := ThreePanelLayout.handleLeftResize 30 (ThreePanelLayout.initial p) in
  let st1 := ThreePanelLayout.settled None (ThreePanelLayout.handleLeftCollapse p st) st in
  let st2 := ThreePanelLayout.settled None (ThreePanelLayout.handleLeftExpand p st1) st1 in
  ThreePanelLayout.leftSize st = 30
  /\ ThreePanelLayout.leftSize st1 = 0
  /\ ThreePanelLayout.leftSize st2 = 20.
Proof. cbv zeta. repeat split. Qed.


(** ** TabGroup *)

(** The index is never above the last tab. *)
Lemma safeActiveIndex_upper (activeTabIndex : Z) (panelCount : nat) :
  (TabGroup.safeActiveIndex activeTabIndex panelCount <= Z.of_nat panelCount - 1)%Z.
Proof. unfold TabGroup.safeActiveIndex. lia. Qed.

(** For an index that is not negative and a group that is not empty, the
    index stays within the tabs. *)
Lemma safeActiveIndex_in_range (activeTabIndex : Z) (panelCount : nat) :
  (0 <= activeTabIndex)%Z ->
  (0 < panelCount)%nat ->
  (0 <= TabGroup.safeActiveIndex activeTabIndex panelCount <= Z.of_nat panelCount - 1)%Z.
Proof. unfold TabGroup.safeActiveIndex. lia. Qed.

(** The example of the specification: index 2 with two panels left. *)
Lemma safeActiveIndex_after_shrink : TabGroup.safeActiveIndex 2 2 = 1%Z.
Proof. reflexivity. Qed.

(** C7, the code at the failing input.  With the three panels a, b, c
    and a controlled [activeTabIndex] of -1, the displayed index is -1,
    outside [0, 2]: no tab is drawn as selected and there is no active
    panel.  The same happens in uncontrolled mode with an internal index
    of -1. *)
Theorem negative_tab_index_not_clamped :
  let controlled :=
    {| TabGroup.defaultActiveTab := None; TabGroup.activeTabIndex := Some (-1)%Z |} in
  let uncontrolled :=
    {| TabGroup.defaultActiveTab := Some (-1)%Z; TabGroup.activeTabIndex := None |} in
  List.length (TabGroup.tabPanels ["a"; "b"; "c"]%string abc) = 3%nat
  /\ TabGroup.displayedIndex ["a"; "b"; "c"]%string abc controlled 0 = (-1)%Z
  /\ TabGroup.activePanel ["a"; "b"; "c"]%string abc controlled 0 = None
  /\ TabGroup.displayedIndex ["a"; "b"; "c"]%string abc uncontrolled (-1) = (-1)%Z
  /\ ~ (0 <= TabGroup.displayedIndex ["a"; "b"; "c"]%string abc controlled 0 <= 2)%Z.
Proof.
  cbv zeta. repeat split; try reflexivity. cbv. intros [H _]. apply H. reflexivity.
Qed.

(** ** SnapCarousel *)

(** One panel: the whole container. *)
Lemma one_panel_width (p : SnapCarousel.Props) (containerWidth : Q) :
  SnapCarousel.panelCount p = 1%nat ->
  SnapCarousel.renderedWidth p containerWidth = SnapCarousel.Percent 100
  /\ SnapCarousel.renderedPixels p containerWidth == containerWidth.
Proof.
  intros H. unfold SnapCarousel.renderedPixels, SnapCarousel.renderedWidth,
    SnapCarousel.dynamicStyle, SnapCarousel.panelWidth.
  rewrite H. cbn. split; [reflexivity|]. field.
Qed.

(** Two panels: half the container when it is at least twice the minimum
    width wide, the whole container when it is narrower. *)
Lemma two_panel_width (p : SnapCarousel.Props) (containerWidth : Q) :
  SnapCarousel.panelCount p = 2%nat ->
  (SnapCarousel.minPanelWidth p * 2 <= containerWidth ->
   SnapCarousel.renderedWidth p containerWidth = SnapCarousel.Percent 50)
  /\ (containerWidth < SnapCarousel.minPanelWidth p * 2 ->
      SnapCarousel.renderedWidth p containerWidth = SnapCarousel.Percent 100).
Proof.
  intros H. unfold SnapCarousel.renderedWidth, SnapCarousel.dynamicStyle,
    SnapCarousel.min_width_holds, SnapCarousel.twoPanelThreshold.
  rewrite H. cbn [Nat.eqb SnapCarousel.query_min_width SnapCarousel.query_width
                  SnapCarousel.plain_width].
  split; intros Hw.
  - apply Qle_bool_iff in Hw. now rewrite Hw.
  - destruct (Qle_bool (SnapCarousel.minPanelWidth p * 2) containerWidth) eqn:E;
      [|reflexivity].
    apply Qle_bool_iff in E. exfalso. exact (Qlt_not_le _ _ Hw E).
Qed.

(** Three panels or more: the larger of the minimum width and the ideal
    fraction of the container. *)
Lemma many_panel_width (p : SnapCarousel.Props) (containerWidth : Q) :
  (3 <= SnapCarousel.panelCount p)%nat ->
  SnapCarousel.renderedWidth p containerWidth
  = SnapCarousel.MaxPxPercent (SnapCarousel.minPanelWidth p)
      (SnapCarousel.idealPanelWidth p * 100)
  /\ SnapCarousel.renderedPixels p containerWidth
     == Qmax (SnapCarousel.minPanelWidth p)
          (SnapCarousel.idealPanelWidth p * containerWidth).
Proof.
  intros H. unfold SnapCarousel.renderedPixels, SnapCarousel.renderedWidth,
    SnapCarousel.dynamicStyle, SnapCarousel.panelWidth.
  destruct (SnapCarousel.panelCount p) as [|[|[|n]]]; try lia.
  cbn. split; [reflexivity|].
  apply Q.max_compat; [reflexivity | field].
Qed.

(** C9, the code at the failing input.  With two panels, the default
    minimum width of 350 pixels and a container exactly 700 pixels wide,
    the container does not exceed twice the minimum width, yet the query
    [(min-width: 700px)] holds and each panel is 50% of the container,
    350 pixels, not 100%. *)
Theorem two_panels_at_threshold_are_half_width :
  ~ SnapCarousel.twoPanelThreshold two_default_panels < 700
  /\ SnapCarousel.renderedWidth two_default_panels 700 = SnapCarousel.Percent 50
  /\ SnapCarousel.renderedPixels two_default_panels 700 == 350
  /\ SnapCarousel.renderedWidth two_default_panels 700 <> SnapCarousel.Percent 100.
Proof.
  split; [intros H; discriminate H|].
  split; [reflexivity|]. split; [reflexivity|]. intros H; discriminate H.
Qed.

(** ** PanelConfigurator *)

Section ConfiguratorFacts.

Import PanelConfigurator.

Lemma region_eqb_eq (a b : Region) : region_eqb a b = true <-> a = b.
Proof. destruct a, b; cbn; split; congruence. Qed.

Lemma region_eqb_neq (a b : Region) : region_eqb a b = false <-> a <> b.
Proof. destruct a, b; cbn; split; congruence. Qed.

Lemma NoDup_app_parts {A : Type} (l1 l2 : list A) :
  NoDup (l1 ++ l2) <-> NoDup l1 /\ NoDup l2 /\ (forall a, In a l1 -> In a l2 -> False).
Proof.
  split.
  - induction l1 as [|x l1 IH]; cbn; intros H.
    + repeat split; [constructor | exact H | intros a []].
    + inversion H as [|? ? Hx Hrest]; subst.
      destruct (IH Hrest) as (H1 & H2 & H3).
      repeat split; auto.
      * constructor; auto. intros Hin. apply Hx. apply in_or_app. now left.
      * intros a [<- | Ha] Hin; [apply Hx; apply in_or_app; now right | eauto].
  - intros (H1 & H2 & H3).
    apply NoDup_app; [assumption | assumption | intros a Ha Hb; exact (H3 a Ha Hb)].
Qed.

(** Uniqueness, position by position. *)
Lemma unique_iff (l : PanelLayout) :
  unique l
  <-> (forall pos, NoDup (ids_at l pos))
      /\ (forall pos pos' x, pos <> pos' -> In x (ids_at l pos) -> In x (ids_at l pos') -> False).
Proof.
  unfold unique, allPanelIds, ids_at. rewrite !NoDup_app_parts. split.
  - intros (HA & (HB & HC & HBC) & HABC). split.
    + intros pos; destruct pos; assumption.
    + intros pos pos' x Hne H1 H2.
      destruct pos, pos'; cbn [get] in *; try congruence;
        first [ exact (HBC x H1 H2) | exact (HBC x H2 H1)
              | apply (HABC x H1); apply in_or_app; auto
              | apply (HABC x H2); apply in_or_app; auto ].
  - intros (Hnd & Hdis).
    split; [exact (Hnd Left)|]. split; [split; [exact (Hnd Middle)|split; [exact (Hnd Right)|]]|].
    + intros a H1 H2. apply (Hdis Middle Right a); auto. discriminate.
    + intros a H1 H2. apply in_app_or in H2. destruct H2 as [H2|H2].
      * apply (Hdis Left Middle a); auto. discriminate.
      * apply (Hdis Left Right a); auto. discriminate.
Qed.

Lemma get_set (pos pos' : Region) (v : PanelSlot) (l : PanelLayout) :
  get (set pos v l) pos' = if region_eqb pos pos' then Some v else get l pos'.
Proof. destruct pos, pos'; reflexivity. Qed.

Lemma includes_In (ids : list string) (i : string) : includes ids i = true <-> In i ids.
Proof.
  unfold includes. rewrite existsb_exists. split.
  - intros (x & Hx & E). apply String.eqb_eq in E. now subst.
  - intros H. exists i. split; [exact H | apply String.eqb_refl].
Qed.

Lemma In_without (panelId x : string) (ids : list string) :
  In x (without panelId ids) <-> In x ids /\ x <> panelId.
Proof.
  unfold without. rewrite filter_In. rewrite negb_true_iff, String.eqb_neq. tauto.
Qed.

Lemma isTabs_Some (slot : option PanelSlot) (g : PanelGroup) :
  isTabs slot = Some g -> slot = Some (Group g) /\ type g = tabs.
Proof.
  unfold isTabs, isGroup. destruct slot as [[s| |g0]|]; try discriminate.
  destruct (type g0) eqn:E; try discriminate. intros H. injection H as <-. auto.
Qed.

(** Writing a slot keeps the layout unique when the ids written have no
    repeats and none of them is held at another position. *)
Lemma unique_set (l : PanelLayout) (pos : Region) (v : PanelSlot) :
  unique l ->
  NoDup (getPanelIdsFromSlot (Some v)) ->
  (forall x pos', pos' <> pos -> In x (getPanelIdsFromSlot (Some v)) ->
                  In x (ids_at l pos') -> False) ->
  unique (set pos v l).
Proof.
  rewrite !unique_iff. intros (Hnd & Hdis) Hv Hfresh. unfold ids_at in *. split.
  - intros q. rewrite get_set. destruct (region_eqb pos q); auto.
  - intros q q' x Hne. rewrite !get_set.
    destruct (region_eqb pos q) eqn:E1, (region_eqb pos q') eqn:E2;
      rewrite ?region_eqb_eq, ?region_eqb_neq in *; subst; intros H1 H2.
    + congruence.
    + apply (Hfresh x q'); auto.
    + apply (Hfresh x q); auto.
    + apply (Hdis q q' x); auto.
Qed.

(** Writing a slot whose ids are among those the position already held. *)
Lemma unique_shrink (l : PanelLayout) (pos : Region) (v : PanelSlot) :
  unique l ->
  NoDup (getPanelIdsFromSlot (Some v)) ->
  incl (getPanelIdsFromSlot (Some v)) (ids_at l pos) ->
  unique (set pos v l).
Proof.
  intros Hu Hv Hincl. apply unique_set; auto.
  intros x pos' Hne Hx Hin. apply unique_iff in Hu. destruct Hu as (_ & Hdis).
  apply (Hdis pos pos' x); auto.
Qed.

Lemma ids_at_removePanelAt (panelId : string) (q pos : Region) (l : PanelLayout) :
  ids_at (removePanelAt panelId q l) pos
  = if region_eqb q pos then without panelId (ids_at l pos) else ids_at l pos.
Proof.
  unfold removePanelAt, ids_at.
  destruct (get l q) as [[s| |g]|] eqn:E.
  - destruct (String.eqb s panelId) eqn:Es.
    + rewrite get_set. destruct (region_eqb q pos) eqn:Eq; [|reflexivity].
      apply region_eqb_eq in Eq. subst. rewrite E. cbn. now rewrite Es.
    + destruct (region_eqb q pos) eqn:Eq; [|reflexivity].
      apply region_eqb_eq in Eq. subst. rewrite E. cbn. now rewrite Es.
  - destruct (region_eqb q pos) eqn:Eq; [|reflexivity].
    apply region_eqb_eq in Eq. subst. rewrite E. reflexivity.
  - destruct (without panelId (panels g)) as [|a [|b t]] eqn:F;
      rewrite get_set; (destruct (region_eqb q pos) eqn:Eq; [|reflexivity]);
      apply region_eqb_eq in Eq; subst; rewrite E;
      cbn [getPanelIdsFromSlot panels with_panels]; now rewrite F.
  - destruct (region_eqb q pos) eqn:Eq; [|reflexivity].
    apply region_eqb_eq in Eq. subst. rewrite E. reflexivity.
Qed.

(** [removePanelFromLayout] takes the id out of every position and
    leaves the other ids where they are. *)
Lemma ids_at_removePanelFromLayout (panelId : string) (pos : Region) (l : PanelLayout) :
  ids_at (removePanelFromLayout l panelId) pos = without panelId (ids_at l pos).
Proof.
  unfold removePanelFromLayout. cbn [fold_left].
  rewrite !ids_at_removePanelAt. destruct pos; reflexivity.
Qed.

Lemma removePanelFromLayout_unique (panelId : string) (l : PanelLayout) :
  unique l -> unique (removePanelFromLayout l panelId).
Proof.
  rewrite !unique_iff. intros (Hnd & Hdis). split.
  - intros pos. rewrite ids_at_removePanelFromLayout. apply NoDup_filter. apply Hnd.
  - intros pos pos' x Hne. rewrite !ids_at_removePanelFromLayout, !In_without.
    intros (H1 & _) (H2 & _). exact (Hdis pos pos' x Hne H1 H2).
Qed.

Lemma removePanelFromLayout_gone (panelId : string) (pos : Region) (l : PanelLayout) :
  ~ In panelId (ids_at (removePanelFromLayout l panelId) pos).
Proof.
  rewrite ids_at_removePanelFromLayout, In_without. intros (_ & H). now apply H.
Qed.

(** The assignment of a panel to a slot keeps the layout unique. *)
Lemma assign_unique (l : PanelLayout) (sel : Selection) (pos : Region) (panelId : string) :
  unique l ->
  forall l', changed (assign l sel pos panelId) = Some l' -> unique l'.
Proof.
  intros Hu l'. unfold assign, togglePanelInTabGroup.
  pose proof Hu as Hu'. apply unique_iff in Hu'. destruct Hu' as (Hnd & Hdis).
  destruct (isTabs (get l pos)) as [g|] eqn:Etabs.
  - apply isTabs_Some in Etabs. destruct Etabs as (Eget & _).
    assert (Hids : ids_at l pos = panels g) by (unfold ids_at; now rewrite Eget).
    destruct (includes (panels g) panelId) eqn:Einc.
    + cbn [changed]. intros H. injection H as <-. apply unique_shrink; auto; cbn [getPanelIdsFromSlot panels with_panels].
      * apply NoDup_filter. rewrite <- Hids. apply Hnd.
      * rewrite Hids. intros x Hx. apply In_without in Hx. tauto.
    + cbn [changed]. intros H. injection H as <-.
      apply unique_set; [now apply removePanelFromLayout_unique | |];
      cbn [getPanelIdsFromSlot panels with_panels].
      * apply NoDup_app_parts. split; [rewrite <- Hids; apply Hnd|].
        split; [constructor; [intros []|constructor]|].
        intros a Ha [<-|[]]. apply includes_In in Ha. congruence.
      * intros x pos' Hne Hx. rewrite ids_at_removePanelFromLayout, In_without.
        intros (Hin & Hneq). apply in_app_or in Hx. destruct Hx as [Hx|[<-|[]]].
        -- apply (Hdis pos pos' x); auto. now rewrite Hids.
        -- now apply Hneq.
  - cbn [changed]. intros H. injection H as <-.
    apply unique_set; [now apply removePanelFromLayout_unique | |];
      cbn [getPanelIdsFromSlot panels with_panels].
    + constructor; [intros []|constructor].
    + intros x pos' _ [<-|[]] Hin. exact (removePanelFromLayout_gone _ _ _ Hin).
Qed.

End ConfiguratorFacts.

Section ConfiguratorTheorem.

Import PanelConfigurator.

(** Exchanging the contents of two positions keeps the layout unique. *)
Lemma swap_unique (l : PanelLayout) (selected position : Region) :
  unique l ->
  unique (set_raw position (get l selected) (set_raw selected (get l position) l)).
Proof.
  rewrite !unique_iff. intros (Hnd & Hdis). unfold ids_at in *. split.
  - intros q. destruct selected, position, q; cbn;
      first [exact (Hnd Left) | exact (Hnd Middle) | exact (Hnd Right)].
  - intros q q' x Hne H1 H2.
    destruct selected, position, q, q'; cbn in H1, H2; try congruence;
      first [ exact (Hdis Left Middle x ltac:(discriminate) H1 H2)
            | exact (Hdis Left Right x ltac:(discriminate) H1 H2)
            | exact (Hdis Middle Left x ltac:(discriminate) H1 H2)
            | exact (Hdis Middle Right x ltac:(discriminate) H1 H2)
            | exact (Hdis Right Left x ltac:(discriminate) H1 H2)
            | exact (Hdis Right Middle x ltac:(discriminate) H1 H2) ].
Qed.

(** Every operation of the configurator keeps the layout unique. *)
Lemma perform_unique (op : Operation) (l : PanelLayout) (sel : Selection) :
  unique l -> unique (layout_after op l sel).
Proof.
  intros Hu. unfold layout_after.
  destruct (changed (perform op l sel)) as [l'|] eqn:E; [|exact Hu].
  pose proof Hu as Hu'. apply unique_iff in Hu'. destruct Hu' as (Hnd & Hdis).
  destruct op; cbn [perform] in E.
  - unfold handleSlotClick in E. destruct sel as [[selected|i]|].
    + destruct (match selected, position with
                | Left, Left | Middle, Middle | Right, Right => true
                | _, _ => false
                end); cbn [changed] in E; [discriminate E|].
      injection E as <-. now apply swap_unique.
    + now apply (assign_unique l (Some (PanelSelected i)) position i).
    + discriminate E.
  - unfold handlePanelClick in E. destruct sel as [[position|i]|].
    + now apply (assign_unique l (Some (SlotSelected position)) position panelId).
    + discriminate E.
    + discriminate E.
  - unfold toggleTabMode in E.
    destruct (isTabs (get l position)) as [g|] eqn:Etabs; cbn [changed] in E;
      injection E as <-.
    + apply isTabs_Some in Etabs. destruct Etabs as (Eget & _).
      assert (Hids : ids_at l position = panels g) by (unfold ids_at; now rewrite Eget).
      apply unique_shrink; auto; rewrite ?Hids; destruct (panels g) as [|first rest]; cbn.
      * constructor.
      * constructor; [intros []|constructor].
      * intros x [].
      * intros x [<-|[]]. now left.
    + apply unique_shrink; auto; unfold ids_at;
        destruct (get l position) as [[s| |g]|];
        try destruct (String.eqb s EmptyString);
        cbn [getPanelIdsFromSlot panels];
        first [ intros x Hx; first [exact Hx | contradiction Hx]
              | constructor; [intros Hx; contradiction Hx|constructor]
              | constructor ].
  - unfold handleSlotClear in E. cbn [changed] in E. injection E as <-.
    apply unique_shrink; auto; cbn; [constructor | intros x []].
  - unfold removePanelFromTabGroup in E.
    destruct (isTabs (get l position)) as [g|] eqn:Etabs; cbn [changed] in E;
      [|discriminate E]. injection E as <-.
    apply isTabs_Some in Etabs. destruct Etabs as (Eget & _).
    assert (Hids : ids_at l position = panels g) by (unfold ids_at; now rewrite Eget).
    apply unique_shrink; auto; cbn [getPanelIdsFromSlot panels with_panels].
    + apply NoDup_filter. rewrite <- Hids. apply Hnd.
    + rewrite Hids. intros x Hx. apply In_without in Hx. tauto.
  - unfold updateTabConfig in E.
    destruct (isTabs (get l position)) as [g|] eqn:Etabs; cbn [changed] in E;
      [|discriminate E]. injection E as <-.
    apply isTabs_Some in Etabs. destruct Etabs as (Eget & _).
    assert (Hids : ids_at l position = panels g) by (unfold ids_at; now rewrite Eget).
    apply unique_shrink; auto; cbn [getPanelIdsFromSlot panels].
    + rewrite <- Hids. apply Hnd.
    + rewrite Hids. intros x Hx. exact Hx.
Qed.

(** A panel held at one position and assigned to another is held at the
    new position only. *)
Lemma assign_moves (l : PanelLayout) (sel : Selection) (posA posB : Region) (panelId : string) :
  unique l ->
  In panelId (ids_at l posA) ->
  posA <> posB ->
  exists l',
    changed (assign l sel posB panelId) = Some l'
    /\ ~ In panelId (ids_at l' posA)
    /\ In panelId (ids_at l' posB).
Proof.
  intros Hu HA Hne. apply unique_iff in Hu. destruct Hu as (Hnd & Hdis).
  unfold assign.
  destruct (isTabs (get l posB)) as [g|] eqn:Etabs.
  - apply isTabs_Some in Etabs. destruct Etabs as (Eget & _).
    assert (Hids : ids_at l posB = panels g) by (unfold ids_at; now rewrite Eget).
    destruct (includes (panels g) panelId) eqn:Einc.
    + exfalso. apply includes_In in Einc. rewrite <- Hids in Einc.
      exact (Hdis posA posB panelId Hne HA Einc).
    + eexists. split; [reflexivity|]. unfold ids_at. rewrite !get_set.
      replace (region_eqb posB posA) with false
        by (symmetry; apply region_eqb_neq; congruence).
      replace (region_eqb posB posB) with true by (symmetry; now apply region_eqb_eq).
      split; [apply removePanelFromLayout_gone|].
      cbn. apply in_or_app. right. now left.
  - eexists. split; [reflexivity|]. unfold ids_at. rewrite !get_set.
    replace (region_eqb posB posA) with false
      by (symmetry; apply region_eqb_neq; congruence).
    replace (region_eqb posB posB) with true by (symmetry; now apply region_eqb_eq).
    split; [apply removePanelFromLayout_gone|]. now left.
Qed.

End ConfiguratorTheorem.

(** C6.  From a layout in which every panel id is held at most once,
    every operation of the configurator (a click on a slot, which selects
    it, swaps two slots or assigns the selected panel; a click on a
    panel; the tab-mode toggle; the clearing of a slot; the removal of a
    panel from a tab group; a change of the tab configuration) gives a
    layout in which every panel id is held at most once.  A panel held
    at one position and assigned to another, by either order of clicks,
    is afterwards held at the new position and no longer at the old one. *)
Theorem configurator_keeps_panels_unique (l : PanelConfigurator.PanelLayout) :
  PanelConfigurator.unique l ->
  (forall op sel, PanelConfigurator.unique (PanelConfigurator.layout_after op l sel))
  /\ (forall posA posB panelId,
        In panelId (ids_at l posA) ->
        posA <> posB ->
        forall l',
          l' = PanelConfigurator.layout_after (PanelConfigurator.SlotClick posB) l
                 (Some (PanelConfigurator.PanelSelected panelId))
          \/ l' = PanelConfigurator.layout_after (PanelConfigurator.PanelClick panelId) l
                    (Some (PanelConfigurator.SlotSelected posB)) ->
          ~ In panelId (ids_at l' posA) /\ In panelId (ids_at l' posB)).
Proof.
  intros Hu. split.
  - intros op sel. now apply perform_unique.
  - intros posA posB panelId HA Hne l' Hl'.
    destruct Hl' as [-> | ->]; unfold PanelConfigurator.layout_after;
      cbn [PanelConfigurator.perform PanelConfigurator.handleSlotClick
           PanelConfigurator.handlePanelClick].
    + destruct (assign_moves l (Some (PanelConfigurator.PanelSelected panelId))
                  posA posB panelId Hu HA Hne) as (l' & -> & H).
      exact H.
    + destruct (assign_moves l (Some (PanelConfigurator.SlotSelected posB))
                  posA posB panelId Hu HA Hne) as (l' & -> & H).
      exact H.
Qed.

(** Panel a, held on the left, is assigned to the tab group in the
    middle: the group becomes (b, c, a) and the left slot is empty. *)
Lemma configurator_keeps_panels_unique_example :
  let l' :=
    PanelConfigurator.layout_after (PanelConfigurator.SlotClick Middle) sample_layout
      (Some (PanelConfigurator.PanelSelected "a")) in
  PanelConfigurator.unique l'
  /\ ids_at l' Left = []
  /\ ids_at l' Middle = ["b"; "c"; "a"]%string.
Proof.
  cbv zeta.
  assert (Hu : PanelConfigurator.unique sample_layout).
  { unfold PanelConfigurator.unique. cbn.
    repeat constructor; cbn; intuition discriminate. }
  destruct (configurator_keeps_panels_unique sample_layout Hu) as (Hall & _).
  split; [apply Hall|]. split; reflexivity.
Defined.

(* ================================================================= *)
(** * Part III: further properties of the code *)
(* ================================================================= *)

(** ** The easing curve and the stepped tween *)


Lemma cube_monotone (a b : Q) : a <= b -> a * a * a <= b * b * b.
Proof.
  intros H.
  assert (H1 : 0 <= (b - a) * ((a + b) * (a + b) + a * a + b * b)).
  { apply Qmult_le_0_compat; [lra|]. nra. }
  nra.
Qed.

Lemma half_of (x : Q) : x / 2 == x * (1 # 2).
Proof. field. Qed.

Lemma four_cubes (p : Q) : 4 * p * p * p == 4 * (p * p * p).
Proof. ring. Qed.

Lemma eased_low (p : Q) : p < 1 # 2 -> Tween.eased p = 4 * p * p * p.
Proof.
  intros H. unfold Tween.eased. apply ltb_lt in H. rewrite H. reflexivity.
Qed.

Lemma eased_high (p : Q) :
  1 # 2 <= p -> Tween.eased p = 1 - JS.pow3 (-(2) * p + 2) / 2.
Proof.
  intros H. unfold Tween.eased. apply ltb_ge in H. rewrite H. reflexivity.
Qed.

Lemma eased_monotone (p q : Q) : p <= q -> Tween.eased p <= Tween.eased q.
Proof.
  intros H.
  destruct (Qlt_le_dec p (1 # 2)) as [Hp|Hp]; destruct (Qlt_le_dec q (1 # 2)) as [Hq|Hq].
  - rewrite (eased_low p Hp), (eased_low q Hq).
    pose proof (cube_monotone p q H). rewrite !four_cubes. lra.
  - rewrite (eased_low p Hp), (eased_high q Hq). unfold JS.pow3.
    pose proof (cube_monotone p (1 # 2) (Qlt_le_weak _ _ Hp)) as H1.
    assert (H2 : (- (2) * q + 2) * (- (2) * q + 2) * (- (2) * q + 2) <= 1 * 1 * 1).
    { apply cube_monotone. lra. }
    rewrite four_cubes, half_of. lra.
  - exfalso. lra.
  - rewrite (eased_high p Hp), (eased_high q Hq). unfold JS.pow3.
    assert (H2 : (- (2) * q + 2) * (- (2) * q + 2) * (- (2) * q + 2)
                 <= (- (2) * p + 2) * (- (2) * p + 2) * (- (2) * p + 2)).
    { apply cube_monotone. lra. }
    rewrite !half_of. lra.
Qed.

Lemma eased_zero : Tween.eased 0 == 0.
Proof. reflexivity. Qed.

Lemma eased_one (p : Q) : p == 1 -> Tween.eased p == 1.
Proof.
  intros H. rewrite eased_high by lra. unfold JS.pow3. rewrite H. reflexivity.
Qed.

Lemma eased_bounds (p : Q) : 0 <= p -> p <= 1 -> 0 <= Tween.eased p <= 1.
Proof.
  intros H0 H1. split.
  - pose proof (eased_monotone 0 p H0) as H. rewrite eased_zero in H. exact H.
  - pose proof (eased_monotone p 1 H1) as H. rewrite (eased_one 1) in H by reflexivity. exact H.
Qed.

Lemma eased_symmetric (p : Q) : Tween.eased (1 - p) == 1 - Tween.eased p.
Proof.
  destruct (Qlt_le_dec p (1 # 2)) as [Hp|Hp].
  - rewrite (eased_low p Hp), (eased_high (1 - p)) by lra. unfold JS.pow3. field.
  - destruct (Qlt_le_dec (1 - p) (1 # 2)) as [Hq|Hq].
    + rewrite (eased_high p Hp), (eased_low (1 - p) Hq). unfold JS.pow3. field.
    + assert (Hhalf : p == 1 # 2) by lra.
      rewrite (eased_high p Hp), (eased_high (1 - p) Hq). unfold JS.pow3.
      rewrite Hhalf. reflexivity.
Qed.

(** X1.  The easing curve of the tweens starts at 0, passes through one
    half at one half and ends at 1; it never decreases, so it stays
    between 0 and 1 on the unit interval; it is symmetric about the
    middle, [eased (1 - p) = 1 - eased p], so a collapse retraces an
    expand; and before time zero it is negative. *)
Theorem easing_curve_shape :
  Tween.eased 0 == 0
  /\ Tween.eased (1 # 2) == 1 # 2
  /\ Tween.eased 1 == 1
  /\ (forall p q, p <= q -> Tween.eased p <= Tween.eased q)
  /\ (forall p, 0 <= p -> p <= 1 -> 0 <= Tween.eased p <= 1)
  /\ (forall p, Tween.eased (1 - p) == 1 - Tween.eased p)
  /\ (forall p, p < 0 -> Tween.eased p < 0).
Proof.
  split; [reflexivity|]. split; [reflexivity|]. split; [reflexivity|].
  split; [exact eased_monotone|]. split; [exact eased_bounds|].
  split; [exact eased_symmetric|].
  intros p Hp. rewrite eased_low by lra. rewrite four_cubes.
  assert (H : 0 < (- p) * (- p) * (- p)).
  { repeat apply Qmult_lt_0_compat; lra. }
  nra.
Qed.

Lemma tweened_between (a b e : Q) : 0 <= e -> e <= 1 -> between a b (tweened a b e).
Proof.
  intros H0 H1. unfold between, tweened.
  destruct (Qlt_le_dec a b) as [Hab|Hab].
  - rewrite (Q.min_l a b), (Q.max_r a b) by lra. split; nra.
  - rewrite (Q.min_r a b), (Q.max_l a b) by lra. split; nra.
Qed.

Lemma tweened_up (a b e e' : Q) : a <= b -> e <= e' -> tweened a b e <= tweened a b e'.
Proof. intros Hab He. unfold tweened. nra. Qed.

Lemma tweened_down (a b e e' : Q) : b <= a -> e <= e' -> tweened a b e' <= tweened a b e.
Proof. intros Hab He. unfold tweened. nra. Qed.

Lemma between_end (a b : Q) : between a b b.
Proof.
  unfold between. split; [apply Q.le_min_r | apply Q.le_max_r].
Qed.

Lemma sorted_map {A B : Type} (R : A -> A -> Prop) (S : B -> B -> Prop) (f : A -> B) (l : list A) :
  (forall x y, R x y -> S (f x) (f y)) -> StronglySorted R l -> StronglySorted S (map f l).
Proof.
  intros Hf H. induction H as [|x l Hl IH Hx]; cbn; constructor; auto.
  rewrite Forall_map. eapply Forall_impl; [|exact Hx]. intros y Hy. apply Hf, Hy.
Qed.

Lemma sorted_snoc {A : Type} (R : A -> A -> Prop) (l : list A) (x : A) :
  StronglySorted R l -> Forall (fun y => R y x) l -> StronglySorted R (l ++ [x]).
Proof.
  intros H. induction H as [|y l Hl IH Hy]; intros Hx; cbn.
  - repeat constructor.
  - inversion Hx; subst. constructor; [auto|].
    apply Forall_app. split; [exact Hy|]. repeat constructor. assumption.
Qed.

Lemma tenths_sorted : StronglySorted Qle tenths.
Proof.
  unfold tenths. cbn [seq map].
  repeat (constructor; [|repeat (constructor; [unfold Qle; cbn; lia|]); constructor]).
  constructor.
Qed.

Lemma tenths_in_range : Forall (fun p => 0 <= p /\ p <= 1) tenths.
Proof.
  unfold tenths. cbn [seq map]. repeat (constructor; [split; unfold Qle; cbn; lia|]). constructor.
Qed.

Lemma resized_app (t u : list Tween.Effect) : resized (t ++ u) = resized t ++ resized u.
Proof. unfold resized. apply flat_map_app. Qed.

Lemma resized_eased_steps (d a b : Q) (ks : list nat) :
  resized (flat_map (Tween.eased_step d a b) ks)
  = map (fun p => tweened a b (Tween.eased p)) (map Tween.progress_of ks).
Proof.
  induction ks as [|k ks IH]; [reflexivity|].
  cbn [flat_map map]. rewrite resized_app, IH. reflexivity.
Qed.

(** X2.  A run of [animatePanel] that reaches its final step never
    overshoots: every size it hands to [resize] lies between [fromSize]
    and [toSize], and the sizes move one way only, up when
    [fromSize <= toSize] and down when [toSize <= fromSize]. *)
Theorem animatePanel_moves_steadily
    (env : Tween.Env) (animationDuration fromSize toSize : Q)
    (onComplete : bool) (fuel : nat) :
  (forall i, (i < 10)%nat -> Tween.handle env i = true) ->
  JS.truthy (Tween.now env) = true ->
  (10 <= fuel)%nat ->
  exists trace,
    Tween.animatePanel env animationDuration fromSize toSize onComplete fuel = Some trace
    /\ Forall (between fromSize toSize) (resized trace)
    /\ (fromSize <= toSize -> increasing (resized trace))
    /\ (toSize <= fromSize -> decreasing (resized trace)).
Proof.
  intros Hh Hnow Hfuel. unfold Tween.animatePanel.
  rewrite (Hh 0%nat) by lia. cbn [negb].
  rewrite (animate_to_the_end env animationDuration fromSize toSize onComplete 9 0 fuel)
    by (auto; lia).
  eexists. split; [reflexivity|].
  rewrite resized_app, resized_eased_steps. fold tenths.
  set (f := fun p => tweened fromSize toSize (Tween.eased p)).
  assert (Hbetween : Forall (between fromSize toSize) (map f tenths)).
  { rewrite Forall_map. eapply Forall_impl; [|exact tenths_in_range].
    intros p [H0 H1]. apply tweened_between; apply eased_bounds; assumption. }
  assert (Hlast : forall s, In s (resized (Tween.final_step toSize onComplete)) -> s = toSize).
  { intros s. unfold Tween.final_step.
    destruct (JS.is_zero toSize), onComplete; cbn; intuition. }
  assert (Hshape : resized (Tween.final_step toSize onComplete) = []
                   \/ resized (Tween.final_step toSize onComplete) = [toSize]).
  { unfold Tween.final_step. destruct (JS.is_zero toSize), onComplete; cbn; auto. }
  split; [|split].
  - apply Forall_app. split; [exact Hbetween|].
    apply Forall_forall. intros s Hs. rewrite (Hlast s Hs). apply between_end.
  - intros Hle.
    assert (Hs : StronglySorted Qle (map f tenths)).
    { apply (sorted_map Qle Qle f); [|exact tenths_sorted].
      intros x y Hxy. apply tweened_up; [exact Hle|]. apply eased_monotone, Hxy. }
    destruct Hshape as [-> | ->]; [rewrite app_nil_r; exact Hs|].
    apply sorted_snoc; [exact Hs|].
    eapply Forall_impl; [|exact Hbetween]. intros s [_ H]. rewrite Q.max_r in H; assumption.
  - intros Hle.
    assert (Hs : decreasing (map f tenths)).
    { apply (sorted_map Qle (fun x y => y <= x) f); [|exact tenths_sorted].
      intros x y Hxy. apply tweened_down; [exact Hle|]. apply eased_monotone, Hxy. }
    destruct Hshape as [-> | ->]; [rewrite app_nil_r; exact Hs|].
    apply sorted_snoc; [exact Hs|].
    eapply Forall_impl; [|exact Hbetween]. intros s [H _].
    rewrite Q.min_r in H; assumption.
Qed.

Lemma animatePanel_moves_steadily_example :
  exists trace,
    Tween.animatePanel (Tween.steady 1) 300 20 0 true 10 = Some trace
    /\ Forall (between 20 0) (resized trace)
    /\ decreasing (resized trace).
Proof.
  destruct (animatePanel_moves_steadily (Tween.steady 1) 300 20 0 true 10)
    as (trace & Hrun & Hbetween & _ & Hdown).
  - intros i _. reflexivity.
  - reflexivity.
  - lia.
  - exists trace. split; [exact Hrun|]. split; [exact Hbetween|].
    apply Hdown. unfold Qle. cbn. lia.
Defined.

(** ** ThreePanelLayout: sizes, resize callbacks and reports *)

(** X3.  ThreePanelLayout does not remember the size of a panel it
    collapses: an accepted collapse of the left (right) panel followed by
    an expand that runs to its end leaves the panel at
    [defaultSizes.left] ([defaultSizes.right]), whatever its size was
    before, and leaves the size and the collapsed flag of the other
    outer panel as they were. *)
Theorem three_panel_expand_forgets_the_size
    (p : ThreePanelLayout.Props) (st : ThreePanelLayout.State) (l1 l2 : option (list Q)) :
  ThreePanelLayout.isDragging st = false ->
  (ThreePanelLayout.leftAnimating st = false ->
   ThreePanelLayout.collapsiblePanels_left p = true ->
   let o1 := ThreePanelLayout.handleLeftCollapse p st in
   let st1 := ThreePanelLayout.settled l1 o1 st in
   let o2 := ThreePanelLayout.handleLeftExpand p st1 in
   let st2 := ThreePanelLayout.settled l2 o2 st1 in
   o1 <> ThreePanelLayout.Rejected
   /\ o2 <> ThreePanelLayout.Rejected
   /\ ThreePanelLayout.leftCollapsed st1 = true
   /\ ThreePanelLayout.leftSize st1 = 0
   /\ ThreePanelLayout.leftCollapsed st2 = false
   /\ ThreePanelLayout.leftSize st2 = ThreePanelLayout.defaultSizes_left p
   /\ ThreePanelLayout.rightSize st2 = ThreePanelLayout.rightSize st
   /\ ThreePanelLayout.rightCollapsed st2 = ThreePanelLayout.rightCollapsed st)
  /\ (ThreePanelLayout.rightAnimating st = false ->
      ThreePanelLayout.collapsiblePanels_right p = true ->
      let o1 := ThreePanelLayout.handleRightCollapse p st in
      let st1 := ThreePanelLayout.settled l1 o1 st in
      let o2 := ThreePanelLayout.handleRightExpand p st1 in
      let st2 := ThreePanelLayout.settled l2 o2 st1 in
      o1 <> ThreePanelLayout.Rejected
      /\ o2 <> ThreePanelLayout.Rejected
      /\ ThreePanelLayout.rightCollapsed st1 = true
      /\ ThreePanelLayout.rightSize st1 = 0
      /\ ThreePanelLayout.rightCollapsed st2 = false
      /\ ThreePanelLayout.rightSize st2 = ThreePanelLayout.defaultSizes_right p
      /\ ThreePanelLayout.leftSize st2 = ThreePanelLayout.leftSize st
      /\ ThreePanelLayout.leftCollapsed st2 = ThreePanelLayout.leftCollapsed st).
Proof.
  intros Hdrag. split; intros Hanim Hcoll; cbv zeta;
    unfold ThreePanelLayout.handleLeftCollapse, ThreePanelLayout.handleRightCollapse;
    rewrite Hanim, Hdrag, Hcoll; cbn [orb negb ThreePanelLayout.settled];
    unfold ThreePanelLayout.handleLeftExpand, ThreePanelLayout.handleRightExpand;
    rewrite Hcoll; destruct st; cbn in Hanim, Hdrag |- *; subst;
    repeat split; discriminate.
Qed.

Lemma three_panel_expand_forgets_the_size_example :
  let p := example_props in
  let st := ThreePanelLayout.handleLeftResize 30 (ThreePanelLayout.initial p) in
  let st1 := ThreePanelLayout.settled None (ThreePanelLayout.handleLeftCollapse p st) st in
  let st2 := ThreePanelLayout.settled None (ThreePanelLayout.handleLeftExpand p st1) st1 in
  ThreePanelLayout.leftSize st = 30 /\ ThreePanelLayout.leftSize st2 = 20.
Proof.
  cbv zeta. split; [reflexivity|].
  destruct (three_panel_expand_forgets_the_size example_props
              (ThreePanelLayout.handleLeftResize 30 (ThreePanelLayout.initial example_props))
              None None eq_refl) as [H _].
  destruct (H eq_refl eq_refl) as (_ & _ & _ & _ & _ & Hsize & _).
  exact Hsize.
Defined.

(** X4.  The resize callbacks of ThreePanelLayout do nothing while
    either outer panel is animating.  Otherwise the callback stores the
    size of its own panel, a size above zero clears the collapsed flag of
    that panel, and the cells of the other panel and the drag flag are
    left alone. *)
Theorem three_panel_resize_waits_for_animations
    (size : Q) (st : ThreePanelLayout.State) :
  let animating := ThreePanelLayout.leftAnimating st || ThreePanelLayout.rightAnimating st in
  let l := ThreePanelLayout.handleLeftResize size st in
  let r := ThreePanelLayout.handleRightResize size st in
  (animating = true -> l = st /\ r = st)
  /\ (animating = false ->
      ThreePanelLayout.leftSize l = size
      /\ ThreePanelLayout.rightSize r = size
      /\ (0 < size ->
          ThreePanelLayout.leftCollapsed l = false /\ ThreePanelLayout.rightCollapsed r = false)
      /\ (size <= 0 ->
          ThreePanelLayout.leftCollapsed l = ThreePanelLayout.leftCollapsed st
          /\ ThreePanelLayout.rightCollapsed r = ThreePanelLayout.rightCollapsed st)
      /\ ThreePanelLayout.rightSize l = ThreePanelLayout.rightSize st
      /\ ThreePanelLayout.rightCollapsed l = ThreePanelLayout.rightCollapsed st
      /\ ThreePanelLayout.leftSize r = ThreePanelLayout.leftSize st
      /\ ThreePanelLayout.leftCollapsed r = ThreePanelLayout.leftCollapsed st
      /\ ThreePanelLayout.isDragging l = ThreePanelLayout.isDragging st
      /\ ThreePanelLayout.isDragging r = ThreePanelLayout.isDragging st).
Proof.
  cbv zeta. unfold ThreePanelLayout.handleLeftResize, ThreePanelLayout.handleRightResize.
  destruct (ThreePanelLayout.leftAnimating st), (ThreePanelLayout.rightAnimating st);
    cbn [orb negb andb]; (split; [intros H; try discriminate; split; reflexivity|]);
    intros H; try discriminate.
  destruct (JS.gtb size 0) eqn:E;
    cbn [ThreePanelLayout.setLeftSize ThreePanelLayout.setRightSize
         ThreePanelLayout.setLeftCollapsed ThreePanelLayout.setRightCollapsed
         ThreePanelLayout.leftSize ThreePanelLayout.rightSize
         ThreePanelLayout.leftCollapsed ThreePanelLayout.rightCollapsed
         ThreePanelLayout.isDragging];
    (split; [reflexivity|]); (split; [reflexivity|]);
    (split; [intros Hpos|split; [intros Hle|repeat split]]).
  - split; reflexivity.
  - apply gtb_gt in E. exfalso. exact (Qlt_not_le _ _ E Hle).
  - apply gtb_le in E. exfalso. exact (Qlt_not_le _ _ Hpos E).
  - split; reflexivity.
Qed.

(** ** ConfigurablePanelLayout.tsx: the coordinated expand, the run of
       [animateMultiplePanels] and the default sizes *)



Section MultipleFacts.

Import ConfigurablePanelLayout.

Lemma animate_multiple_to_the_end (env : Env) (duration : Q) (valid : list Animation)
    (onComplete : bool) (n : nat) :
  forall k fuel,
    (k + n = 9)%nat ->
    (n < fuel)%nat ->
    animate env duration valid onComplete fuel k
    = Some (flat_map (coordinated_step env duration valid) (seq k n)
              ++ final_calls env valid 9 ++ (if onComplete then [Complete] else [])).
Proof.
  induction n as [|n IH]; intros k fuel Hk Hfuel;
    (destruct fuel as [|fuel]; [lia|]); cbn [animate].
  - assert (k = 9%nat) by lia. subst k.
    replace (JS.geb (Tween.progress_of 10) 1) with true
      by (symmetry; apply progress_reaches_one; lia).
    reflexivity.
  - rewrite progress_below_one by lia.
    rewrite (IH (S k) fuel) by lia.
    cbn [seq flat_map]. unfold coordinated_step at 2. rewrite <- !app_assoc. reflexivity.
Qed.

End MultipleFacts.

(** X7.  [animateMultiplePanels] drops the animations whose handle is
    null when it is called and does nothing at all, completion callback
    included, when none is left.  Otherwise it always runs its ten
    steps: nine eased steps, each followed by a scheduled call, then the
    final calls and the completion callback, once; a handle that is null
    at a step is skipped at that step and the run goes on. *)
Theorem animateMultiplePanels_always_completes
    (env : ConfigurablePanelLayout.Env) (duration : Q)
    (animations : list ConfigurablePanelLayout.Animation) (onComplete : bool) (fuel : nat) :
  (10 <= fuel)%nat ->
  let valid :=
    filter (fun anim => env (ConfigurablePanelLayout.panelRef anim) 0%nat) animations in
  let run := ConfigurablePanelLayout.animateMultiplePanels env duration animations onComplete fuel in
  (valid = [] -> run = Some [])
  /\ (valid <> [] ->
      exists trace,
        run = Some trace
        /\ trace
           = flat_map (coordinated_step env duration valid) (seq 0 9)
               ++ ConfigurablePanelLayout.final_calls env valid 9
               ++ (if onComplete then [ConfigurablePanelLayout.Complete] else [])
        /\ completions_of trace = (if onComplete then 1 else 0)%nat).
Proof.
  intros Hfuel valid run. unfold run, ConfigurablePanelLayout.animateMultiplePanels.
  fold valid. split.
  - intros ->. reflexivity.
  - intros Hne. destruct valid as [|a rest] eqn:Ev; [congruence|].
    rewrite (animate_multiple_to_the_end env duration (a :: rest) onComplete 9 0 fuel) by lia.
    eexists. split; [reflexivity|]. split; [reflexivity|].
    unfold completions_of. rewrite !filter_app, !length_app.
    assert (H1 : forall ks,
               filter ConfigurablePanelLayout.is_complete
                 (flat_map (coordinated_step env duration (a :: rest)) ks) = []).
    { induction ks as [|k ks IH]; [reflexivity|].
      cbn [flat_map]. rewrite filter_app, IH, app_nil_r.
      unfold coordinated_step, ConfigurablePanelLayout.eased_calls.
      rewrite filter_app. cbn [filter ConfigurablePanelLayout.is_complete]. rewrite app_nil_r.
      generalize (a :: rest). intros l. induction l as [|x l IHl]; [reflexivity|].
      cbn [flat_map]. rewrite filter_app, IHl, app_nil_r.
      destruct (env (ConfigurablePanelLayout.panelRef x) k); reflexivity. }
    assert (H2 : filter ConfigurablePanelLayout.is_complete
                   (ConfigurablePanelLayout.final_calls env (a :: rest) 9) = []).
    { unfold ConfigurablePanelLayout.final_calls.
      generalize (a :: rest). intros l. induction l as [|x l IHl]; [reflexivity|].
      cbn [flat_map]. rewrite filter_app, IHl, app_nil_r.
      destruct (env (ConfigurablePanelLayout.panelRef x) 9%nat);
        [destruct (JS.is_zero (ConfigurablePanelLayout.toSize x))|]; reflexivity. }
    rewrite H1, H2. destruct onComplete; reflexivity.
Qed.

Lemma animateMultiplePanels_always_completes_witness :
  exists trace,
    ConfigurablePanelLayout.animateMultiplePanels (fun r k => Nat.ltb k 3) 300
      [ {| ConfigurablePanelLayout.panelRef := Left;
           ConfigurablePanelLayout.fromSize := 20;
           ConfigurablePanelLayout.toSize := 0 |} ] true 10 = Some trace
    /\ completions_of trace = 1%nat.
Proof.
  destruct (animateMultiplePanels_always_completes (fun r k => Nat.ltb k 3) 300
              [ {| ConfigurablePanelLayout.panelRef := Left;
                   ConfigurablePanelLayout.fromSize := 20;
                   ConfigurablePanelLayout.toSize := 0 |} ] true 10)
    as (_ & H).
  - lia.
  - destruct H as (trace & Hrun & _ & Hdone); [discriminate|].
    exists trace. split; [exact Hrun|exact Hdone].
Defined.




(** X9.  An inactive region of ConfigurablePanelLayout has the computed
    default size 0 and starts collapsed, with size 0 and last expanded
    size 0.  When [defaultSizes] is passed without entries, the computed
    default sizes of the active regions add up to 100 (one region: 100;
    two: 50 each; three: 20, 60 and 20), and so do the sizes on mount
    when no region is collapsed.  With the default value of the prop
    (20, 60, 20) and two active regions they add up to less than 100. *)
Theorem smart_defaults_fill_the_row (p : ConfigurablePanelLayout.Props) :
  (forall r,
      ConfigurablePanelLayout.activeOf p r = false ->
      ConfigurablePanelLayout.computedDefaultSizeOf p r = 0
      /\ ConfigurablePanelLayout.collapsedOf r (ConfigurablePanelLayout.initial p) = true
      /\ ConfigurablePanelLayout.sizeOf r (ConfigurablePanelLayout.initial p) = 0
      /\ ConfigurablePanelLayout.lastExpandedSizeOf r (ConfigurablePanelLayout.initial p) = 0)
  /\ (no_default_sizes p ->
      (0 < ConfigurablePanelLayout.activeCount p)%nat ->
      ConfigurablePanelLayout.computedDefaultSizes_left p
      + ConfigurablePanelLayout.computedDefaultSizes_middle p
      + ConfigurablePanelLayout.computedDefaultSizes_right p == 100)
  /\ (no_default_sizes p ->
      (0 < ConfigurablePanelLayout.activeCount p)%nat ->
      ConfigurablePanelLayout.collapsed_left p = false ->
      ConfigurablePanelLayout.collapsed_middle p = false ->
      ConfigurablePanelLayout.collapsed_right p = false ->
      ConfigurablePanelLayout.leftSize (ConfigurablePanelLayout.initial p)
      + ConfigurablePanelLayout.middleSize (ConfigurablePanelLayout.initial p)
      + ConfigurablePanelLayout.rightSize (ConfigurablePanelLayout.initial p) == 100)
  /\ (ConfigurablePanelLayout.defaultSizes_left p = Some 20 ->
      ConfigurablePanelLayout.defaultSizes_middle p = Some 60 ->
      ConfigurablePanelLayout.defaultSizes_right p = Some 20 ->
      ConfigurablePanelLayout.activeCount p = 2%nat ->
      ConfigurablePanelLayout.computedDefaultSizes_left p
      + ConfigurablePanelLayout.computedDefaultSizes_middle p
      + ConfigurablePanelLayout.computedDefaultSizes_right p < 100).
Proof.
  split; [|split; [|split]].
  - intros r Hr.
    destruct r; cbn in Hr |- *;
      unfold ConfigurablePanelLayout.computedDefaultSizes_left,
             ConfigurablePanelLayout.computedDefaultSizes_middle,
             ConfigurablePanelLayout.computedDefaultSizes_right;
      rewrite Hr; rewrite ?orb_true_r; repeat split.
  - intros (Hl & Hm & Hr) Hcount.
    unfold ConfigurablePanelLayout.computedDefaultSizes_left,
           ConfigurablePanelLayout.computedDefaultSizes_middle,
           ConfigurablePanelLayout.computedDefaultSizes_right,
           ConfigurablePanelLayout.smart_default, ConfigurablePanelLayout.activeCount in *.
    rewrite Hl, Hm, Hr.
    destruct (ConfigurablePanelLayout.isLeftActive p),
      (ConfigurablePanelLayout.isMiddleActive p),
      (ConfigurablePanelLayout.isRightActive p); cbn in Hcount |- *; try reflexivity; lia.
  - intros (Hl & Hm & Hr) Hcount Hcl Hcm Hcr.
    unfold ConfigurablePanelLayout.initial. cbn [ConfigurablePanelLayout.leftSize
      ConfigurablePanelLayout.middleSize ConfigurablePanelLayout.rightSize].
    rewrite Hcl, Hcm, Hcr. cbn [orb].
    unfold ConfigurablePanelLayout.computedDefaultSizes_left,
           ConfigurablePanelLayout.computedDefaultSizes_middle,
           ConfigurablePanelLayout.computedDefaultSizes_right,
           ConfigurablePanelLayout.smart_default, ConfigurablePanelLayout.activeCount in *.
    rewrite Hl, Hm, Hr.
    destruct (ConfigurablePanelLayout.isLeftActive p),
      (ConfigurablePanelLayout.isMiddleActive p),
      (ConfigurablePanelLayout.isRightActive p); cbn in Hcount |- *; try reflexivity; lia.
  - intros Hl Hm Hr Hcount.
    unfold ConfigurablePanelLayout.computedDefaultSizes_left,
           ConfigurablePanelLayout.computedDefaultSizes_middle,
           ConfigurablePanelLayout.computedDefaultSizes_right,
           ConfigurablePanelLayout.activeCount in *.
    rewrite Hl, Hm, Hr.
    destruct (ConfigurablePanelLayout.isLeftActive p),
      (ConfigurablePanelLayout.isMiddleActive p),
      (ConfigurablePanelLayout.isRightActive p); cbn in Hcount |- *; try reflexivity; lia.
Qed.

(** ** Lost handles, the [collapsed] prop and the class names *)

Lemma eased_steps_never_complete (d a b : Q) (ks : list nat) :
  Tween.completed (flat_map (Tween.eased_step d a b) ks) = false.
Proof.
  unfold Tween.completed. induction ks as [|k ks IH]; [reflexivity|].
  cbn [flat_map Tween.eased_step app existsb Tween.is_complete orb]. exact IH.
Qed.

Lemma animatePanel_without_handle (env : Tween.Env) (d a b : Q) (onComplete : bool)
    (j fuel : nat) :
  (j < 10)%nat ->
  (forall i, (i < j)%nat -> Tween.handle env i = true) ->
  Tween.handle env j = false ->
  (j < fuel)%nat ->
  exists trace,
    Tween.animatePanel env d a b onComplete fuel = Some trace
    /\ Tween.completed trace = false.
Proof.
  intros Hj Hbefore Hlost Hfuel. unfold Tween.animatePanel.
  destruct j as [|j].
  - rewrite Hlost. cbn [negb]. eexists. split; reflexivity.
  - rewrite (Hbefore 0%nat) by lia. cbn [negb].
    destruct (JS.truthy (Tween.now env)) eqn:Hnow.
    + rewrite (animate_until_lost env d a b onComplete (S j) (S j) 0 fuel)
        by (auto; lia).
      eexists. split; [reflexivity|]. apply eased_steps_never_complete.
    + destruct fuel as [|fuel]; [lia|]. cbn [Tween.animate].
      rewrite Hnow. rewrite orb_true_r. eexists. split; reflexivity.
Qed.

(** X10.  A lost handle leaves the layout locked.  In ThreePanelLayout,
    when the handle of the left panel is null at some step of the run of
    an accepted request, the state stays the one the handler set:
    [leftAnimating] is still true, so every later toggle of the left
    panel is rejected and both resize callbacks are ignored.  In
    ConfigurablePanelLayout.tsx, when no handle is there as the frame
    comes, the run makes no call, the three animating flags stay set,
    and every later collapse or expand request and every resize callback
    is ignored. *)
Theorem three_panel_layouts_lock_when_handle_is_lost :
  (forall p st currentLayout env fuel j o,
      (j < 10)%nat ->
      (forall i, (i < j)%nat -> Tween.handle env i = true) ->
      Tween.handle env j = false ->
      (j < fuel)%nat ->
      o = ThreePanelLayout.handleLeftCollapse p st
      \/ o = ThreePanelLayout.handleLeftExpand p st ->
      o <> ThreePanelLayout.Rejected ->
      exists trace,
        ThreePanelLayout.run fuel env p currentLayout o st
        = Some (ThreePanelLayout.after o st, trace)
        /\ ThreePanelLayout.leftAnimating (ThreePanelLayout.after o st) = true
        /\ ThreePanelLayout.toggleLeftPanel p (ThreePanelLayout.after o st)
           = ThreePanelLayout.Rejected
        /\ forall size,
             ThreePanelLayout.handleLeftResize size (ThreePanelLayout.after o st)
             = ThreePanelLayout.after o st
             /\ ThreePanelLayout.handleRightResize size (ThreePanelLayout.after o st)
                = ThreePanelLayout.after o st)
  /\ (forall p st currentLayout env fuel r collapse,
      (forall x, env x 0%nat = false) ->
      let o := toggle_handler collapse r p st in
      o <> ConfigurablePanelLayout.Rejected ->
      exists st',
        ConfigurablePanelLayout.run fuel env p currentLayout o st = Some (st', [])
        /\ (forall x, ConfigurablePanelLayout.animatingOf x st' = true)
        /\ (forall collapse' r', toggle_handler collapse' r' p st'
                                 = ConfigurablePanelLayout.Rejected)
        /\ forall r' size, ConfigurablePanelLayout.handleResize r' size st' = st').
Proof.
  split.
  - intros p st currentLayout env fuel j o Hj Hbefore Hlost Hfuel Ho Hacc.
    assert (Hshape : exists flushed cb frame,
               o = ThreePanelLayout.Started flushed cb frame
               /\ ThreePanelLayout.leftAnimating flushed = true).
    { destruct Ho as [-> | ->];
        unfold ThreePanelLayout.handleLeftCollapse, ThreePanelLayout.handleLeftExpand in *;
        destruct (ThreePanelLayout.leftAnimating st || ThreePanelLayout.isDragging st
                  || negb (ThreePanelLayout.collapsiblePanels_left p));
        try congruence; do 3 eexists; split; reflexivity. }
    destruct Hshape as (flushed & cb & frame & -> & Hflag).
    cbn [ThreePanelLayout.run ThreePanelLayout.after].
    destruct (animatePanel_without_handle env (ThreePanelLayout.animationDuration p)
                (ThreePanelLayout.fromSize (frame currentLayout))
                (ThreePanelLayout.toSize (frame currentLayout)) true j fuel Hj Hbefore Hlost Hfuel)
      as (trace & Hrun & Hdone).
    rewrite Hrun, Hdone. exists trace. split; [reflexivity|]. split; [exact Hflag|].
    unfold ThreePanelLayout.toggleLeftPanel, ThreePanelLayout.handleLeftCollapse,
      ThreePanelLayout.handleLeftExpand, ThreePanelLayout.handleLeftResize,
      ThreePanelLayout.handleRightResize.
    rewrite Hflag. cbn [orb negb andb].
    split; [destruct (ThreePanelLayout.leftCollapsed flushed); reflexivity|].
    intros size. split; reflexivity.
  - intros p st currentLayout env fuel r collapse Henv o Hacc.
    assert (Hshape : exists flushed cb frame,
               o = ConfigurablePanelLayout.Started flushed cb frame
               /\ (forall x l, ConfigurablePanelLayout.animatingOf x
                                 (ConfigurablePanelLayout.updates (frame l) flushed) = true)).
    { unfold o, toggle_handler in *.
      destruct collapse, r;
        cbn [ConfigurablePanelLayout.handleCollapse ConfigurablePanelLayout.handleExpand] in *;
        unfold ConfigurablePanelLayout.handleLeftCollapse,
               ConfigurablePanelLayout.handleMiddleCollapse,
               ConfigurablePanelLayout.handleRightCollapse,
               ConfigurablePanelLayout.handleLeftExpand,
               ConfigurablePanelLayout.handleMiddleExpand,
               ConfigurablePanelLayout.handleRightExpand in *;
        match goal with
        | |- context [if ?g then ConfigurablePanelLayout.Rejected else _] =>
            destruct g; [congruence|]
        end;
        (do 3 eexists; split; [reflexivity|]);
        intros x l; cbn [ConfigurablePanelLayout.updates];
        unfold ConfigurablePanelLayout.when_positive;
        repeat match goal with
               | |- context [JS.gtb ?x 0] => destruct (JS.gtb x 0)
               end;
        destruct x; reflexivity. }
    destruct Hshape as (flushed & cb & frame & Ho & Hflags).
    rewrite Ho. cbn [ConfigurablePanelLayout.run].
    assert (Hnone : ConfigurablePanelLayout.animateMultiplePanels env
                      (ConfigurablePanelLayout.animationDuration p)
                      (ConfigurablePanelLayout.animations (frame currentLayout)) true fuel
                    = Some []).
    { unfold ConfigurablePanelLayout.animateMultiplePanels.
      assert (Hf : forall l, filter (fun anim => env (ConfigurablePanelLayout.panelRef anim) 0%nat) l
                             = []).
      { induction l as [|a l IH]; [reflexivity|]. cbn [filter]. now rewrite Henv. }
      now rewrite Hf. }
    rewrite Hnone. cbn [ConfigurablePanelLayout.completed existsb].
    eexists. split; [reflexivity|]. split; [intros x; apply Hflags|].
    split.
    + intros collapse' r'. unfold toggle_handler.
      destruct collapse', r';
        cbn [ConfigurablePanelLayout.handleCollapse ConfigurablePanelLayout.handleExpand];
        unfold ConfigurablePanelLayout.handleLeftCollapse,
               ConfigurablePanelLayout.handleMiddleCollapse,
               ConfigurablePanelLayout.handleRightCollapse,
               ConfigurablePanelLayout.handleLeftExpand,
               ConfigurablePanelLayout.handleMiddleExpand,
               ConfigurablePanelLayout.handleRightExpand;
        first [ rewrite (Hflags Left currentLayout : ConfigurablePanelLayout.leftAnimating _ = true)
              | rewrite (Hflags Middle currentLayout
                         : ConfigurablePanelLayout.middleAnimating _ = true)
              | rewrite (Hflags Right currentLayout
                         : ConfigurablePanelLayout.rightAnimating _ = true) ];
        reflexivity.
    + intros r' size.
      destruct r'; cbn [ConfigurablePanelLayout.handleResize];
        unfold ConfigurablePanelLayout.handleLeftResize,
               ConfigurablePanelLayout.handleMiddleResize,
               ConfigurablePanelLayout.handleRightResize;
        rewrite (Hflags Left currentLayout : ConfigurablePanelLayout.leftAnimating _ = true);
        reflexivity.
Qed.

(** X11.  The effect that follows a [collapsed] entry of the props, in
    ThreePanelLayout, ConfigurablePanelLayout.tsx, AnimatedResizableLayout
    and AnimatedVerticalLayout, calls no handler when the entry is
    undefined or equal to the collapsed flag of the state.  Otherwise it
    calls the collapse or the expand handler, whichever moves the flag to
    the entry, and when that request is accepted the flag equals the
    entry as soon as the handler has returned, so that the effect then
    has nothing more to do. *)
Theorem collapsed_prop_is_followed :
  ((forall prop p st,
      (ThreePanelLayout.collapsedLeftEffect prop p st = None
       <-> prop = None \/ prop = Some (ThreePanelLayout.leftCollapsed st))
      /\ forall o,
           ThreePanelLayout.collapsedLeftEffect prop p st = Some o ->
           o <> ThreePanelLayout.Rejected ->
           prop = Some (ThreePanelLayout.leftCollapsed (ThreePanelLayout.after o st))
           /\ ThreePanelLayout.collapsedLeftEffect prop p (ThreePanelLayout.after o st) = None)
  /\ (forall prop p st,
      (ThreePanelLayout.collapsedRightEffect prop p st = None
       <-> prop = None \/ prop = Some (ThreePanelLayout.rightCollapsed st))
      /\ forall o,
           ThreePanelLayout.collapsedRightEffect prop p st = Some o ->
           o <> ThreePanelLayout.Rejected ->
           prop = Some (ThreePanelLayout.rightCollapsed (ThreePanelLayout.after o st))
           /\ ThreePanelLayout.collapsedRightEffect prop p (ThreePanelLayout.after o st) = None)
  /\ (forall r prop p st,
      (ConfigurablePanelLayout.collapsedEffect r prop p st = None
       <-> prop = None \/ prop = Some (ConfigurablePanelLayout.collapsedOf r st))
      /\ forall o,
           ConfigurablePanelLayout.collapsedEffect r prop p st = Some o ->
           o <> ConfigurablePanelLayout.Rejected ->
           prop = Some (ConfigurablePanelLayout.collapsedOf r
                          (ConfigurablePanelLayout.after o st))
           /\ ConfigurablePanelLayout.collapsedEffect r prop p
                (ConfigurablePanelLayout.after o st) = None)
  /\ (forall p st,
      (AnimatedResizableLayout.collapsedEffect p st = None
       <-> AnimatedResizableLayout.collapsed p = AnimatedResizableLayout.isCollapsed st)
      /\ forall o,
           AnimatedResizableLayout.collapsedEffect p st = Some o ->
           o <> AnimatedResizableLayout.Rejected ->
           AnimatedResizableLayout.collapsedEffect p (AnimatedResizableLayout.after o st) = None))
  /\ ((forall p st,
      (AnimatedVerticalLayout.collapsedTopEffect p st = None
       <-> AnimatedVerticalLayout.collapsed_top p = None
           \/ AnimatedVerticalLayout.collapsed_top p
              = Some (AnimatedVerticalLayout.isTopCollapsed st))
      /\ forall o,
           AnimatedVerticalLayout.collapsedTopEffect p st = Some o ->
           o <> AnimatedVerticalLayout.Rejected ->
           AnimatedVerticalLayout.collapsedTopEffect p (AnimatedVerticalLayout.after o st)
           = None)
  /\ (forall p st,
      (AnimatedVerticalLayout.collapsedBottomEffect p st = None
       <-> AnimatedVerticalLayout.collapsed_bottom p = None
           \/ AnimatedVerticalLayout.collapsed_bottom p
              = Some (AnimatedVerticalLayout.isBottomCollapsed st))
      /\ forall o,
           AnimatedVerticalLayout.collapsedBottomEffect p st = Some o ->
           o <> AnimatedVerticalLayout.Rejected ->
           AnimatedVerticalLayout.collapsedBottomEffect p (AnimatedVerticalLayout.after o st)
           = None)).
Proof.
  split.
  {
    split; [|split; [|split]].
    - intros prop p st. unfold ThreePanelLayout.collapsedLeftEffect. split.
      + destruct prop as [[]|], (ThreePanelLayout.leftCollapsed st); cbn; split;
          solve [auto | discriminate | intros [H|H]; congruence].
      + intros o.
        unfold ThreePanelLayout.handleLeftCollapse, ThreePanelLayout.handleLeftExpand.
        destruct prop as [[]|], (ThreePanelLayout.leftCollapsed st) eqn:E; cbn;
          try discriminate;
          destruct (ThreePanelLayout.leftAnimating st || ThreePanelLayout.isDragging st
                    || negb (ThreePanelLayout.collapsiblePanels_left p));
          intros H; injection H as <-; intros Hacc; try congruence; split; reflexivity.
    - intros prop p st. unfold ThreePanelLayout.collapsedRightEffect. split.
      + destruct prop as [[]|], (ThreePanelLayout.rightCollapsed st); cbn; split;
          solve [auto | discriminate | intros [H|H]; congruence].
      + intros o.
        unfold ThreePanelLayout.handleRightCollapse, ThreePanelLayout.handleRightExpand.
        destruct prop as [[]|], (ThreePanelLayout.rightCollapsed st) eqn:E; cbn;
          try discriminate;
          destruct (ThreePanelLayout.rightAnimating st || ThreePanelLayout.isDragging st
                    || negb (ThreePanelLayout.collapsiblePanels_right p));
          intros H; injection H as <-; intros Hacc; try congruence; split; reflexivity.
    - intros r prop p st. unfold ConfigurablePanelLayout.collapsedEffect. split.
      + destruct prop as [[]|], (ConfigurablePanelLayout.collapsedOf r st); cbn; split;
          solve [auto | discriminate | intros [H|H]; congruence].
      + intros o.
        destruct r; cbn [ConfigurablePanelLayout.handleCollapse
                         ConfigurablePanelLayout.handleExpand
                         ConfigurablePanelLayout.collapsedOf];
          unfold ConfigurablePanelLayout.handleLeftCollapse,
                 ConfigurablePanelLayout.handleMiddleCollapse,
                 ConfigurablePanelLayout.handleRightCollapse,
                 ConfigurablePanelLayout.handleLeftExpand,
                 ConfigurablePanelLayout.handleMiddleExpand,
                 ConfigurablePanelLayout.handleRightExpand;
          match goal with
          | |- context [Bool.eqb _ (?c st)] => destruct prop as [[]|], (c st) eqn:E
          end; cbn [Bool.eqb]; try discriminate;
          match goal with
          | |- context [if ?g then ConfigurablePanelLayout.Rejected else _] => destruct g
          end;
          intros H; injection H as <-; intros Hacc; try congruence; split; reflexivity.
    - intros p st. unfold AnimatedResizableLayout.collapsedEffect. split.
      + destruct (AnimatedResizableLayout.collapsed p), (AnimatedResizableLayout.isCollapsed st);
          cbn; split; congruence.
      + intros o.
        unfold AnimatedResizableLayout.handleCollapse, AnimatedResizableLayout.handleExpand.
        destruct (AnimatedResizableLayout.collapsed p) eqn:Ep,
          (AnimatedResizableLayout.isCollapsed st) eqn:E; cbn [Bool.eqb]; try discriminate;
          destruct (AnimatedResizableLayout.isAnimating st || AnimatedResizableLayout.isDragging st);
          intros H; injection H as <-; intros Hacc; try congruence;
          reflexivity.
  }
  {
    split; intros p st.
    - unfold AnimatedVerticalLayout.collapsedTopEffect. split.
      + destruct (AnimatedVerticalLayout.collapsed_top p) as [[]|],
          (AnimatedVerticalLayout.isTopCollapsed st); cbn; split;
          solve [auto | discriminate | intros [H|H]; congruence].
      + intros o.
        unfold AnimatedVerticalLayout.handleTopCollapse, AnimatedVerticalLayout.handleTopExpand.
        destruct (AnimatedVerticalLayout.collapsed_top p) as [[]|],
          (AnimatedVerticalLayout.isTopCollapsed st) eqn:E; cbn [Bool.eqb]; try discriminate;
          destruct (AnimatedVerticalLayout.isTopAnimating st || AnimatedVerticalLayout.isDragging st
                    || negb (AnimatedVerticalLayout.collapsiblePanels_top p));
          intros H; injection H as <-; intros Hacc; try congruence; reflexivity.
    - unfold AnimatedVerticalLayout.collapsedBottomEffect. split.
      + destruct (AnimatedVerticalLayout.collapsed_bottom p) as [[]|],
          (AnimatedVerticalLayout.isBottomCollapsed st); cbn; split;
          solve [auto | discriminate | intros [H|H]; congruence].
      + intros o.
        unfold AnimatedVerticalLayout.handleBottomCollapse,
          AnimatedVerticalLayout.handleBottomExpand.
        destruct (AnimatedVerticalLayout.collapsed_bottom p) as [[]|],
          (AnimatedVerticalLayout.isBottomCollapsed st) eqn:E; cbn [Bool.eqb]; try discriminate;
          destruct (AnimatedVerticalLayout.isBottomAnimating st
                    || AnimatedVerticalLayout.isDragging st
                    || negb (AnimatedVerticalLayout.collapsiblePanels_bottom p));
          intros H; injection H as <-; intros Hacc; try congruence; reflexivity.
  }
Qed.

(** X12.  In ThreePanelLayout and ConfigurablePanelLayout.tsx a panel
    never carries the classes [animating] and [collapsed] together: the
    class [collapsed] is given only when the panel is collapsed and not
    animating.  The middle panel of ThreePanelLayout always has the class
    attribute [three-panel-item middle-panel].  In AnimatedResizableLayout
    the collapsible panel carries [collapsed] whenever it is collapsed,
    animating or not. *)
Theorem collapsed_class_waits_for_the_animation :
  (forall p st panelName,
      let className := ThreePanelLayout.getPanelClassName p st panelName in
      (has_class " animating" className = true -> has_class " collapsed" className = false)
      /\ (panelName = Middle -> className = "three-panel-item middle-panel"%string))
  /\ (forall p st panelName,
      let className := ConfigurablePanelLayout.getPanelClassName p st panelName in
      (has_class " animating" className = true -> has_class " collapsed" className = false)
      /\ has_class " collapsed" className
         = (ConfigurablePanelLayout.collapsibleOf p panelName
            || negb (ConfigurablePanelLayout.activeOf p panelName))
           && ConfigurablePanelLayout.collapsedOf panelName st
           && negb (ConfigurablePanelLayout.animatingOf panelName st))
  /\ (forall st,
      let className := AnimatedResizableLayout.getPanelClassName st true in
      has_class " collapsed" className = AnimatedResizableLayout.isCollapsed st
      /\ has_class " animating" className
         = AnimatedResizableLayout.isAnimating st
           && negb (AnimatedResizableLayout.isDragging st)).
Proof.
  split; [|split].
  - intros p st panelName. cbv zeta. split; [|intros ->; reflexivity].
    unfold ThreePanelLayout.getPanelClassName, ThreePanelLayout.leftFullyCollapsed,
      ThreePanelLayout.rightFullyCollapsed.
    destruct panelName;
      [destruct (ThreePanelLayout.collapsiblePanels_left p),
         (ThreePanelLayout.leftAnimating st), (ThreePanelLayout.isDragging st),
         (ThreePanelLayout.leftCollapsed st)
      |
      |destruct (ThreePanelLayout.collapsiblePanels_right p),
         (ThreePanelLayout.rightAnimating st), (ThreePanelLayout.isDragging st),
         (ThreePanelLayout.rightCollapsed st)];
      vm_compute; congruence.
  - intros p st panelName. cbv zeta.
    unfold ConfigurablePanelLayout.getPanelClassName, ConfigurablePanelLayout.fullyCollapsedOf.
    destruct (ConfigurablePanelLayout.collapsibleOf p panelName),
      (ConfigurablePanelLayout.activeOf p panelName),
      (ConfigurablePanelLayout.animatingOf panelName st),
      (ConfigurablePanelLayout.isDragging st),
      (ConfigurablePanelLayout.collapsedOf panelName st), panelName;
      vm_compute; split; congruence.
  - intros st. cbv zeta. unfold AnimatedResizableLayout.getPanelClassName.
    destruct (AnimatedResizableLayout.isAnimating st), (AnimatedResizableLayout.isDragging st),
      (AnimatedResizableLayout.isCollapsed st); vm_compute; split; reflexivity.
Qed.

(** ** The frame-driven tween *)

Section FrameTweenFacts.

Import FrameTween.

Variables startTime animationDuration fromSize toSize : Q.
Variable onComplete : bool.
Hypothesis positive_duration : 0 < animationDuration.

Lemma progress_before_end (t : Q) :
  t - startTime < animationDuration ->
  JS.ltb (progress_at startTime animationDuration t) 1 = true.
Proof.
  intros H. apply ltb_lt. unfold progress_at.
  apply Q.min_lt_iff. left. apply Qlt_shift_div_r; [exact positive_duration|]. lra.
Qed.

Lemma progress_at_end (t : Q) :
  animationDuration <= t - startTime ->
  JS.ltb (progress_at startTime animationDuration t) 1 = false
  /\ progress_at startTime animationDuration t == 1.
Proof.
  intros H.
  assert (H1 : 1 <= (t - startTime) / animationDuration).
  { apply Qle_shift_div_l; [exact positive_duration|]. lra. }
  assert (H2 : progress_at startTime animationDuration t == 1).
  { unfold progress_at. apply Q.min_r. exact H1. }
  split; [|exact H2]. apply ltb_ge. rewrite H2. apply Qle_refl.
Qed.

Lemma progress_at_most_one (t : Q) : progress_at startTime animationDuration t <= 1.
Proof. unfold progress_at. apply Q.le_min_r. Qed.

Lemma progress_monotone (t u : Q) :
  t <= u -> progress_at startTime animationDuration t <= progress_at startTime animationDuration u.
Proof.
  intros H. unfold progress_at. apply Q.min_le_compat_r.
  unfold Qdiv. apply Qmult_le_compat_r; [lra|].
  apply Qlt_le_weak, Qinv_lt_0_compat, positive_duration.
Qed.

Lemma progress_not_negative (t : Q) :
  startTime <= t -> 0 <= progress_at startTime animationDuration t.
Proof.
  intros H. unfold progress_at. apply Q.min_glb; [|lra].
  apply Qle_shift_div_l; [exact positive_duration|]. lra.
Qed.

Lemma size_at_end (t : Q) :
  animationDuration <= t - startTime ->
  size_at startTime animationDuration fromSize toSize t == toSize.
Proof.
  intros H. unfold size_at.
  rewrite (eased_one _ (proj2 (progress_at_end t H))). ring.
Qed.

Lemma animate_reaches_end (pre : list Frame) (last : Frame) (post : list Frame) :
  JS.truthy startTime = true ->
  reaches_end startTime animationDuration pre last ->
  animate startTime animationDuration fromSize toSize onComplete (pre ++ last :: post)
  = flat_map
      (fun f => [Resize (size_at startTime animationDuration fromSize toSize (currentTime f));
                 Request]) pre
    ++ Resize (size_at startTime animationDuration fromSize toSize (currentTime last))
    :: final_effects toSize onComplete.
Proof.
  intros Hstart (Hpre & Hlast & Hend).
  induction pre as [|f pre IH]; cbn [app animate flat_map]; rewrite Hstart; cbn [negb orb].
  - rewrite Hlast. cbn [negb]. rewrite (proj1 (progress_at_end _ Hend)). reflexivity.
  - inversion Hpre as [|? ? [Hf Ht] Hrest]; subst.
    rewrite Hf. cbn [negb]. rewrite (progress_before_end _ Ht).
    rewrite (IH Hrest). reflexivity.
Qed.

Lemma animate_until_handle_lost (pre : list Frame) (lost : Frame) (post : list Frame) :
  JS.truthy startTime = true ->
  Forall (fun f => handle f = true /\ currentTime f - startTime < animationDuration) pre ->
  handle lost = false ->
  animate startTime animationDuration fromSize toSize onComplete (pre ++ lost :: post)
  = flat_map
      (fun f => [Resize (size_at startTime animationDuration fromSize toSize (currentTime f));
                 Request]) pre.
Proof.
  intros Hstart Hpre Hlost.
  induction pre as [|f pre IH]; cbn [app animate flat_map]; rewrite Hstart; cbn [negb orb].
  - rewrite Hlost. reflexivity.
  - inversion Hpre as [|? ? [Hf Ht] Hrest]; subst.
    rewrite Hf. cbn [negb]. rewrite (progress_before_end _ Ht).
    rewrite (IH Hrest). reflexivity.
Qed.

End FrameTweenFacts.

Lemma no_completion_in_steps (g : FrameTween.Frame -> Q) (pre : list FrameTween.Frame) :
  filter FrameTween.is_complete
    (flat_map (fun f => [FrameTween.Resize (g f); FrameTween.Request]) pre) = []
  /\ filter FrameTween.is_stop
       (flat_map (fun f => [FrameTween.Resize (g f); FrameTween.Request]) pre) = [].
Proof.
  induction pre as [|f pre [IH1 IH2]]; [split; reflexivity|].
  cbn [flat_map app filter FrameTween.is_complete FrameTween.is_stop]. split; assumption.
Qed.

(** X13.  The frame-driven tween ([animatePanel] of
    AnimatedResizableLayout, [animateTopPanel] and [animateBottomPanel]
    of AnimatedVerticalLayout), with a duration above zero, a truthy
    start time and the handle there: every frame that comes before the
    duration has passed makes one [resize] call and requests the next
    frame; the first frame at or after the duration makes a [resize] call
    with a size equal to [toSize], then [collapse()] when [toSize] is
    zero and [resize(toSize)] otherwise, lowers the animating flag once
    and calls the completion callback once.  Later frames have no
    effect. *)
Theorem frame_tween_runs_to_the_end
    (startTime animationDuration fromSize toSize : Q) (onComplete : bool)
    (pre : list FrameTween.Frame) (last : FrameTween.Frame) (post : list FrameTween.Frame) :
  0 < animationDuration ->
  JS.truthy startTime = true ->
  reaches_end startTime animationDuration pre last ->
  let size := FrameTween.size_at startTime animationDuration fromSize toSize in
  let trace :=
    FrameTween.animatePanel startTime animationDuration fromSize toSize onComplete true
      (pre ++ last :: post) in
  trace
  = FrameTween.Request
      :: flat_map (fun f => [FrameTween.Resize (size (FrameTween.currentTime f));
                             FrameTween.Request]) pre
      ++ [FrameTween.Resize (size (FrameTween.currentTime last));
          if JS.is_zero toSize then FrameTween.Collapse else FrameTween.Resize toSize;
          FrameTween.StopAnimating]
      ++ (if onComplete then [FrameTween.Complete] else [])
  /\ size (FrameTween.currentTime last) == toSize
  /\ FrameTween.completions trace = (if onComplete then 1 else 0)%nat
  /\ List.length (filter FrameTween.is_stop trace) = 1%nat.
Proof.
  intros Hdur Hstart Hend size trace.
  assert (Htrace : trace
    = FrameTween.Request
      :: flat_map (fun f => [FrameTween.Resize (size (FrameTween.currentTime f));
                             FrameTween.Request]) pre
      ++ [FrameTween.Resize (size (FrameTween.currentTime last));
          if JS.is_zero toSize then FrameTween.Collapse else FrameTween.Resize toSize;
          FrameTween.StopAnimating]
      ++ (if onComplete then [FrameTween.Complete] else [])).
  { unfold trace, FrameTween.animatePanel. cbn [negb].
    rewrite (animate_reaches_end _ _ _ _ _ Hdur pre last post Hstart Hend).
    reflexivity. }
  split; [exact Htrace|].
  split; [apply size_at_end; [exact Hdur|apply Hend]|].
  rewrite Htrace. unfold FrameTween.completions.
  cbn [filter FrameTween.is_complete FrameTween.is_stop].
  rewrite !filter_app.
  destruct (no_completion_in_steps (fun f => size (FrameTween.currentTime f)) pre) as [-> ->].
  destruct (JS.is_zero toSize), onComplete; split; reflexivity.
Qed.

Lemma frame_tween_runs_to_the_end_witness :
  FrameTween.animatePanel 1000 300 25 0 true true
    [ {| FrameTween.currentTime := 1150; FrameTween.handle := true |};
      {| FrameTween.currentTime := 1300; FrameTween.handle := true |} ]
  = [ FrameTween.Request;
      FrameTween.Resize (FrameTween.size_at 1000 300 25 0 1150); FrameTween.Request;
      FrameTween.Resize (FrameTween.size_at 1000 300 25 0 1300);
      FrameTween.Collapse; FrameTween.StopAnimating; FrameTween.Complete ].
Proof.
  refine (proj1 (frame_tween_runs_to_the_end 1000 300 25 0 true
                   [ {| FrameTween.currentTime := 1150; FrameTween.handle := true |} ]
                   {| FrameTween.currentTime := 1300; FrameTween.handle := true |} [] _ _ _)).
  - reflexivity.
  - reflexivity.
  - split; [|split].
    + repeat constructor.
    + reflexivity.
    + cbn. unfold Qle. cbn. lia.
Defined.

Section Overshoot.

Import FrameTween.

Variables startTime animationDuration fromSize toSize : Q.
Variable onComplete : bool.
Hypothesis positive_duration : 0 < animationDuration.

Let size := size_at startTime animationDuration fromSize toSize.

Lemma size_between (t : Q) : startTime <= t -> between fromSize toSize (size t).
Proof.
  intros H. apply tweened_between; apply eased_bounds;
    auto using progress_not_negative, progress_at_most_one.
Qed.

Lemma resizes_final : resizes (final_effects toSize onComplete) = []
                      \/ resizes (final_effects toSize onComplete) = [toSize].
Proof. unfold final_effects. destruct (JS.is_zero toSize), onComplete; cbn; auto. Qed.

(** Every size of a run whose frames come at [T] or later lies between
    the size of time [T] and the target. *)
Lemma resizes_after (T : Q) (frames : list Frame) :
  startTime <= T ->
  Forall (fun f => T <= currentTime f) frames ->
  Forall (fun s => between fromSize toSize s
                   /\ (fromSize <= toSize -> size T <= s)
                   /\ (toSize <= fromSize -> s <= size T))
    (resizes (animate startTime animationDuration fromSize toSize onComplete frames)).
Proof.
  intros HT Hframes.
  assert (Hto : between fromSize toSize toSize
                /\ (fromSize <= toSize -> size T <= toSize)
                /\ (toSize <= fromSize -> toSize <= size T)).
  { pose proof (size_between T HT) as [H1 H2]. split; [apply between_end|].
    split; intros H.
    - rewrite Q.max_r in H2; assumption.
    - rewrite Q.min_r in H1; assumption. }
  induction frames as [|f frames IH]; cbn [animate]; [constructor|].
  inversion Hframes as [|? ? Hf Hrest]; subst.
  destruct (negb (JS.truthy startTime) || negb (handle f)); [constructor|].
  assert (Hsize : between fromSize toSize (size (currentTime f))
                  /\ (fromSize <= toSize -> size T <= size (currentTime f))
                  /\ (toSize <= fromSize -> size (currentTime f) <= size T)).
  { split; [apply size_between; lra|]. split; intros H.
    - apply tweened_up; [exact H|]. apply eased_monotone, progress_monotone; assumption.
    - apply tweened_down; [exact H|]. apply eased_monotone, progress_monotone; assumption. }
  destruct (JS.ltb (progress_at startTime animationDuration (currentTime f)) 1).
  - cbn. constructor; [exact Hsize|]. apply IH, Hrest.
  - cbn [resizes flat_map app]. constructor; [exact Hsize|].
    fold (resizes (final_effects toSize onComplete)).
    destruct resizes_final as [-> | ->]; repeat constructor; apply Hto.
Qed.

Lemma resizes_sorted (frames : list Frame) :
  Forall (fun f => startTime <= currentTime f) frames ->
  StronglySorted (fun f g => currentTime f <= currentTime g) frames ->
  (fromSize <= toSize ->
   increasing (resizes (animate startTime animationDuration fromSize toSize onComplete frames)))
  /\ (toSize <= fromSize ->
      decreasing (resizes (animate startTime animationDuration fromSize toSize onComplete frames))).
Proof.
  intros Hstart Hsorted.
  induction Hsorted as [|f frames Hs IH Hf]; cbn [animate]; [split; intros; constructor|].
  inversion Hstart as [|? ? Hf0 Hrest]; subst.
  destruct (negb (JS.truthy startTime) || negb (handle f)); [split; intros; constructor|].
  destruct (IH Hrest) as [IHup IHdown].
  pose proof (resizes_after (currentTime f) frames Hf0 Hf) as Hafter.
  pose proof (size_between (currentTime f) Hf0) as [Hlow Hhigh].
  destruct (JS.ltb (progress_at startTime animationDuration (currentTime f)) 1).
  - cbn [resizes flat_map app].
    fold (resizes (animate startTime animationDuration fromSize toSize onComplete frames)).
    split; intros H; constructor.
    + apply IHup, H.
    + eapply Forall_impl; [|exact Hafter]. intros s (_ & Hs1 & _). auto.
    + apply IHdown, H.
    + eapply Forall_impl; [|exact Hafter]. intros s (_ & _ & Hs2). auto.
  - cbn [resizes flat_map app]. fold (resizes (final_effects toSize onComplete)).
    destruct resizes_final as [-> | ->]; split; intros H; repeat constructor.
    + fold size. rewrite Q.max_r in Hhigh; assumption.
    + fold size. rewrite Q.min_r in Hlow; assumption.
Qed.

End Overshoot.

(** X14.  The frame-driven tween never overshoots when no frame carries
    a time before the start time: every size it hands to [resize] lies
    between [fromSize] and [toSize]; and when the times of the frames do
    not decrease, the sizes move one way only. *)
Theorem frame_tween_never_overshoots
    (startTime animationDuration fromSize toSize : Q) (onComplete handle0 : bool)
    (frames : list FrameTween.Frame) :
  0 < animationDuration ->
  Forall (fun f => startTime <= FrameTween.currentTime f) frames ->
  let sizes :=
    FrameTween.resizes
      (FrameTween.animatePanel startTime animationDuration fromSize toSize onComplete
         handle0 frames) in
  Forall (between fromSize toSize) sizes
  /\ (StronglySorted (fun f g => FrameTween.currentTime f <= FrameTween.currentTime g) frames ->
      (fromSize <= toSize -> increasing sizes)
      /\ (toSize <= fromSize -> decreasing sizes)).
Proof.
  intros Hdur Hstart sizes. unfold sizes, FrameTween.animatePanel.
  destruct handle0; cbn [negb]; [|split; [constructor|split; intros; constructor]].
  cbn [FrameTween.resizes flat_map app].
  fold (FrameTween.resizes
          (FrameTween.animate startTime animationDuration fromSize toSize onComplete frames)).
  split.
  - destruct frames as [|f frames]; [constructor|].
    inversion Hstart as [|? ? Hf Hrest]; subst.
    eapply Forall_impl;
      [|exact (resizes_after startTime animationDuration fromSize toSize onComplete Hdur
                 startTime (f :: frames) (Qle_refl _) Hstart)].
    intros s (H & _). exact H.
  - intros Hsorted.
    exact (resizes_sorted startTime animationDuration fromSize toSize onComplete Hdur
             frames Hstart Hsorted).
Qed.

Lemma frame_tween_never_overshoots_example :
  Forall (between 25 0)
    (FrameTween.resizes
       (FrameTween.animatePanel 1000 300 25 0 true true [frame_at 1150; frame_at 1300])).
Proof.
  refine (proj1 (frame_tween_never_overshoots 1000 300 25 0 true true
                   [frame_at 1150; frame_at 1300] _ _)).
  - reflexivity.
  - repeat constructor; unfold Qle; cbn; lia.
Defined.

(** ** AnimatedResizableLayout and AnimatedVerticalLayout *)

Section TwoPanelFacts.

Import AnimatedResizableLayout.

Lemma steps_settle_nothing (a : Animation) (g : FrameTween.Frame -> Q)
    (pre : list FrameTween.Frame) (st : State) :
  fold_left (settle a)
    (flat_map (fun f => [FrameTween.Resize (g f); FrameTween.Request]) pre) st = st.
Proof.
  revert st. induction pre as [|f pre IH]; intros st; [reflexivity|].
  cbn [flat_map app fold_left settle]. apply IH.
Qed.

End TwoPanelFacts.

(** X15.  AnimatedResizableLayout, collapse then expand, both accepted
    and run to their ends.  The collapse sets [isCollapsed] at once and
    leaves the resize handle as it was until the run has ended; it ends
    with size 0 and the handle hidden, and the effect that runs once
    [isAnimating] has changed then makes the handle follow the
    [collapsed] prop.  The expand shows the handle at
    once and ends with the panel at [defaultSize], whatever its size was
    before the collapse. *)
Theorem two_panel_toggle_round_trip
    (p : AnimatedResizableLayout.Props) (st : AnimatedResizableLayout.State)
    (start1 start2 : Q)
    (pre1 : list FrameTween.Frame) (last1 : FrameTween.Frame) (post1 : list FrameTween.Frame)
    (pre2 : list FrameTween.Frame) (last2 : FrameTween.Frame) (post2 : list FrameTween.Frame) :
  0 < AnimatedResizableLayout.animationDuration p ->
  JS.truthy start1 = true ->
  JS.truthy start2 = true ->
  reaches_end start1 (AnimatedResizableLayout.animationDuration p) pre1 last1 ->
  reaches_end start2 (AnimatedResizableLayout.animationDuration p) pre2 last2 ->
  AnimatedResizableLayout.isAnimating st = false ->
  AnimatedResizableLayout.isDragging st = false ->
  let o1 := AnimatedResizableLayout.handleCollapse p st in
  let st1 :=
    fst (AnimatedResizableLayout.run p start1 true (pre1 ++ last1 :: post1) o1 st) in
  let o2 := AnimatedResizableLayout.handleExpand p st1 in
  let st2 :=
    fst (AnimatedResizableLayout.run p start2 true (pre2 ++ last2 :: post2) o2 st1) in
  o1 <> AnimatedResizableLayout.Rejected
  /\ AnimatedResizableLayout.isCollapsed (AnimatedResizableLayout.after o1 st) = true
  /\ AnimatedResizableLayout.hideHandle (AnimatedResizableLayout.after o1 st)
     = AnimatedResizableLayout.hideHandle st
  /\ st1 = {| AnimatedResizableLayout.isCollapsed := true;
              AnimatedResizableLayout.isAnimating := false;
              AnimatedResizableLayout.isDragging := false;
              AnimatedResizableLayout.hideHandle := true;
              AnimatedResizableLayout.currentSize := 0 |}
  /\ AnimatedResizableLayout.hideHandle (AnimatedResizableLayout.hideHandleEffect p st1)
     = AnimatedResizableLayout.collapsed p
  /\ o2 <> AnimatedResizableLayout.Rejected
  /\ AnimatedResizableLayout.hideHandle (AnimatedResizableLayout.after o2 st1) = false
  /\ st2 = {| AnimatedResizableLayout.isCollapsed := false;
              AnimatedResizableLayout.isAnimating := false;
              AnimatedResizableLayout.isDragging := false;
              AnimatedResizableLayout.hideHandle := false;
              AnimatedResizableLayout.currentSize := AnimatedResizableLayout.defaultSize p |}.
Proof.
  intros Hdur Hs1 Hs2 He1 He2 Hanim Hdrag o1 st1 o2 st2.
  assert (H1 : st1 = {| AnimatedResizableLayout.isCollapsed := true;
                        AnimatedResizableLayout.isAnimating := false;
                        AnimatedResizableLayout.isDragging := false;
                        AnimatedResizableLayout.hideHandle := true;
                        AnimatedResizableLayout.currentSize := 0 |}).
  { unfold st1, o1, AnimatedResizableLayout.handleCollapse. rewrite Hanim, Hdrag.
    cbn [orb AnimatedResizableLayout.run fst AnimatedResizableLayout.fromSize
         AnimatedResizableLayout.toSize].
    unfold FrameTween.animatePanel. cbn [negb].
    rewrite (animate_reaches_end _ _ _ _ _ Hdur pre1 last1 post1 Hs1 He1).
    cbn [fold_left AnimatedResizableLayout.settle]. rewrite fold_left_app.
    rewrite steps_settle_nothing.
    destruct st as [c a d h s]. cbn in Hanim, Hdrag. subst a d. reflexivity. }
  assert (Ho2 : o2 = AnimatedResizableLayout.handleExpand p st1) by reflexivity.
  rewrite H1 in Ho2. unfold AnimatedResizableLayout.handleExpand in Ho2.
  cbn [AnimatedResizableLayout.isAnimating AnimatedResizableLayout.isDragging orb] in Ho2.
  split; [unfold o1, AnimatedResizableLayout.handleCollapse; rewrite Hanim, Hdrag; discriminate|].
  split; [unfold o1, AnimatedResizableLayout.handleCollapse; rewrite Hanim, Hdrag; reflexivity|].
  split; [unfold o1, AnimatedResizableLayout.handleCollapse; rewrite Hanim, Hdrag; reflexivity|].
  split; [exact H1|].
  split; [rewrite H1; unfold AnimatedResizableLayout.hideHandleEffect; cbn;
          destruct (AnimatedResizableLayout.collapsed p); reflexivity|].
  split; [rewrite Ho2; discriminate|].
  split; [rewrite Ho2; reflexivity|].
  unfold st2. rewrite Ho2.
  cbn [AnimatedResizableLayout.run fst AnimatedResizableLayout.fromSize
       AnimatedResizableLayout.toSize].
  unfold FrameTween.animatePanel. cbn [negb].
  rewrite (animate_reaches_end _ _ _ _ _ Hdur pre2 last2 post2 Hs2 He2).
  cbn [fold_left AnimatedResizableLayout.settle]. rewrite fold_left_app.
  rewrite steps_settle_nothing.
  unfold FrameTween.final_effects.
  destruct (JS.is_zero (AnimatedResizableLayout.defaultSize p)); reflexivity.
Qed.

Lemma two_panel_toggle_round_trip_example :
  let p := two_panel_example in
  let st := AnimatedResizableLayout.handleResize 40 (AnimatedResizableLayout.initial p) in
  let st1 :=
    fst (AnimatedResizableLayout.run p 1000 true [frame_at 1150; frame_at 1300]
           (AnimatedResizableLayout.handleCollapse p st) st) in
  let st2 :=
    fst (AnimatedResizableLayout.run p 2000 true [frame_at 2100; frame_at 2400]
           (AnimatedResizableLayout.handleExpand p st1) st1) in
  AnimatedResizableLayout.currentSize st = 40
  /\ AnimatedResizableLayout.currentSize st1 = 0
  /\ AnimatedResizableLayout.currentSize st2 = 25.
Proof.
  cbv zeta.
  destruct (two_panel_toggle_round_trip two_panel_example
              (AnimatedResizableLayout.handleResize 40
                 (AnimatedResizableLayout.initial two_panel_example))
              1000 2000 [frame_at 1150] (frame_at 1300) [] [frame_at 2100] (frame_at 2400) [])
    as (_ & _ & _ & H1 & _ & _ & _ & H2).
  - reflexivity.
  - reflexivity.
  - reflexivity.
  - split; [|split]; [repeat constructor|reflexivity|unfold Qle; cbn; lia].
  - split; [|split]; [repeat constructor|reflexivity|unfold Qle; cbn; lia].
  - reflexivity.
  - reflexivity.
  - split; [reflexivity|]. split.
    + exact (f_equal AnimatedResizableLayout.currentSize H1).
    + exact (f_equal AnimatedResizableLayout.currentSize H2).
Defined.

(** X16.  AnimatedResizableLayout stays locked when the handle is lost:
    if the handle is null when an accepted collapse or expand calls
    [animatePanel], or in a frame that comes before the run has ended,
    the run stops without [collapse()] and without the completion
    callback, [isAnimating] stays true, and from then on every collapse,
    expand and toggle request is rejected and the resize callback is
    ignored. *)
Theorem two_panel_layout_locks_when_handle_lost
    (p : AnimatedResizableLayout.Props) (st : AnimatedResizableLayout.State)
    (startTime : Q) (handle0 : bool)
    (pre : list FrameTween.Frame) (lost : FrameTween.Frame) (post : list FrameTween.Frame)
    (o : AnimatedResizableLayout.Outcome) :
  0 < AnimatedResizableLayout.animationDuration p ->
  JS.truthy startTime = true ->
  Forall (fun f => FrameTween.handle f = true
                   /\ FrameTween.currentTime f - startTime
                      < AnimatedResizableLayout.animationDuration p) pre ->
  handle0 = false \/ FrameTween.handle lost = false ->
  o = AnimatedResizableLayout.handleCollapse p st
  \/ o = AnimatedResizableLayout.handleExpand p st ->
  o <> AnimatedResizableLayout.Rejected ->
  let st' := fst (AnimatedResizableLayout.run p startTime handle0 (pre ++ lost :: post) o st) in
  let trace :=
    snd (AnimatedResizableLayout.run p startTime handle0 (pre ++ lost :: post) o st) in
  FrameTween.completions trace = 0%nat
  /\ ~ In FrameTween.Collapse trace
  /\ st' = AnimatedResizableLayout.after o st
  /\ AnimatedResizableLayout.isAnimating st' = true
  /\ AnimatedResizableLayout.handleCollapse p st' = AnimatedResizableLayout.Rejected
  /\ AnimatedResizableLayout.handleExpand p st' = AnimatedResizableLayout.Rejected
  /\ AnimatedResizableLayout.togglePanel p st' = AnimatedResizableLayout.Rejected
  /\ forall size, AnimatedResizableLayout.handleResize size st' = st'.
Proof.
  intros Hdur Hstart Hpre Hlost Ho Hacc st' trace.
  assert (Hopen : AnimatedResizableLayout.isAnimating st
                  || AnimatedResizableLayout.isDragging st = false).
  { destruct Ho as [-> | ->];
      unfold AnimatedResizableLayout.handleCollapse, AnimatedResizableLayout.handleExpand in Hacc;
      destruct (AnimatedResizableLayout.isAnimating st || AnimatedResizableLayout.isDragging st);
      congruence. }
  assert (Hshape : exists next cb a,
             o = AnimatedResizableLayout.Started next cb a
             /\ AnimatedResizableLayout.isAnimating next = true).
  { destruct Ho as [-> | ->];
      unfold AnimatedResizableLayout.handleCollapse, AnimatedResizableLayout.handleExpand;
      rewrite Hopen; do 3 eexists; split; reflexivity. }
  destruct Hshape as (next & cb & a & -> & Hnext).
  set (t := FrameTween.animatePanel startTime (AnimatedResizableLayout.animationDuration p)
              (AnimatedResizableLayout.fromSize a) (AnimatedResizableLayout.toSize a)
              true handle0 (pre ++ lost :: post)).
  assert (Et : trace = t) by reflexivity.
  assert (Es : st' = fold_left (AnimatedResizableLayout.settle a) t next) by reflexivity.
  assert (Htrace : t = []
                   \/ t = FrameTween.Request
                        :: flat_map
                             (fun f =>
                                [FrameTween.Resize
                                   (FrameTween.size_at startTime
                                      (AnimatedResizableLayout.animationDuration p)
                                      (AnimatedResizableLayout.fromSize a)
                                      (AnimatedResizableLayout.toSize a)
                                      (FrameTween.currentTime f));
                                 FrameTween.Request]) pre).
  { unfold t, FrameTween.animatePanel.
    destruct handle0; cbn [negb]; [|left; reflexivity].
    destruct Hlost as [Hl|Hl]; [discriminate|]. right.
    rewrite (animate_until_handle_lost _ _ _ _ _ Hdur pre lost post Hstart Hpre Hl).
    reflexivity. }
  assert (Hst : st' = next).
  { rewrite Es. destruct Htrace as [-> | ->]; [reflexivity|].
    cbn [fold_left AnimatedResizableLayout.settle]. apply steps_settle_nothing. }
  assert (Hquiet : FrameTween.completions trace = 0%nat /\ ~ In FrameTween.Collapse trace).
  { rewrite Et. destruct Htrace as [-> | ->]; [split; [reflexivity|intros []]|].
    unfold FrameTween.completions. cbn [filter FrameTween.is_complete].
    rewrite (proj1 (no_completion_in_steps _ pre)). split; [reflexivity|].
    intros [H|H]; [discriminate|].
    apply in_flat_map in H. destruct H as (f & _ & [H|[H|[]]]); discriminate. }
  destruct Hquiet as [Hq1 Hq2].
  split; [exact Hq1|]. split; [exact Hq2|]. split; [exact Hst|].
  rewrite Hst.
  unfold AnimatedResizableLayout.togglePanel, AnimatedResizableLayout.handleCollapse,
    AnimatedResizableLayout.handleExpand, AnimatedResizableLayout.handleResize.
  rewrite Hnext. cbn [orb negb].
  repeat split. destruct (AnimatedResizableLayout.isCollapsed next); reflexivity.
Qed.

Lemma two_panel_layout_locks_when_handle_lost_example :
  let p := two_panel_example in
  let st := AnimatedResizableLayout.initial p in
  let st' :=
    fst (AnimatedResizableLayout.run p 1000 true
           [frame_at 1150; {| FrameTween.currentTime := 1200; FrameTween.handle := false |}]
           (AnimatedResizableLayout.handleCollapse p st) st) in
  AnimatedResizableLayout.isAnimating st' = true
  /\ AnimatedResizableLayout.togglePanel p st' = AnimatedResizableLayout.Rejected.
Proof.
  cbv zeta.
  destruct (two_panel_layout_locks_when_handle_lost two_panel_example
              (AnimatedResizableLayout.initial two_panel_example) 1000 true
              [frame_at 1150] {| FrameTween.currentTime := 1200; FrameTween.handle := false |} []
              (AnimatedResizableLayout.handleCollapse two_panel_example
                 (AnimatedResizableLayout.initial two_panel_example)))
    as (_ & _ & _ & H1 & _ & _ & H2 & _).
  - reflexivity.
  - reflexivity.
  - repeat constructor.
  - right. reflexivity.
  - left. reflexivity.
  - discriminate.
  - split; [exact H1|exact H2].
Defined.

(** X17.  In AnimatedResizableLayout and AnimatedVerticalLayout the
    function wired to [onDragging] of the resize handle sets the drag
    flag whatever it is called with, [false] included; every toggle
    request is then rejected, until the function wired to [onLayout]
    clears the flag. *)
Theorem onDragging_false_keeps_the_drag_flag :
  (forall p dragging st,
      let st' := AnimatedResizableLayout.onDragging dragging st in
      AnimatedResizableLayout.isDragging st' = true
      /\ AnimatedResizableLayout.handleCollapse p st' = AnimatedResizableLayout.Rejected
      /\ AnimatedResizableLayout.handleExpand p st' = AnimatedResizableLayout.Rejected
      /\ AnimatedResizableLayout.togglePanel p st' = AnimatedResizableLayout.Rejected
      /\ AnimatedResizableLayout.isDragging (AnimatedResizableLayout.handleDragEnd st') = false)
  /\ (forall p dragging st,
      let st' := AnimatedVerticalLayout.onDragging dragging st in
      AnimatedVerticalLayout.isDragging st' = true
      /\ AnimatedVerticalLayout.toggleTopPanel p st' = AnimatedVerticalLayout.Rejected
      /\ AnimatedVerticalLayout.toggleBottomPanel p st' = AnimatedVerticalLayout.Rejected
      /\ AnimatedVerticalLayout.isDragging (fst (AnimatedVerticalLayout.handleDragEnd p st'))
         = false).
Proof.
  split; intros p dragging st st'.
  - unfold st', AnimatedResizableLayout.onDragging, AnimatedResizableLayout.handleDragStart,
      AnimatedResizableLayout.togglePanel, AnimatedResizableLayout.handleCollapse,
      AnimatedResizableLayout.handleExpand.
    cbn. rewrite !orb_true_r. repeat split. destruct (AnimatedResizableLayout.isCollapsed st); reflexivity.
  - unfold st', AnimatedVerticalLayout.onDragging, AnimatedVerticalLayout.handleDragStart,
      AnimatedVerticalLayout.toggleTopPanel, AnimatedVerticalLayout.toggleBottomPanel,
      AnimatedVerticalLayout.handleTopCollapse, AnimatedVerticalLayout.handleTopExpand,
      AnimatedVerticalLayout.handleBottomCollapse, AnimatedVerticalLayout.handleBottomExpand.
    cbn. rewrite !orb_true_r. cbn.
    repeat split;
      [destruct (AnimatedVerticalLayout.isTopCollapsed st)
      |destruct (AnimatedVerticalLayout.isBottomCollapsed st)]; reflexivity.
Qed.

Section VerticalFacts.

Import AnimatedVerticalLayout.


End VerticalFacts.


(** ** SnapCarousel: the current panel and [scrollToPanel] *)

Section ClosestFacts.

Import SnapCarousel.

Variable snapPointX : Q.
Variable all : list Child.

Lemma closest_spec (panels : list Child) :
  forall done closestIndex closestDistance,
    all = done ++ panels ->
    scanned snapPointX all done closestIndex closestDistance ->
    panels <> [] \/ closestDistance <> None ->
    exists c,
      nth_error all (closest snapPointX panels (List.length done) closestIndex closestDistance)
      = Some c
      /\ forall j cj,
           nth_error all j = Some cj ->
           distance snapPointX c <= distance snapPointX cj
           /\ ((j < closest snapPointX panels (List.length done) closestIndex closestDistance)%nat
               -> distance snapPointX c < distance snapPointX cj).
Proof.
  induction panels as [|panel rest IH]; intros done ci cd Hall Hinv Hne.
  - cbn [closest]. destruct cd as [d|]; [|destruct Hne as [H|H]; congruence].
    destruct Hinv as (c & Hc & Hd & Hlt & Hmin & Hfirst).
    exists c. split; [exact Hc|]. intros j cj Hj. subst d.
    rewrite app_nil_r in Hall. subst done. split.
    + apply (Hmin j cj); [|exact Hj]. apply nth_error_Some. congruence.
    + intros Hlt'. apply (Hfirst j cj Hlt' Hj).
  - cbn [closest].
    assert (Hhere : nth_error all (List.length done) = Some panel).
    { rewrite Hall, nth_error_app2, Nat.sub_diag by lia. reflexivity. }
    assert (Hall' : all = (done ++ [panel]) ++ rest).
    { rewrite <- app_assoc. exact Hall. }
    assert (Hlen : List.length (done ++ [panel]) = S (List.length done)).
    { rewrite length_app. cbn. lia. }
    destruct (closer (distance snapPointX panel) cd) eqn:Hcloser.
    + rewrite <- Hlen. apply IH; [exact Hall'| |right; discriminate].
      exists panel. split; [exact Hhere|]. split; [reflexivity|].
      split; [lia|].
      destruct cd as [d|].
      * destruct Hinv as (c & Hc & Hd & Hlt & Hmin & Hfirst).
        cbn [closer] in Hcloser. apply ltb_lt in Hcloser.
        split; intros j cj Hj Hcj.
        -- destruct (Nat.eq_dec j (List.length done)) as [->|Hneq].
           ++ rewrite Hhere in Hcj. injection Hcj as <-. apply Qle_refl.
           ++ assert (d <= distance snapPointX cj) by (apply (Hmin j cj); [lia|exact Hcj]).
              lra.
        -- assert (d <= distance snapPointX cj) by (apply (Hmin j cj); [lia|exact Hcj]).
           lra.
      * cbn in Hinv. subst done. cbn [List.length app].
        split; intros j cj Hj Hcj.
        -- assert (j = 0%nat) by (cbn in Hj; lia). subst j.
           cbn [List.length] in Hhere. rewrite Hhere in Hcj. injection Hcj as <-.
           apply Qle_refl.
        -- cbn in Hj. lia.
    + destruct cd as [d|]; [|discriminate].
      rewrite <- Hlen. apply IH; [exact Hall'| |right; discriminate].
      destruct Hinv as (c & Hc & Hd & Hlt & Hmin & Hfirst).
      cbn [closer] in Hcloser. apply ltb_ge in Hcloser.
      exists c. split; [exact Hc|]. split; [exact Hd|]. split; [lia|].
      split; [|exact Hfirst].
      intros j cj Hj Hcj.
      destruct (Nat.eq_dec j (List.length done)) as [->|Hneq].
      * rewrite Hhere in Hcj. injection Hcj as <-. exact Hcloser.
      * apply (Hmin j cj); [lia|exact Hcj].
Qed.

End ClosestFacts.

(** X19.  For a carousel with at least one panel, [getCurrentPanel]
    returns the index of a panel whose left edge is nearest to the left
    edge of the container, and the first such index when several panels
    are equally near; [handleScroll], when it reports, reports that
    index. *)
Theorem getCurrentPanel_finds_the_closest_panel (container : SnapCarousel.Container) :
  SnapCarousel.children container <> [] ->
  let i := SnapCarousel.getCurrentPanel (Some container) in
  let dist := SnapCarousel.distance (SnapCarousel.container_left container) in
  exists c,
    nth_error (SnapCarousel.children container) i = Some c
    /\ (forall j cj,
          nth_error (SnapCarousel.children container) j = Some cj ->
          dist c <= dist cj /\ ((j < i)%nat -> dist c < dist cj))
    /\ SnapCarousel.handleScroll true (Some container) false = Some i.
Proof.
  intros Hne i dist.
  assert (Hi : i = SnapCarousel.closest (SnapCarousel.container_left container)
                     (SnapCarousel.children container) 0 0 None).
  { unfold i, SnapCarousel.getCurrentPanel.
    destruct (SnapCarousel.children container); [congruence|reflexivity]. }
  destruct (closest_spec (SnapCarousel.container_left container)
              (SnapCarousel.children container) (SnapCarousel.children container)
              [] 0%nat None eq_refl eq_refl (or_introl Hne)) as (c & Hc & Hmin).
  cbn [List.length] in Hc, Hmin. rewrite <- Hi in Hc, Hmin.
  exists c. split; [exact Hc|]. split; [exact Hmin|].
  unfold SnapCarousel.handleScroll. cbn [negb]. rewrite Hi.
  destruct (SnapCarousel.children container); [congruence|reflexivity].
Qed.

Lemma getCurrentPanel_finds_the_closest_panel_example :
  SnapCarousel.getCurrentPanel (Some three_children) = 1%nat
  /\ exists c,
       nth_error (SnapCarousel.children three_children)
         (SnapCarousel.getCurrentPanel (Some three_children)) = Some c
       /\ SnapCarousel.distance 10 c == 0.
Proof.
  split; [reflexivity|].
  destruct (getCurrentPanel_finds_the_closest_panel three_children) as (c & Hc & _).
  - discriminate.
  - exists c. split; [exact Hc|].
    change (SnapCarousel.getCurrentPanel (Some three_children)) with 1%nat in Hc.
    cbn in Hc. injection Hc as <-. reflexivity.
Defined.

(** X20.  [scrollToPanel] does nothing when the container is missing or
    the index is negative or not below the number of panels: no scroll,
    no timer, and the flag is left alone.  With an index in range it
    clears the pending timeout if there is one, scrolls to the
    [offsetLeft] of that panel and sets a timeout of 500; from then on
    [handleScroll] reports nothing, until the timeout fires, after which
    it reports the current panel again. *)
Theorem scrollToPanel_checks_the_index
    (container : SnapCarousel.Container) (index : Z) (fresh : nat) (refs : SnapCarousel.Refs)
    (onPanelChange : bool) :
  let refs' := fst (SnapCarousel.scrollToPanel (Some container) index fresh refs) in
  let effects := snd (SnapCarousel.scrollToPanel (Some container) index fresh refs) in
  SnapCarousel.scrollToPanel None index fresh refs = (refs, [])
  /\ ((index < 0)%Z \/ (Z.of_nat (List.length (SnapCarousel.children container)) <= index)%Z ->
      refs' = refs /\ effects = [])
  /\ ((0 <= index < Z.of_nat (List.length (SnapCarousel.children container)))%Z ->
      exists target,
        nth_error (SnapCarousel.children container) (Z.to_nat index) = Some target
        /\ effects
           = (match SnapCarousel.scrollTimeout refs with
              | Some old => [SnapCarousel.ClearTimeout old]
              | None => []
              end)
             ++ [SnapCarousel.ScrollTo (SnapCarousel.offsetLeft target);
                 SnapCarousel.SetTimeout fresh 500]
        /\ SnapCarousel.isProgrammaticScroll refs' = true
        /\ SnapCarousel.handleScroll onPanelChange (Some container)
             (SnapCarousel.isProgrammaticScroll refs') = None
        /\ SnapCarousel.isProgrammaticScroll (SnapCarousel.timeoutFires refs') = false
        /\ SnapCarousel.handleScroll true (Some container)
             (SnapCarousel.isProgrammaticScroll (SnapCarousel.timeoutFires refs'))
           = Some (SnapCarousel.getCurrentPanel (Some container))).
Proof.
  cbv zeta. split; [reflexivity|].
  unfold SnapCarousel.scrollToPanel, SnapCarousel.child, TabGroup.index. split.
  - intros [H|H].
    + apply Z.ltb_lt in H. rewrite H. split; reflexivity.
    + destruct (index <? 0)%Z; [split; reflexivity|].
      assert (Hnone : nth_error (SnapCarousel.children container) (Z.to_nat index) = None)
        by (apply nth_error_None; lia).
      rewrite Hnone. split; reflexivity.
  - intros [H0 H1].
    assert (Hpos : (index <? 0)%Z = false) by (apply Z.ltb_ge; lia).
    rewrite Hpos.
    destruct (nth_error (SnapCarousel.children container) (Z.to_nat index)) as [target|] eqn:E;
      [|apply nth_error_None in E; lia].
    exists target. split; [reflexivity|]. cbn [fst snd SnapCarousel.isProgrammaticScroll].
    split; [reflexivity|]. split; [reflexivity|].
    unfold SnapCarousel.handleScroll, SnapCarousel.getCurrentPanel. cbn [negb].
    destruct (SnapCarousel.children container) as [|c cs] eqn:Ec.
    + destruct (Z.to_nat index); discriminate.
    + destruct onPanelChange; repeat split.
Qed.

(** ** TabGroup: the tabs and a click on one *)

(** X21.  The tabs of a TabGroup are the panel ids that resolve to a
    panel, in the order of [panelIds]; ids that resolve to nothing are
    left out.  In an uncontrolled group a click on a tab makes that tab
    the displayed one and its panel the active panel.  In a controlled
    group a click changes neither the internal index nor the displayed
    tab. *)
Theorem tab_click_selects_the_tab
    (panelIds : list string) (panels : list TabGroup.PanelDefinitionWithContent)
    (config : TabGroup.TabsConfig) (internalIndex index : Z) :
  let tabs := TabGroup.tabPanels panelIds panels in
  let clicked := TabGroup.handleTabClick config index internalIndex in
  map TabGroup.id tabs
  = filter (fun i => existsb (fun p => String.eqb (TabGroup.id p) i) panels) panelIds
  /\ (TabGroup.activeTabIndex config = None ->
      (0 <= index < Z.of_nat (List.length tabs))%Z ->
      TabGroup.displayedIndex panelIds panels config clicked = index
      /\ TabGroup.activePanel panelIds panels config clicked
         = nth_error tabs (Z.to_nat index))
  /\ (TabGroup.activeTabIndex config <> None ->
      clicked = internalIndex
      /\ TabGroup.displayedIndex panelIds panels config clicked
         = TabGroup.displayedIndex panelIds panels config internalIndex).
Proof.
  cbv zeta. split; [|split].
  - unfold TabGroup.tabPanels. induction panelIds as [|i ids IH]; [reflexivity|].
    cbn [flat_map filter]. rewrite map_app, IH.
    destruct (find (fun p => String.eqb (TabGroup.id p) i) panels) as [p|] eqn:E.
    + assert (Hex : existsb (fun p => String.eqb (TabGroup.id p) i) panels = true).
      { apply existsb_exists. exists p. apply find_some in E. exact E. }
      rewrite Hex. cbn [map app]. apply find_some in E. destruct E as [_ E].
      apply String.eqb_eq in E. now rewrite E.
    + assert (Hex : existsb (fun p => String.eqb (TabGroup.id p) i) panels = false).
      { destruct (existsb _ panels) eqn:Ex; [|reflexivity].
        apply existsb_exists in Ex. destruct Ex as (p & Hin & Hp).
        pose proof (find_none _ _ E p Hin) as Hn. cbn in Hn. congruence. }
      now rewrite Hex.
  - intros Hfree [H0 H1].
    unfold TabGroup.displayedIndex, TabGroup.activePanel, TabGroup.activeIndex,
      TabGroup.handleTabClick, TabGroup.safeActiveIndex, TabGroup.index.
    rewrite Hfree.
    assert (Hmin : Z.min index (Z.of_nat (List.length (TabGroup.tabPanels panelIds panels)) - 1)
                   = index) by lia.
    rewrite Hmin. split; [reflexivity|].
    assert (Hpos : (index <? 0)%Z = false) by (apply Z.ltb_ge; lia).
    now rewrite Hpos.
  - intros Hcontrolled.
    unfold TabGroup.handleTabClick.
    destruct (TabGroup.activeTabIndex config); [split; reflexivity|congruence].
Qed.

(** ** PanelConfigurator: swap, removal, tab mode and assignment *)

Section ConfiguratorFurther.

Import PanelConfigurator.

Lemma get_set_raw (pos pos' : Region) (v : option PanelSlot) (l : PanelLayout) :
  get (set_raw pos v l) pos' = if region_eqb pos pos' then v else get l pos'.
Proof. destruct pos, pos'; reflexivity. Qed.

Lemma layout_ext (l l' : PanelLayout) : (forall pos, get l pos = get l' pos) -> l = l'.
Proof.
  intros H. destruct l as [a b c], l' as [a' b' c'].
  pose proof (H Left) as HL. pose proof (H Middle) as HM. pose proof (H Right) as HR.
  cbn in HL, HM, HR. congruence.
Qed.

End ConfiguratorFurther.

(** X22.  PanelConfigurator, a click on a slot while a slot is selected.
    On the selected slot itself it changes nothing and keeps the
    selection.  On another slot it exchanges the contents of the two
    slots, leaves the third slot alone, clears the selection, keeps
    every panel in use that was in use; and the same click on the
    resulting layout gives back the layout one started from. *)
Theorem slot_swap_is_an_involution
    (l : PanelConfigurator.PanelLayout) (selected position : Region) :
  let click := fun layout =>
    PanelConfigurator.handleSlotClick layout
      (Some (PanelConfigurator.SlotSelected selected)) position in
  (selected = position ->
   PanelConfigurator.changed (click l) = None
   /\ PanelConfigurator.selection (click l) = Some (PanelConfigurator.SlotSelected selected))
  /\ (selected <> position ->
      exists l1,
        PanelConfigurator.changed (click l) = Some l1
        /\ PanelConfigurator.selection (click l) = None
        /\ PanelConfigurator.get l1 selected = PanelConfigurator.get l position
        /\ PanelConfigurator.get l1 position = PanelConfigurator.get l selected
        /\ (forall other, other <> selected -> other <> position ->
            PanelConfigurator.get l1 other = PanelConfigurator.get l other)
        /\ (forall panelId,
            PanelConfigurator.isPanelInUse l1 panelId = PanelConfigurator.isPanelInUse l panelId)
        /\ PanelConfigurator.changed (click l1) = Some l).
Proof.
  cbv zeta. split.
  - intros ->. unfold PanelConfigurator.handleSlotClick. destruct position; split; reflexivity.
  - intros Hne. unfold PanelConfigurator.handleSlotClick.
    destruct l as [a b c].
    destruct selected, position; try congruence; cbn;
      (eexists; split; [reflexivity|]; split; [reflexivity|]; split; [reflexivity|];
       split; [reflexivity|]; split;
       [intros [] H1 H2; congruence || reflexivity
       |split; [intros panelId; unfold PanelConfigurator.isPanelInUse; cbn;
                destruct (PanelConfigurator.includes (PanelConfigurator.getPanelIdsFromSlot a) panelId),
                  (PanelConfigurator.includes (PanelConfigurator.getPanelIdsFromSlot b) panelId),
                  (PanelConfigurator.includes (PanelConfigurator.getPanelIdsFromSlot c) panelId);
                reflexivity
               |reflexivity]]).
Qed.

Section RemoveFacts.

Import PanelConfigurator.

Lemma get_removePanelAt (panelId : string) (q pos : Region) (l : PanelLayout) :
  get (removePanelAt panelId q l) pos
  = if region_eqb q pos then slot_without panelId (get l pos) else get l pos.
Proof.
  unfold removePanelAt, slot_without.
  destruct (region_eqb q pos) eqn:Eq.
  - apply region_eqb_eq in Eq. subst q.
    destruct (get l pos) as [[s| |g]|] eqn:E; try (rewrite E; reflexivity).
    + destruct (String.eqb s panelId); [|exact E].
      rewrite get_set. now rewrite (proj2 (region_eqb_eq pos pos) eq_refl).
    + destruct (without panelId (panels g)) as [|a [|b t]];
        rewrite get_set; now rewrite (proj2 (region_eqb_eq pos pos) eq_refl).
  - destruct (get l q) as [[s| |g]|]; try reflexivity.
    + destruct (String.eqb s panelId); [|reflexivity]. rewrite get_set. now rewrite Eq.
    + destruct (without panelId (panels g)) as [|a [|b t]]; rewrite get_set; now rewrite Eq.
Qed.

Lemma get_removePanelFromLayout (panelId : string) (pos : Region) (l : PanelLayout) :
  get (removePanelFromLayout l panelId) pos = slot_without panelId (get l pos).
Proof.
  unfold removePanelFromLayout. cbn [fold_left].
  rewrite !get_removePanelAt. destruct pos; reflexivity.
Qed.

Lemma without_without (panelId : string) (ids : list string) :
  without panelId (without panelId ids) = without panelId ids.
Proof.
  unfold without. induction ids as [|i ids IH]; [reflexivity|].
  cbn [filter]. destruct (negb (i =? panelId)%string) eqn:E; [|exact IH].
  cbn [filter]. rewrite E, IH. reflexivity.
Qed.

Lemma slot_without_twice (panelId : string) (slot : option PanelSlot) :
  slot_without panelId (slot_without panelId slot) = slot_without panelId slot.
Proof.
  destruct slot as [[s| |g]|]; try reflexivity; cbn [slot_without].
  - destruct (String.eqb s panelId) eqn:E; [reflexivity|]. cbn [slot_without]. now rewrite E.
  - pose proof (without_without panelId (panels g)) as H.
    destruct (without panelId (panels g)) as [|a [|b t]] eqn:F; [reflexivity| |].
    + cbn [slot_without]. cbn [without filter] in H.
      destruct (negb (a =? panelId)%string) eqn:E; [|discriminate].
      apply negb_true_iff in E. now rewrite E.
    + cbn [slot_without panels with_panels]. rewrite H.
      destruct g; reflexivity.
Qed.

End RemoveFacts.

(** X23.  [removePanelFromLayout] takes the panel out of every slot and
    group and keeps the other ids in place and in order; afterwards the
    panel is not in use.  It also dissolves every group left with fewer
    than two panels, also one that never held the panel: a group it
    leaves has at least two panels and is the old group with the panel
    filtered out.  Removing the same panel again changes nothing. *)
Theorem removePanelFromLayout_dissolves_small_groups
    (l : PanelConfigurator.PanelLayout) (panelId : string) :
  let l' := PanelConfigurator.removePanelFromLayout l panelId in
  (forall pos, ids_at l' pos = PanelConfigurator.without panelId (ids_at l pos))
  /\ PanelConfigurator.isPanelInUse l' panelId = false
  /\ (forall pos g,
        PanelConfigurator.get l' pos = Some (PanelConfigurator.Group g) ->
        (2 <= List.length (PanelConfigurator.panels g))%nat
        /\ exists g0,
             PanelConfigurator.get l pos = Some (PanelConfigurator.Group g0)
             /\ g = PanelConfigurator.with_panels g0
                      (PanelConfigurator.without panelId (PanelConfigurator.panels g0)))
  /\ (forall pos g,
        PanelConfigurator.get l pos = Some (PanelConfigurator.Group g) ->
        (List.length (PanelConfigurator.without panelId (PanelConfigurator.panels g)) < 2)%nat ->
        PanelConfigurator.isGroup (PanelConfigurator.get l' pos) = None)
  /\ PanelConfigurator.removePanelFromLayout l' panelId = l'.
Proof.
  cbv zeta. split; [|split; [|split; [|split]]].
  - intros pos. apply ids_at_removePanelFromLayout.
  - unfold PanelConfigurator.isPanelInUse.
    assert (H : forall pos,
               PanelConfigurator.includes
                 (ids_at (PanelConfigurator.removePanelFromLayout l panelId) pos) panelId
               = false).
    { intros pos.
      destruct (PanelConfigurator.includes _ panelId) eqn:E; [|reflexivity].
      apply includes_In in E. exfalso. exact (removePanelFromLayout_gone panelId pos l E). }
    pose proof (H Left) as HL. pose proof (H Middle) as HM. pose proof (H Right) as HR.
    unfold ids_at in HL, HM, HR. cbn [PanelConfigurator.get] in HL, HM, HR.
    rewrite HL, HM, HR. reflexivity.
  - intros pos g. rewrite get_removePanelFromLayout. unfold slot_without.
    destruct (PanelConfigurator.get l pos) as [[s| |g0]|]; try discriminate.
    + destruct (String.eqb s panelId); discriminate.
    + destruct (PanelConfigurator.without panelId (PanelConfigurator.panels g0))
        as [|a [|b t]] eqn:F; try discriminate.
      intros H. injection H as <-. cbn [PanelConfigurator.panels PanelConfigurator.with_panels].
      split; [cbn; lia|]. exists g0. split; [reflexivity|]. now rewrite F.
  - intros pos g Hg Hlen. rewrite get_removePanelFromLayout, Hg. unfold slot_without.
    destruct (PanelConfigurator.without panelId (PanelConfigurator.panels g)) as [|a [|b t]];
      [reflexivity|reflexivity|cbn in Hlen; lia].
  - apply layout_ext. intros pos.
    rewrite !get_removePanelFromLayout. apply slot_without_twice.
Qed.

(** X24.  [toggleTabMode].  On a slot that holds a single panel it
    makes a tab group of that panel and selects the slot, and a second
    toggle gives back the layout one started from.  On a tab group it
    keeps the first panel of the group only, as a single panel, and
    drops the others from the layout.  On any other slot (empty, a tiles
    group, the empty id) it makes an empty tab group. *)
Theorem tab_mode_round_trip (l : PanelConfigurator.PanelLayout) (position : Region) :
  let toggle := fun layout => PanelConfigurator.toggleTabMode layout position in
  (forall s,
      s <> EmptyString ->
      PanelConfigurator.get l position = Some (PanelConfigurator.PanelId s) ->
      exists l1 g,
        PanelConfigurator.changed (toggle l) = Some l1
        /\ PanelConfigurator.selection (toggle l)
           = Some (PanelConfigurator.SlotSelected position)
        /\ PanelConfigurator.isTabs (PanelConfigurator.get l1 position) = Some g
        /\ PanelConfigurator.panels g = [s]
        /\ PanelConfigurator.changed (toggle l1) = Some l
        /\ PanelConfigurator.selection (toggle l1) = None)
  /\ (forall g,
        PanelConfigurator.isTabs (PanelConfigurator.get l position) = Some g ->
        exists l1,
          PanelConfigurator.changed (toggle l) = Some l1
          /\ ids_at l1 position = firstn 1 (PanelConfigurator.panels g)
          /\ PanelConfigurator.isGroup (PanelConfigurator.get l1 position) = None
          /\ (forall other, other <> position ->
              PanelConfigurator.get l1 other = PanelConfigurator.get l other))
  /\ (PanelConfigurator.isTabs (PanelConfigurator.get l position) = None ->
      (forall s, PanelConfigurator.get l position <> Some (PanelConfigurator.PanelId s)
                 \/ s = EmptyString) ->
      exists l1 g,
        PanelConfigurator.changed (toggle l) = Some l1
        /\ PanelConfigurator.isTabs (PanelConfigurator.get l1 position) = Some g
        /\ PanelConfigurator.panels g = []).
Proof.
  cbv zeta. unfold PanelConfigurator.toggleTabMode. split; [|split].
  - intros s Hs Hget. rewrite Hget. cbn [PanelConfigurator.isTabs PanelConfigurator.isGroup].
    destruct (String.eqb s EmptyString) eqn:E; [apply String.eqb_eq in E; congruence|].
    do 2 eexists. split; [reflexivity|]. split; [reflexivity|].
    rewrite get_set, (proj2 (region_eqb_eq position position) eq_refl).
    cbn [PanelConfigurator.isTabs PanelConfigurator.isGroup PanelConfigurator.type
         PanelConfigurator.panels PanelConfigurator.changed PanelConfigurator.selection].
    split; [reflexivity|]. split; [reflexivity|]. split; [|reflexivity].
    f_equal. apply layout_ext. intros pos. rewrite !get_set.
    destruct (region_eqb position pos) eqn:Eq; [|reflexivity].
    apply region_eqb_eq in Eq. subst pos. now rewrite Hget.
  - intros g Hg. rewrite Hg. eexists. split; [reflexivity|].
    unfold ids_at. rewrite get_set, (proj2 (region_eqb_eq position position) eq_refl).
    split; [destruct (PanelConfigurator.panels g); reflexivity|].
    split; [destruct (PanelConfigurator.panels g); reflexivity|].
    intros other Hne. rewrite get_set.
    assert (E : region_eqb position other = false) by (apply region_eqb_neq; congruence).
    now rewrite E.
  - intros Hnone Hnot. rewrite Hnone.
    do 2 eexists. split; [reflexivity|].
    rewrite get_set, (proj2 (region_eqb_eq position position) eq_refl).
    cbn [PanelConfigurator.isTabs PanelConfigurator.isGroup PanelConfigurator.type
         PanelConfigurator.panels].
    split; [reflexivity|].
    destruct (PanelConfigurator.get l position) as [[s| |g]|]; try reflexivity.
    destruct (String.eqb s EmptyString) eqn:E; [reflexivity|].
    destruct (Hnot s) as [H|H]; [congruence|].
    subst s. discriminate.
Qed.

(** X25.  Assigning a panel to a slot, by a click on the slot with the
    panel selected or by a click on the panel with the slot selected:
    the two ways pass the same layout to [onChange].  A slot that is not
    a tab group then holds that panel alone, whatever it held before, and
    the selection is cleared.  A tab group that does not hold the panel
    gets it appended.  In both cases the panel is taken out of the other
    slots.  A tab group that holds the panel already loses it, and the
    other slots are left as they are. *)
Theorem panel_assignment_replaces_or_toggles
    (l : PanelConfigurator.PanelLayout) (position : Region) (panelId : string) :
  let bySlot :=
    PanelConfigurator.handleSlotClick l (Some (PanelConfigurator.PanelSelected panelId))
      position in
  let byPanel :=
    PanelConfigurator.handlePanelClick l (Some (PanelConfigurator.SlotSelected position))
      panelId in
  PanelConfigurator.changed bySlot = PanelConfigurator.changed byPanel
  /\ exists l',
       PanelConfigurator.changed bySlot = Some l'
       /\ (PanelConfigurator.isTabs (PanelConfigurator.get l position) = None ->
           PanelConfigurator.get l' position = Some (PanelConfigurator.PanelId panelId)
           /\ (forall other, other <> position ->
               ids_at l' other = PanelConfigurator.without panelId (ids_at l other))
           /\ PanelConfigurator.selection bySlot = None
           /\ PanelConfigurator.selection byPanel = None)
       /\ (forall g,
             PanelConfigurator.isTabs (PanelConfigurator.get l position) = Some g ->
             PanelConfigurator.includes (PanelConfigurator.panels g) panelId = false ->
             PanelConfigurator.get l' position
             = Some (PanelConfigurator.Group
                       (PanelConfigurator.with_panels g
                          (PanelConfigurator.panels g ++ [panelId])))
             /\ (forall other, other <> position ->
                 ids_at l' other = PanelConfigurator.without panelId (ids_at l other))
             /\ PanelConfigurator.selection byPanel
                = Some (PanelConfigurator.SlotSelected position))
       /\ (forall g,
             PanelConfigurator.isTabs (PanelConfigurator.get l position) = Some g ->
             PanelConfigurator.includes (PanelConfigurator.panels g) panelId = true ->
             PanelConfigurator.get l' position
             = Some (PanelConfigurator.Group
                       (PanelConfigurator.with_panels g
                          (PanelConfigurator.without panelId (PanelConfigurator.panels g))))
             /\ (forall other, other <> position ->
                 PanelConfigurator.get l' other = PanelConfigurator.get l other)
             /\ PanelConfigurator.selection byPanel
                = Some (PanelConfigurator.SlotSelected position)).
Proof.
  cbv zeta. cbn [PanelConfigurator.handleSlotClick PanelConfigurator.handlePanelClick].
  unfold PanelConfigurator.assign, PanelConfigurator.togglePanelInTabGroup.
  assert (Hother : forall v other,
             other <> position ->
             ids_at (PanelConfigurator.set position v
                       (PanelConfigurator.removePanelFromLayout l panelId)) other
             = PanelConfigurator.without panelId (ids_at l other)).
  { intros v other Hne. unfold ids_at at 1. rewrite get_set.
    assert (E : region_eqb position other = false) by (apply region_eqb_neq; congruence).
    rewrite E. apply ids_at_removePanelFromLayout. }
  assert (Hsame : forall v (layout : PanelConfigurator.PanelLayout),
             PanelConfigurator.get (PanelConfigurator.set position v layout) position = Some v).
  { intros v layout. rewrite get_set. now rewrite (proj2 (region_eqb_eq position position) eq_refl). }
  destruct (PanelConfigurator.isTabs (PanelConfigurator.get l position)) as [g|] eqn:Et.
  - destruct (PanelConfigurator.includes (PanelConfigurator.panels g) panelId) eqn:Ei;
      cbn [PanelConfigurator.changed PanelConfigurator.selection];
      (split; [reflexivity|]);
      (eexists; split; [reflexivity|]);
      (split; [discriminate|]); split; intros g' Hg' Hin; injection Hg' as <-; try congruence.
    + split; [apply Hsame|]. split; [|reflexivity].
      intros other Hne. rewrite get_set.
      assert (E : region_eqb position other = false) by (apply region_eqb_neq; congruence).
      now rewrite E.
    + split; [apply Hsame|]. split; [apply Hother|reflexivity].
  - cbn [PanelConfigurator.changed PanelConfigurator.selection].
    split; [reflexivity|].
    eexists. split; [reflexivity|]. split; [|split; discriminate].
    intros _. split; [apply Hsame|]. split; [apply Hother|]. split; reflexivity.
Qed.

(** ** ResponsiveConfigurablePanelLayout: the mobile slots *)

Section ResponsiveFacts.

Import ResponsiveConfigurablePanelLayout.

Lemma processSlot_shown (panels : list TabGroup.PanelDefinitionWithContent)
    (s : option PanelConfigurator.PanelSlot) (r : Region) :
  map slot (keep (processSlot panels s r)) = if shown s then [r] else [].
Proof.
  destruct s as [[i| |g]|]; try reflexivity.
  cbn. destruct (PanelConfigurator.type g); reflexivity.
Qed.

Lemma mobileSlots_slots (layout : PanelConfigurator.PanelLayout)
    (panels : list TabGroup.PanelDefinitionWithContent) :
  map slot (mobileSlots layout panels)
  = filter (fun r => shown (PanelConfigurator.get layout r)) [Left; Middle; Right].
Proof.
  unfold mobileSlots. cbn [flat_map filter]. rewrite !map_app, !processSlot_shown.
  cbn [map app].
  destruct (shown (PanelConfigurator.get layout Left)),
    (shown (PanelConfigurator.get layout Middle)),
    (shown (PanelConfigurator.get layout Right)); reflexivity.
Qed.

Lemma index_map {A B : Type} (f : A -> B) (l : list A) (i : Z) :
  TabGroup.index (map f l) i = option_map f (TabGroup.index l i).
Proof.
  unfold TabGroup.index. destruct (i <? 0)%Z; [reflexivity|]. apply nth_error_map.
Qed.

End ResponsiveFacts.

(** X26.  The mobile layout of ResponsiveConfigurablePanelLayout shows,
    in the order left, middle, right, exactly the slots that hold a
    panel id or a group of tabs: at most three, none when no slot holds
    one, and never a slot that holds a tiles group. *)
Theorem mobile_slots_follow_the_layout
    (layout : PanelConfigurator.PanelLayout)
    (panels : list TabGroup.PanelDefinitionWithContent) :
  let slots := ResponsiveConfigurablePanelLayout.mobileSlots layout panels in
  map ResponsiveConfigurablePanelLayout.slot slots
  = filter (fun r => shown (PanelConfigurator.get layout r)) [Left; Middle; Right]
  /\ (List.length slots <= 3)%nat
  /\ (slots = [] <->
      forall r, shown (PanelConfigurator.get layout r) = false)
  /\ (forall r g,
        PanelConfigurator.get layout r = Some (PanelConfigurator.Group g) ->
        PanelConfigurator.type g = PanelConfigurator.tiles ->
        forall info, In info slots -> ResponsiveConfigurablePanelLayout.slot info <> r).
Proof.
  cbv zeta.
  pose proof (mobileSlots_slots layout panels) as H.
  split; [exact H|]. split; [|split].
  - rewrite <- (length_map ResponsiveConfigurablePanelLayout.slot), H.
    cbn [filter].
    destruct (shown (PanelConfigurator.get layout Left)),
      (shown (PanelConfigurator.get layout Middle)),
      (shown (PanelConfigurator.get layout Right)); cbn; lia.
  - split.
    + intros E. rewrite E in H. cbn [map filter] in H.
      destruct (shown (PanelConfigurator.get layout Left)) eqn:E1,
        (shown (PanelConfigurator.get layout Middle)) eqn:E2,
        (shown (PanelConfigurator.get layout Right)) eqn:E3; try discriminate.
      intros []; assumption.
    + intros Hnone. cbn [filter] in H.
      rewrite (Hnone Left), (Hnone Middle), (Hnone Right) in H.
      destruct (ResponsiveConfigurablePanelLayout.mobileSlots layout panels);
        [reflexivity|discriminate].
  - intros r g Hg Htiles info Hin Hr.
    assert (Hs : In r (map ResponsiveConfigurablePanelLayout.slot
                         (ResponsiveConfigurablePanelLayout.mobileSlots layout panels))).
    { rewrite <- Hr. apply in_map, Hin. }
    rewrite H in Hs. apply filter_In in Hs. destruct Hs as [_ Hs].
    rewrite Hg in Hs. cbn in Hs. rewrite Htiles in Hs. discriminate.
Qed.

(** X27.  A tab click or a panel change of the mobile layout stores the
    index it is given, in range or not, and calls [onMobilePanelChange]
    only for an index in the range of the shown slots.  The index it
    passes is the position of the slot among the shown slots: it is at
    most the position of the slot in the row (left 0, middle 1, right
    2), and equal to it exactly when every slot to the left of it is
    shown as well. *)
Theorem mobile_panel_change_counts_shown_slots
    (layout : PanelConfigurator.PanelLayout)
    (panels : list TabGroup.PanelDefinitionWithContent)
    (carousel user : bool) (index : Z) :
  let slots := ResponsiveConfigurablePanelLayout.mobileSlots layout panels in
  let click := ResponsiveConfigurablePanelLayout.handleTabClick carousel true slots index in
  let change := ResponsiveConfigurablePanelLayout.handlePanelChange user true slots index in
  ResponsiveConfigurablePanelLayout.activeTabIndex click = index
  /\ ResponsiveConfigurablePanelLayout.activeTabIndex change = index
  /\ ResponsiveConfigurablePanelLayout.onMobilePanelChange change
     = ResponsiveConfigurablePanelLayout.onMobilePanelChange click
  /\ ((index < 0)%Z \/ (Z.of_nat (List.length slots) <= index)%Z ->
      ResponsiveConfigurablePanelLayout.onMobilePanelChange click = None)
  /\ (forall i s,
        ResponsiveConfigurablePanelLayout.onMobilePanelChange click = Some (i, s) ->
        i = index
        /\ (0 <= index < Z.of_nat (List.length slots))%Z
        /\ shown (PanelConfigurator.get layout s) = true
        /\ (index <= Z.of_nat (ConfigurablePanelLayout.indexOf s))%Z
        /\ (index = Z.of_nat (ConfigurablePanelLayout.indexOf s)
            <-> forall r,
                  (ConfigurablePanelLayout.indexOf r < ConfigurablePanelLayout.indexOf s)%nat ->
                  shown (PanelConfigurator.get layout r) = true)).
Proof.
  cbv zeta.
  cbn [ResponsiveConfigurablePanelLayout.handleTabClick
       ResponsiveConfigurablePanelLayout.handlePanelChange
       ResponsiveConfigurablePanelLayout.activeTabIndex
       ResponsiveConfigurablePanelLayout.onMobilePanelChange].
  split; [reflexivity|]. split; [reflexivity|]. split; [reflexivity|].
  unfold ResponsiveConfigurablePanelLayout.notify.
  pose proof (mobileSlots_slots layout panels) as H.
  pose proof (index_map ResponsiveConfigurablePanelLayout.slot
                (ResponsiveConfigurablePanelLayout.mobileSlots layout panels) index) as Hi.
  rewrite <- (length_map ResponsiveConfigurablePanelLayout.slot).
  rewrite H in Hi. rewrite H. clear H.
  set (slots := ResponsiveConfigurablePanelLayout.mobileSlots layout panels) in *.
  destruct (TabGroup.index slots index) as [info|]; cbn [option_map] in Hi.
  - set (s := ResponsiveConfigurablePanelLayout.slot info) in *. clearbody s. clear info slots.
    split.
    + intros Hout. exfalso. unfold TabGroup.index in Hi.
      destruct Hout as [Hneg|Hbig].
      * apply Z.ltb_lt in Hneg. rewrite Hneg in Hi. discriminate.
      * destruct (index <? 0)%Z; [discriminate|].
        assert (Hnone : nth_error
                          (filter (fun r => shown (PanelConfigurator.get layout r))
                             [Left; Middle; Right]) (Z.to_nat index) = None)
          by (apply nth_error_None; lia).
        congruence.
    + intros i s' Hs. injection Hs as <- <-. split; [reflexivity|].
      unfold TabGroup.index in Hi.
      destruct (index <? 0)%Z eqn:Hneg; [discriminate|]. apply Z.ltb_ge in Hneg.
      assert (Hlt : (Z.to_nat index
                     < List.length (filter (fun r => shown (PanelConfigurator.get layout r))
                                      [Left; Middle; Right]))%nat)
        by (apply nth_error_Some; congruence).
      split; [lia|].
      assert (Hin : In s (filter (fun r => shown (PanelConfigurator.get layout r))
                            [Left; Middle; Right]))
        by (eapply nth_error_In; exact Hi).
      apply filter_In in Hin. split; [apply Hin|].
      cbn [filter] in Hi, Hlt.
      destruct (shown (PanelConfigurator.get layout Left)) eqn:E1,
        (shown (PanelConfigurator.get layout Middle)) eqn:E2,
        (shown (PanelConfigurator.get layout Right)) eqn:E3;
        cbn [List.length] in Hlt;
        (destruct (Z.to_nat index) as [|[|[|n]]] eqn:En; try lia);
        cbn in Hi; injection Hi as <-; cbn [ConfigurablePanelLayout.indexOf];
        (split; [lia|]);
        (split;
         [intros Heq [] Hr; cbn in Hr, Heq; solve [lia | assumption]
         |intros Hall; try lia;
          first [ pose proof (Hall Left ltac:(cbn; lia)); congruence
                | pose proof (Hall Middle ltac:(cbn; lia)); congruence ]]).
  - split; [reflexivity|]. intros i s Hs. discriminate.
Qed.

(** ** EditableConfigurablePanelLayout: the end of a drag *)

(** X28.  EditableConfigurablePanelLayout, the end of a drag of a slot.
    The drag state is reset in every case.  Nothing is reported when the
    slot is dropped outside every slot or on itself, or when
    [onLayoutChange] is not supplied.  Dropped on another slot, the
    contents of the two slots are exchanged and the third is left alone;
    a layout without duplicate panels stays so, and the same drag on the
    new layout gives back the old one. *)
Theorem slot_drag_swaps_two_slots
    (layout : PanelConfigurator.PanelLayout) (active : Region) (over : option Region)
    (st : EditableConfigurablePanelLayout.State) :
  let dropped := EditableConfigurablePanelLayout.handleDragEnd true layout active over st in
  fst dropped = EditableConfigurablePanelLayout.initial
  /\ snd (EditableConfigurablePanelLayout.handleDragEnd false layout active over st) = None
  /\ (over = None \/ over = Some active -> snd dropped = None)
  /\ (forall target,
        over = Some target ->
        target <> active ->
        exists newLayout,
          snd dropped = Some newLayout
          /\ PanelConfigurator.get newLayout active = PanelConfigurator.get layout target
          /\ PanelConfigurator.get newLayout target = PanelConfigurator.get layout active
          /\ (forall other, other <> active -> other <> target ->
              PanelConfigurator.get newLayout other = PanelConfigurator.get layout other)
          /\ (PanelConfigurator.unique layout -> PanelConfigurator.unique newLayout)
          /\ snd (EditableConfigurablePanelLayout.handleDragEnd true newLayout active over st)
             = Some layout).
Proof.
  cbv zeta. unfold EditableConfigurablePanelLayout.handleDragEnd.
  split; [destruct over as [t|]; [destruct (region_eqb active t)|]; reflexivity|].
  split; [destruct over as [t|]; [destruct (region_eqb active t)|]; reflexivity|].
  split.
  - intros [-> | ->]; [reflexivity|].
    now rewrite (proj2 (region_eqb_eq active active) eq_refl).
  - intros target -> Hne.
    assert (E : region_eqb active target = false) by (apply region_eqb_neq; congruence).
    rewrite E. cbn [snd]. eexists. split; [reflexivity|].
    split; [|split; [|split; [|split]]].
    + assert (E' : region_eqb target active = false) by (apply region_eqb_neq; congruence).
      rewrite !get_set_raw. rewrite E'.
      now rewrite (proj2 (region_eqb_eq active active) eq_refl).
    + rewrite !get_set_raw. now rewrite (proj2 (region_eqb_eq target target) eq_refl).
    + intros other H1 H2. rewrite !get_set_raw.
      assert (E1 : region_eqb active other = false) by (apply region_eqb_neq; congruence).
      assert (E2 : region_eqb target other = false) by (apply region_eqb_neq; congruence).
      now rewrite E1, E2.
    + apply swap_unique.
    + f_equal. destruct layout as [a b c]. destruct active, target; try congruence; reflexivity.
Qed.
